(** * Analyze header: a shallow embedding of [nifti/analyze.py]

    The header is a 348-byte block read through a structured layout
    ([header_dtype]) under one byte order, plus a dictionary of
    out-of-schema entries ([extra_data]).  The block is kept as the list
    of its bytes; every field access decodes the bytes at the field's
    offset under the byte order of the block, and every field assignment
    encodes into them.  Methods that mutate the header are state
    transformers that return the outcome together with the header as the
    call leaves it, so that a failing call shows what it had already
    written. *)

From Stdlib Require Import ZArith List String Ascii Bool Lia.
From Stdlib Require Import Floats.SpecFloat Init.Byte.
From stdpp Require Import gmap strings list fin_maps pretty.

Local Open Scope Z_scope.

(** ** Exceptions *)

Inductive exn :=
| HeaderDataError (msg : string)
| HeaderTypeError (msg : string)
| KeyError (msg : string)
| ValueError (msg : string)
| IOError (msg : string)
| OverflowError (msg : string)
| Exception (msg : string).

(** The class of an exception, as [isinstance] would test it. *)
Inductive exn_class :=
| cHeaderDataError | cHeaderTypeError | cKeyError | cValueError | cIOError
| cOverflowError | cException.

Definition class_of (e : exn) : exn_class :=
  match e with
  | HeaderDataError _ => cHeaderDataError
  | HeaderTypeError _ => cHeaderTypeError
  | KeyError _ => cKeyError
  | ValueError _ => cValueError
  | IOError _ => cIOError
  | OverflowError _ => cOverflowError
  | Exception _ => cException
  end.

Definition message_of (e : exn) : string :=
  match e with
  | HeaderDataError m | HeaderTypeError m | KeyError m
  | ValueError m | IOError m | OverflowError m | Exception m => m
  end.

Definition make_exn (c : exn_class) (m : string) : exn :=
  match c with
  | cHeaderDataError => HeaderDataError m
  | cHeaderTypeError => HeaderTypeError m
  | cKeyError => KeyError m
  | cValueError => ValueError m
  | cIOError => IOError m
  | cOverflowError => OverflowError m
  | cException => Exception m
  end.

(** [sub] occurs in [s]. *)
Fixpoint contains (sub s : string) : bool :=
  String.prefix sub s
  || match s with
     | EmptyString => false
     | String _ s' => contains sub s'
     end.

(** The double quote character, for messages built with ['"%s"']. *)
Definition dquote : string := String "034"%char EmptyString.

(** ** Bytes and fixed-width integers *)

Definition Z_of_byte (b : byte) : Z := Z.of_N (Byte.to_N b).

Definition byte_of_Z (z : Z) : byte :=
  match Byte.of_N (Z.to_N (z mod 256)) with
  | Some b => b
  | None => x00
  end.

#[global] Instance byte_eq_dec : EqDecision byte.
Proof.
  intros a b.
  destruct (N.eq_dec (Byte.to_N a) (Byte.to_N b)) as [E | E].
  - left. apply (f_equal Byte.of_N) in E.
    rewrite !Byte.of_to_N in E. congruence.
  - right. congruence.
Defined.

(** Unsigned value of a byte string, least significant byte first. *)
Fixpoint le_decode (bs : list byte) : Z :=
  match bs with
  | [] => 0
  | b :: r => Z_of_byte b + 256 * le_decode r
  end.

(** The [n] low bytes of [z], least significant first (two's complement
    for a negative [z]). *)
Fixpoint le_encode (n : nat) (z : Z) : list byte :=
  match n with
  | O => []
  | S k => byte_of_Z z :: le_encode k (z / 256)
  end.

(** Two's-complement reading of an unsigned [w]-bit value. *)
Definition signed (w : Z) (u : Z) : Z :=
  if u <? 2 ^ (w - 1) then u else u - 2 ^ w.

(** What a C cast to a signed [w]-bit integer keeps of [z]. *)
Definition wrap (w : Z) (z : Z) : Z := signed w (z mod 2 ^ w).

(** ** Byte order *)

(** ['<'] and ['>']. *)
Inductive endian_code := little_endian | big_endian.

#[global] Instance endian_code_eq_dec : EqDecision endian_code.
Proof. solve_decision. Defined.

Definition opposite (e : endian_code) : endian_code :=
  match e with
  | little_endian => big_endian
  | big_endian => little_endian
  end.

(** The bytes of one element as they lie in memory, from or to the
    least-significant-first order. *)
Definition in_order (o : endian_code) (bs : list byte) : list byte :=
  match o with
  | little_endian => bs
  | big_endian => rev bs
  end.

(** ** The layout *)

(** numpy type codes of the fields: ['i4'], ['i2'], ['f4'], ['S<n>']. *)
Inductive np_code := i4 | i2 | f4 | str (n : nat).

Definition code_size (c : np_code) : nat :=
  match c with
  | i4 => 4
  | i2 => 2
  | f4 => 4
  | str n => n
  end.

(** An entry is (name, code, number of elements). *)
Definition dtd := list (string * np_code * nat).

Definition header_key_dtd : dtd :=
  [ ("sizeof_hdr", i4, 1); ("data_type", str 10, 1); ("db_name", str 18, 1);
    ("extents", i4, 1); ("session_error", i2, 1); ("regular", str 1, 1);
    ("hkey_un0", str 1, 1) ]%nat.

Definition image_dimension_dtd : dtd :=
  [ ("dim", i2, 8); ("vox_units", str 4, 1); ("cal_units", str 8, 1);
    ("unused1", i2, 1); ("datatype", i2, 1); ("bitpix", i2, 1);
    ("dim_un0", i2, 1); ("pixdim", f4, 8); ("vox_offset", f4, 1);
    ("funused1", f4, 1); ("funused2", f4, 1); ("funused3", f4, 1);
    ("cal_max", f4, 1); ("cal_min", f4, 1); ("compressed", i4, 1);
    ("verified", i4, 1); ("glmax", i4, 1); ("glmin", i4, 1) ]%nat.

Definition data_history_dtd : dtd :=
  [ ("descrip", str 80, 1); ("aux_file", str 24, 1); ("orient", str 1, 1);
    ("originator", str 10, 1); ("generated", str 10, 1);
    ("scannum", str 10, 1); ("patient_id", str 10, 1);
    ("exp_date", str 10, 1); ("exp_time", str 10, 1);
    ("hist_un0", str 3, 1); ("views", i4, 1); ("vols_added", i4, 1);
    ("start_field", i4, 1); ("field_skip", i4, 1); ("omax", i4, 1);
    ("omin", i4, 1); ("smax", i4, 1); ("smin", i4, 1) ]%nat.

Definition header_dtype : dtd :=
  header_key_dtd ++ image_dimension_dtd ++ data_history_dtd.

Definition field_size (f : string * np_code * nat) : nat :=
  (code_size (snd (fst f)) * snd f)%nat.

(** [dtype.itemsize] *)
Definition itemsize (dt : dtd) : nat := sum_list (map field_size dt).

(** [dtype.names] *)
Definition names (dt : dtd) : list string := map (fun f => fst (fst f)) dt.

(** Offset, code and element count of a field. *)
Fixpoint find_field (dt : dtd) (name : string) (off : nat)
  : option (nat * np_code * nat) :=
  match dt with
  | [] => None
  | f :: dt' =>
      if String.eqb (fst (fst f)) name then Some (off, snd (fst f), snd f)
      else find_field dt' name (off + field_size f)
  end.

Definition field_offset (name : string) : nat :=
  match find_field header_dtype name 0 with
  | Some (off, _, _) => off
  | None => 0%nat
  end.

Definition off_sizeof_hdr : nat := Eval vm_compute in field_offset "sizeof_hdr".
Definition off_dim : nat := Eval vm_compute in field_offset "dim".
Definition off_datatype : nat := Eval vm_compute in field_offset "datatype".
Definition off_bitpix : nat := Eval vm_compute in field_offset "bitpix".
Definition off_pixdim : nat := Eval vm_compute in field_offset "pixdim".
Definition off_vox_offset : nat := Eval vm_compute in field_offset "vox_offset".

(** The elements of the block as a list of (size, numeric) chunks, in
    offset order: a numeric element is one chunk, a character field is
    one chunk that byte swapping leaves alone. *)
Definition field_chunks (f : string * np_code * nat) : list (nat * bool) :=
  match snd (fst f) with
  | str n => [((n * snd f)%nat, false)]
  | c => replicate (snd f) (code_size c, true)
  end.

Definition chunks (dt : dtd) : list (nat * bool) :=
  concat (map field_chunks dt).

(** [ndarray.byteswap()] on a buffer laid out as [cs]: the bytes of every
    numeric element are reversed in place. *)
Fixpoint byteswap_chunks (cs : list (nat * bool)) (b : list byte)
  : list byte :=
  match cs with
  | [] => b
  | (n, numeric) :: cs' =>
      (if numeric then rev (take n b) else take n b)
      ++ byteswap_chunks cs' (drop n b)
  end.

(** ** Reading and writing elements *)

(** The unsigned value of the [sz]-byte element at offset [off]. *)
Definition read_uint (o : endian_code) (b : list byte) (off sz : nat) : Z :=
  le_decode (in_order o (take sz (drop off b))).

(** A signed integer element ([i2], [i4]). *)
Definition read_int (o : endian_code) (b : list byte) (off sz : nat) : Z :=
  signed (8 * Z.of_nat sz) (read_uint o b off sz).

(** Store [v] in the [sz]-byte element at [off]; a value that does not
    fit keeps its low bytes. *)
Definition write_int (o : endian_code) (b : list byte) (off sz : nat) (v : Z)
  : list byte :=
  list_inserts off (in_order o (le_encode sz v)) b.

(** ** IEEE 754 single and double precision *)

Definition f32_mul := SFmul 24 128.
Definition f64_mul := SFmul 53 1024.
Definition f64_div := SFdiv 53 1024.
Definition f64_of_Z (n : Z) : spec_float := binary_normalize 53 1024 n 0 false.
Definition f32_of_Z (n : Z) : spec_float := binary_normalize 24 128 n 0 false.

(** Widening a single to a double is exact. *)
Definition f32_to_f64 (x : spec_float) : spec_float :=
  match x with
  | S754_finite s m e => binary_normalize 53 1024 (cond_Zopp s (Zpos m)) e s
  | _ => x
  end.

(** Narrowing a double to a single rounds to nearest even. *)
Definition f64_to_f32 (x : spec_float) : spec_float :=
  match x with
  | S754_finite s m e => binary_normalize 24 128 (cond_Zopp s (Zpos m)) e s
  | _ => x
  end.

(** The value of a 32-bit pattern: sign bit 31, exponent bits 30..23,
    fraction bits 22..0. *)
Definition f32_decode (bits : Z) : spec_float :=
  let s := Z.testbit bits 31 in
  let e := Z.land (Z.shiftr bits 23) 255 in
  let m := Z.land bits (2 ^ 23 - 1) in
  if e =? 255 then (if m =? 0 then S754_infinity s else S754_nan)
  else if e =? 0 then
    match m with
    | Zpos p => S754_finite s p (-149)
    | _ => S754_zero s
    end
  else
    match m + 2 ^ 23 with
    | Zpos p => S754_finite s p (e - 150)
    | _ => S754_nan
    end.

(** The pattern of a single; a NaN gets the default quiet pattern. *)
Definition f32_encode (x : spec_float) : Z :=
  let sign (s : bool) := if s then 2 ^ 31 else 0 in
  match x with
  | S754_zero s => sign s
  | S754_infinity s => sign s + 255 * 2 ^ 23
  | S754_nan => 255 * 2 ^ 23 + 2 ^ 22
  | S754_finite s m e =>
      sign s
      + (if Zpos m <? 2 ^ 23 then Zpos m
         else (e + 150) * 2 ^ 23 + (Zpos m - 2 ^ 23))
  end.

(** [x < 0] on a single given by its pattern. *)
Definition f32_ltb0 (bits : Z) : bool :=
  SFltb (f32_decode bits) (S754_zero false).

(** [np.abs] on a single given by its pattern: the sign bit is cleared. *)
Definition f32_abs (bits : Z) : Z := Z.land bits (2 ^ 31 - 1).

(** ** numpy scalar types and dtypes *)

Inductive np_type :=
| np_void | np_bool | np_int8 | np_uint8 | np_int16 | np_uint16
| np_int32 | np_uint32 | np_int64 | np_uint64
| np_float32 | np_float64 | np_complex64 | np_complex128.

#[global] Instance np_type_eq_dec : EqDecision np_type.
Proof. solve_decision. Defined.

(** A dtype: its scalar type ([dtype.type]), its fields ([dtype.fields],
    empty unless it is a structure), its size in bytes and its byte
    order ([None] where byte order does not apply: one-byte types, void,
    structures of those). *)
Record np_dtype := {
  dt_type : np_type;
  dt_fields : list (string * np_type);
  dt_itemsize : Z;
  dt_byteorder : option endian_code
}.

#[global] Instance np_dtype_eq_dec : EqDecision np_dtype.
Proof. solve_decision. Defined.

Definition type_itemsize (t : np_type) : Z :=
  match t with
  | np_void => 0
  | np_bool | np_int8 | np_uint8 => 1
  | np_int16 | np_uint16 => 2
  | np_int32 | np_uint32 | np_float32 => 4
  | np_int64 | np_uint64 | np_float64 | np_complex64 => 8
  | np_complex128 => 16
  end.

(** [dtype.newbyteorder(e)] *)
Definition newbyteorder (e : endian_code) (d : np_dtype) : np_dtype :=
  match dt_byteorder d with
  | Some _ =>
      {| dt_type := dt_type d; dt_fields := dt_fields d;
         dt_itemsize := dt_itemsize d; dt_byteorder := Some e |}
  | None => d
  end.

(** [str(t)] for a numpy scalar type, as ['%s'] renders it. *)
Definition type_name (t : np_type) : string :=
  match t with
  | np_void => "void" | np_bool => "bool" | np_int8 => "int8"
  | np_uint8 => "uint8" | np_int16 => "int16" | np_uint16 => "uint16"
  | np_int32 => "int32" | np_uint32 => "uint32" | np_int64 => "int64"
  | np_uint64 => "uint64" | np_float32 => "float32"
  | np_float64 => "float64" | np_complex64 => "complex64"
  | np_complex128 => "complex128"
  end.

(** What [set_data_dtype] may be given: a code, a label, a scalar type
    or a dtype. *)
Inductive dt_key :=
| key_code (n : Z)
| key_label (s : string)
| key_type (t : np_type)
| key_dtype (d : np_dtype).

(** ['%s' % key] *)
Definition key_str (k : dt_key) : string :=
  match k with
  | key_code n => pretty n
  | key_label s => s
  | key_type t => "<type 'numpy." ++ type_name t ++ "'>"
  | key_dtype d =>
      match dt_fields d with
      | [] => type_name (dt_type d)
      | _ => "[...]"
      end
  end.

(** ** Reports of the checks *)

(** Modelled from the spec: the class [Report] of [batteryrunners], which
    is not part of this file.  A report carries the error class to raise,
    the severity ([level], 0 when there is nothing to report or the
    problem was fixed), the problem and the fix that was applied.
    [fix_problem_msg] is the attribute [_chk_datatype] sets. *)
Record Report := {
  error : exn_class;
  level : Z;
  problem_msg : string;
  fix_msg : string;
  fix_problem_msg : string
}.

(** Modelled from the spec: [Report(hdr, error)], a report of no
    problem; the object it holds is the header the check returns. *)
Definition new_Report (err : exn_class) : Report :=
  {| error := err; level := 0; problem_msg := ""; fix_msg := "";
     fix_problem_msg := "" |}.

Definition with_level (r : Report) (l : Z) : Report :=
  {| error := error r; level := l; problem_msg := problem_msg r;
     fix_msg := fix_msg r; fix_problem_msg := fix_problem_msg r |}.

Definition with_problem_msg (r : Report) (m : string) : Report :=
  {| error := error r; level := level r; problem_msg := m;
     fix_msg := fix_msg r; fix_problem_msg := fix_problem_msg r |}.

Definition with_fix_msg (r : Report) (m : string) : Report :=
  {| error := error r; level := level r; problem_msg := problem_msg r;
     fix_msg := m; fix_problem_msg := fix_problem_msg r |}.

Definition with_fix_problem_msg (r : Report) (m : string) : Report :=
  {| error := error r; level := level r; problem_msg := problem_msg r;
     fix_msg := fix_msg r; fix_problem_msg := m |}.

(** Modelled from the spec: [Report.log_raise] of [batteryrunners].  The
    policy raises the report's error with its problem message when the
    severity is nonzero and reaches the threshold; the logging sink is
    not modelled. *)
Definition log_raise (error_level : Z) (r : Report) : option exn :=
  if negb (level r =? 0) && (error_level <=? level r)
  then Some (make_exn (error r) (problem_msg r))
  else None.

(** ** State and exceptions *)

(** A computation on a mutable [S]: the outcome, and the state as the
    computation leaves it (also when it raises). *)
Definition ES (S A : Type) : Type := S -> (exn + A) * S.

Definition ret {S A} (a : A) : ES S A := fun s => (inr a, s).

Definition raise {S A} (e : exn) : ES S A := fun s => (inl e, s).

Definition bind {S A B} (m : ES S A) (k : A -> ES S B) : ES S B :=
  fun s =>
    match m s with
    | (inl e, s') => (inl e, s')
    | (inr a, s') => k a s'
    end.

Definition get_state {S} : ES S S := fun s => (inr s, s).

Definition modify {S} (f : S -> S) : ES S unit := fun s => (inr tt, f s).

Notation "x <- m ;; k" := (bind m (fun x => k))
  (at level 100, m at next level, right associativity).
Notation "m ;;; k" := (bind m (fun _ => k))
  (at level 100, right associativity).

(** ** Python slices *)

(** The bounds of [l[start:stop]] for a sequence of length [len]: a
    negative bound counts from the end, and both are clipped. *)
Definition slice_bound (len i : Z) : Z :=
  Z.max 0 (Z.min len (if i <? 0 then i + len else i)).

Definition py_slice {A} (l : list A) (start stop : Z) : list A :=
  let len := Z.of_nat (length l) in
  let a := slice_bound len start in
  let b := slice_bound len stop in
  take (Z.to_nat (b - a)) (drop (Z.to_nat a) l).

(** The number of slots [l[start:stop]] selects. *)
Definition slice_length (len start stop : Z) : Z :=
  Z.max 0 (slice_bound len stop - slice_bound len start).

(** ** The header data: a zero-dimensional structured array *)

(** The byte order of its dtype and its 348 bytes. *)
Record ndarray0 := { dtype_order : endian_code; data : list byte }.

(** [hdr[name]] and [hdr[name] = v] for an integer element at [off]. *)
Definition get_int (hd : ndarray0) (off sz : nat) : Z :=
  read_int (dtype_order hd) (data hd) off sz.

Definition set_int (hd : ndarray0) (off sz : nat) (v : Z) : ndarray0 :=
  {| dtype_order := dtype_order hd;
     data := write_int (dtype_order hd) (data hd) off sz v |}.

Definition sizeof_hdr (hd : ndarray0) : Z := get_int hd off_sizeof_hdr 4.
Definition set_sizeof_hdr (hd : ndarray0) (v : Z) : ndarray0 :=
  set_int hd off_sizeof_hdr 4 v.

Definition datatype (hd : ndarray0) : Z := get_int hd off_datatype 2.
Definition set_datatype (hd : ndarray0) (v : Z) : ndarray0 :=
  set_int hd off_datatype 2 v.

Definition bitpix (hd : ndarray0) : Z := get_int hd off_bitpix 2.
Definition set_bitpix (hd : ndarray0) (v : Z) : ndarray0 :=
  set_int hd off_bitpix 2 v.

(** [hdr['dim'][i]] *)
Definition dim (hd : ndarray0) (i : nat) : Z :=
  get_int hd (off_dim + 2 * i) 2.
Definition set_dim (hd : ndarray0) (i : nat) (v : Z) : ndarray0 :=
  set_int hd (off_dim + 2 * i) 2 v.

(** Consecutive [sz]-byte elements from [off] on are set to [vs]. *)
Fixpoint set_elems (hd : ndarray0) (off sz : nat) (vs : list Z) : ndarray0 :=
  match vs with
  | [] => hd
  | v :: vs' => set_elems (set_int hd off sz v) (off + sz) sz vs'
  end.

(** [hdr['dim'][i:i+len(vs)] = vs] *)
Definition set_dims (hd : ndarray0) (i : nat) (vs : list Z) : ndarray0 :=
  set_elems hd (off_dim + 2 * i) 2 vs.

(** [hdr['dim']] as the list of its eight entries. *)
Definition dims (hd : ndarray0) : list Z := map (dim hd) (seq 0 8).

(** [hdr['pixdim'][i]], as the 32-bit pattern of the single. *)
Definition pixdim (hd : ndarray0) (i : nat) : Z :=
  read_uint (dtype_order hd) (data hd) (off_pixdim + 4 * i) 4.
Definition set_pixdim (hd : ndarray0) (i : nat) (bits : Z) : ndarray0 :=
  set_int hd (off_pixdim + 4 * i) 4 bits.

(** [hdr['pixdim'][i:i+len(vs)] = vs] *)
Definition set_pixdims (hd : ndarray0) (i : nat) (vs : list Z) : ndarray0 :=
  set_elems hd (off_pixdim + 4 * i) 4 vs.

Definition pixdims (hd : ndarray0) : list Z := map (pixdim hd) (seq 0 8).

(** [hdr['vox_offset']] *)
Definition vox_offset (hd : ndarray0) : Z :=
  read_uint (dtype_order hd) (data hd) off_vox_offset 4.

(** [ndarray.byteswap()]: same dtype, every numeric element reversed. *)
Definition byteswap (hd : ndarray0) : ndarray0 :=
  {| dtype_order := dtype_order hd;
     data := byteswap_chunks (chunks header_dtype) (data hd) |}.

(** [ndarray.tostring()] *)
Definition tostring (hd : ndarray0) : list byte := data hd.

(** [int(x)] for a float: truncation towards zero; Python raises for a
    NaN and for an infinity. *)
Definition float_to_int (x : spec_float) : exn + Z :=
  match x with
  | S754_zero _ => inr 0
  | S754_finite s m e =>
      inr (cond_Zopp s (if 0 <=? e then Zpos m * 2 ^ e
                        else Zpos m / 2 ^ (- e)))
  | S754_nan => inl (ValueError "cannot convert float NaN to integer")
  | S754_infinity _ =>
      inl (OverflowError "cannot convert float infinity to integer")
  end.

(** [np.eye(n)] in double precision. *)
Definition eye (n : nat) : list (list spec_float) :=
  map (fun i => map (fun j => if (i =? j)%nat then f64_of_Z 1
                              else S754_zero false) (seq 0 n)) (seq 0 n).

(** [np.diag(v)]: [v] on the diagonal, zeros elsewhere. *)
Definition diag (v : list spec_float) : list (list spec_float) :=
  imap (fun i x => map (fun j => if (i =? j)%nat then x
                                 else S754_zero false) (seq 0 (length v))) v.

(** [old[:len(new)] = new] *)
Definition overlay {A} (new old : list A) : list A :=
  new ++ drop (length new) old.

(** [aff[:r,:c] = blk] for an [r] by [c] block. *)
Definition assign_top_left {A} (blk aff : list (list A)) : list (list A) :=
  overlay (zip_with overlay blk aff) aff.

(** [row[-1] = x] *)
Definition set_last {A} (x : A) (row : list A) : list A :=
  match row with
  | [] => []
  | _ => take (length row - 1) row ++ [x]
  end.

(** [aff[:len(col),-1] = col] *)
Definition assign_last_col {A} (col : list A) (aff : list (list A))
  : list (list A) :=
  overlay (zip_with set_last col aff) aff.

(** [', '.join(l)] *)
Fixpoint join (sep : string) (l : list string) : string :=
  match l with
  | [] => ""
  | [x] => x
  | x :: rest => x ++ sep ++ join sep rest
  end.

(** The translation of the spec, computed in double precision from an
    extent and a signed spacing that is a single:
    -((extent - 1) / 2) * spacing. *)
Definition center_translation (extent : Z) (spacing : spec_float)
  : spec_float :=
  f64_mul (SFopp (f64_div (f64_of_Z (extent - 1)) (f64_of_Z 2)))
          (f32_to_f64 spacing).

(** Class attributes of [AnalyzeHeader]. *)
Definition default_x_flip : bool := true.
Definition _has_data_slope : bool := false.
Definition _has_data_intercept : bool := false.

Section Analyze.

(** The byte order of the machine ([native_code] of [volumeutils]),
    the severity from which a report raises
    ([imageglobals.error_level]), the values a dictionary may hold,
    and numpy's conversion of such a value to the bytes of a field
    of the given order, code and element count (or the exception it
    raises). *)
Variable native_code : endian_code.
Variable error_level : Z.
Context {pyobj : Type} `{EqDecision pyobj}.
Variable np_setfield :
  endian_code -> np_code -> nat -> pyobj -> exn + list byte.

Definition swapped_code : endian_code := opposite native_code.

(** *** The data type code registry *)

(** [np.dtype(t)] *)
Definition dtype_of_type (t : np_type) : np_dtype :=
  {| dt_type := t; dt_fields := []; dt_itemsize := type_itemsize t;
     dt_byteorder :=
       if 1 <? type_itemsize t then Some native_code else None |}.

(** [np.dtype([('R','u1'), ('G','u1'), ('B','u1')])] *)
Definition rgb_dtype : np_dtype :=
  {| dt_type := np_void;
     dt_fields := [("R", np_uint8); ("G", np_uint8); ("B", np_uint8)];
     dt_itemsize := 3; dt_byteorder := None |}.

(** code, label, and the type or dtype of the third column *)
Definition _dtdefs : list (Z * string * (np_type + np_dtype)) :=
  [ (0, "none", inl np_void);
    (1, "binary", inl np_void);
    (2, "uint8", inl np_uint8);
    (4, "int16", inl np_int16);
    (8, "int32", inl np_int32);
    (16, "float32", inl np_float32);
    (32, "complex64", inl np_complex64);
    (64, "float64", inl np_float64);
    (128, "RGB", inr rgb_dtype);
    (255, "all", inl np_void) ].

Definition row_dtype (r : Z * string * (np_type + np_dtype)) : np_dtype :=
  match snd r with
  | inl t => dtype_of_type t
  | inr d => d
  end.

Definition row_matches (k : dt_key)
    (r : Z * string * (np_type + np_dtype)) : bool :=
  match k with
  | key_code n => n =? fst (fst r)
  | key_label s => String.eqb s (snd (fst r))
  | key_type t =>
      match snd r with
      | inl t' => bool_decide (t = t')
      | inr _ => false
      end
  | key_dtype d => bool_decide (d = row_dtype r)
  end.

(** Modelled from the spec: the recoder [make_dt_codes] of
    [volumeutils] builds from [_dtdefs]; the function is not part of
    this file.  A lookup accepts a code, a label or a native
    representation (type or dtype) and gives the code; an alias that
    several rows share (np.void) gives the row entered last, as a
    dictionary filled row by row does.  An unmatched key is a
    [KeyError]. *)
Definition data_type_codes (k : dt_key) : option Z :=
  match filter (fun r => row_matches k r = true) (rev _dtdefs) with
  | r :: _ => Some (fst (fst r))
  | [] => None
  end.

(** Modelled from the spec: the [dtype] column of the same recoder,
    [data_type_codes.dtype[code]], which gives the native
    representation of a code and is a [KeyError] for a code that is
    not in the table. *)
Definition data_type_codes_dtype (code : Z) : option np_dtype :=
  match filter (fun r => row_matches (key_code code) r = true)
               (rev _dtdefs) with
  | r :: _ => Some (row_dtype r)
  | [] => None
  end.

(** *** The header object *)

Record AnalyzeHeader := {
  _header_data : ndarray0;
  extra_data : gmap string pyobj
}.

Definition with_data (self : AnalyzeHeader) (hd : ndarray0)
  : AnalyzeHeader :=
  {| _header_data := hd; extra_data := extra_data self |}.

(** [self.binaryblock] *)
Definition binaryblock (self : AnalyzeHeader) : list byte :=
  tostring (_header_data self).

(** [self.endianness]: [native_code] when the dtype is native. *)
Definition endianness (self : AnalyzeHeader) : endian_code :=
  if bool_decide (dtype_order (_header_data self) = native_code)
  then native_code else swapped_code.

(** [self == other] *)
Definition __eq__ (self other : AnalyzeHeader) : bool :=
  let this_end := endianness self in
  let this_bb := binaryblock self in
  if bool_decide (this_end = endianness other) then
    bool_decide (this_bb = binaryblock other)
    && bool_decide (extra_data self = extra_data other)
  else
    let other_bb := tostring (byteswap (_header_data other)) in
    bool_decide (this_bb = other_bb)
    && bool_decide (extra_data self = extra_data other).

(** [self[item] = value]: a field of the layout is converted and
    stored into the block, any other key goes to [extra_data]. *)
Definition __setitem__ (item : string) (value : pyobj)
  : ES AnalyzeHeader unit := fun self =>
  match find_field header_dtype item 0 with
  | Some (off, c, n) =>
      let hd := _header_data self in
      match np_setfield (dtype_order hd) c n value with
      | inl e => (inl e, self)
      | inr bs =>
          (inr tt,
           with_data self
             {| dtype_order := dtype_order hd;
                data := list_inserts off (take (code_size c * n) bs)
                          (data hd) |})
      end
  | None =>
      (inr tt,
       {| _header_data := _header_data self;
          extra_data := <[item := value]> (extra_data self) |})
  end.

(** [self.update(other)], [other] given by its items in iteration
    order. *)
Fixpoint update (other : list (string * pyobj)) : ES AnalyzeHeader unit :=
  match other with
  | [] => ret tt
  | (key, value) :: rest => __setitem__ key value ;;; update rest
  end.

(** *** The checks *)

Definition _chk_sizeof_hdr (hdr : AnalyzeHeader) (fix_ : bool)
  : Report * AnalyzeHeader :=
  let ret := new_Report cHeaderDataError in
  if sizeof_hdr (_header_data hdr) =? 348 then (ret, hdr)
  else
    let ret := with_problem_msg ret "sizeof_hdr should be 348" in
    if fix_ then
      (with_fix_msg ret "set sizeof_hdr to 348",
       with_data hdr (set_sizeof_hdr (_header_data hdr) 348))
    else (with_level ret 30, hdr).

Definition _chk_datatype (hdr : AnalyzeHeader) (fix_ : bool)
  : Report * AnalyzeHeader :=
  let ret := new_Report cHeaderDataError in
  let code := datatype (_header_data hdr) in
  let ret :=
    match data_type_codes_dtype code with
    | None =>
        with_problem_msg (with_level ret 40) "data code not recognized"
    | Some dtype =>
        if bool_decide (dt_type dtype = np_void) then
          with_problem_msg (with_level ret 40) "data code not supported"
        else ret
    end in
  let ret :=
    if fix_ then with_fix_problem_msg ret "not attempting fix" else ret in
  (ret, hdr).

Definition _chk_bitpix (hdr : AnalyzeHeader) (fix_ : bool)
  : Report * AnalyzeHeader :=
  let ret := new_Report cHeaderDataError in
  let code := datatype (_header_data hdr) in
  match data_type_codes_dtype code with
  | None =>
      let ret :=
        with_problem_msg (with_level ret 10)
          "no valid datatype to fix bitpix" in
      let ret :=
        if fix_ then with_fix_msg ret "no way to fix bitpix" else ret in
      (ret, hdr)
  | Some dt =>
      let bitpix' := dt_itemsize dt * 8 in
      let ret := new_Report cException in
      if bitpix' =? bitpix (_header_data hdr) then (ret, hdr)
      else
        let ret := with_problem_msg ret "bitpix does not match datatype" in
        if fix_ then
          (with_fix_msg ret "setting bitpix to match datatype",
           with_data hdr (set_bitpix (_header_data hdr) bitpix'))
        else (with_level ret 10, hdr)
  end.

Definition _chk_pixdims (hdr : AnalyzeHeader) (fix_ : bool)
  : Report * AnalyzeHeader :=
  let ret := new_Report cHeaderDataError in
  let hd := _header_data hdr in
  let spatial := py_slice (pixdims hd) 1 4 in
  if negb (existsb f32_ltb0 spatial) then (ret, hdr)
  else
    let ret := with_problem_msg ret "pixdim[1,2,3] should be positive" in
    if fix_ then
      (with_fix_msg ret "setting to abs of pixdim values",
       with_data hdr (set_pixdims hd 1 (map f32_abs spatial)))
    else (with_level ret 40, hdr).

Definition _get_checks
  : list (AnalyzeHeader -> bool -> Report * AnalyzeHeader) :=
  [ _chk_sizeof_hdr; _chk_datatype; _chk_bitpix; _chk_pixdims ].

(** *** The battery runner *)

(** Modelled from the spec: the class [BatteryRunner] of
    [batteryrunners], which is not part of this file.  The checks run
    in order, each on the object as the one before left it. *)
Fixpoint run_checks
    (checks : list (AnalyzeHeader -> bool -> Report * AnalyzeHeader))
    (fix_ : bool) (obj : AnalyzeHeader) : list Report * AnalyzeHeader :=
  match checks with
  | [] => ([], obj)
  | chk :: rest =>
      let '(report, obj) := chk obj fix_ in
      let '(reports, obj) := run_checks rest fix_ obj in
      (report :: reports, obj)
  end.

(** Modelled from the spec: [BatteryRunner.check_fix] runs every check
    with repair enabled and gives the object and all the reports. *)
Definition BatteryRunner_check_fix
    (checks : list (AnalyzeHeader -> bool -> Report * AnalyzeHeader))
    (obj : AnalyzeHeader) : list Report * AnalyzeHeader :=
  run_checks checks true obj.

(** Modelled from the spec: [BatteryRunner.check_only] runs every check
    with repair disabled and returns the reports with nonzero
    severity.  The object is threaded through all the same, so that
    leaving it alone is a property of the checks. *)
Definition BatteryRunner_check_only
    (checks : list (AnalyzeHeader -> bool -> Report * AnalyzeHeader))
    (obj : AnalyzeHeader) : list Report * AnalyzeHeader :=
  let '(reports, obj) := run_checks checks false obj in
  (filter (fun r => level r <> 0) reports, obj).

(** [for report in reports: report.log_raise(logger, error_level)] *)
Fixpoint log_raise_all (reports : list Report) : exn + unit :=
  match reports with
  | [] => inr tt
  | r :: rest =>
      match log_raise error_level r with
      | Some e => inl e
      | None => log_raise_all rest
      end
  end.

(** [self.check_fix()] *)
Definition check_fix : ES AnalyzeHeader unit := fun self =>
  let '(reports, self) := BatteryRunner_check_fix _get_checks self in
  (log_raise_all reports, self).

(** The diagnose-only run of the battery on a header, as
    [diagnose_binaryblock] makes it. *)
Definition check_only (self : AnalyzeHeader)
  : list Report * AnalyzeHeader :=
  BatteryRunner_check_only _get_checks self.

(** *** Construction *)

Definition _guessed_endian (hdr : ndarray0) : endian_code :=
  let dim0 := dim hdr 0 in
  if dim0 =? 0 then
    if sizeof_hdr hdr =? 1543569408 then swapped_code else native_code
  else if (1 <=? dim0) && (dim0 <=? 7) then native_code
  else swapped_code.

Definition _empty_headerdata (endianness : option endian_code)
  : ndarray0 :=
  let dt :=
    match endianness with
    | Some e => e
    | None => native_code
    end in
  let hdr_data :=
    {| dtype_order := dt;
       data := replicate (itemsize header_dtype) x00 |} in
  let hdr_data := set_sizeof_hdr hdr_data 348 in
  let hdr_data := set_dims hdr_data 0 (replicate 8 1) in
  let hdr_data := set_dim hdr_data 0 0 in
  let hdr_data :=
    set_pixdims hdr_data 0 (replicate 8 (f32_encode (f32_of_Z 1))) in
  let hdr_data := set_datatype hdr_data 16 in
  let hdr_data := set_bitpix hdr_data 32 in
  hdr_data.

(** [AnalyzeHeader(binaryblock, endianness, check, extra_data)].  An
    [endianness] that is given is taken as the code the table
    [endian_codes] resolves it to. *)
Definition __init__ (binaryblock : option (list byte))
    (endianness : option endian_code) (check : bool)
    (extra_data : option (gmap string pyobj)) : exn + AnalyzeHeader :=
  let extra_data :=
    match extra_data with
    | None => ∅
    | Some d => d
    end in
  match binaryblock with
  | None =>
      inr {| _header_data := _empty_headerdata endianness;
             extra_data := extra_data |}
  | Some binaryblock =>
      if negb (length binaryblock =? itemsize header_dtype)%nat then
        inl (HeaderDataError "Binary block is wrong size")
      else
        let hdr := {| dtype_order := native_code; data := binaryblock |} in
        let endianness :=
          match endianness with
          | None => _guessed_endian hdr
          | Some e => e
          end in
        let hdr :=
          if negb (bool_decide (endianness = native_code)) then
            {| dtype_order := endianness; data := binaryblock |}
          else hdr in
        let self := {| _header_data := hdr; extra_data := extra_data |} in
        if check then
          match check_fix self with
          | (inl e, _) => inl e
          | (inr _, self) => inr self
          end
        else inr self
  end.

(** [AnalyzeHeader.from_mapping(mapping, endianness, check)] *)
Definition from_mapping (mapping : list (string * pyobj))
    (endianness : option endian_code) (check : bool)
  : exn + AnalyzeHeader :=
  match __init__ None endianness true None with
  | inl e => inl e
  | inr hdr =>
      match update mapping hdr with
      | (inl e, _) => inl e
      | (inr _, hdr) =>
          if check then
            match check_fix hdr with
            | (inl e, _) => inl e
            | (inr _, hdr) => inr hdr
            end
          else inr hdr
      end
  end.

(** [self.as_byteswapped(endianness)] *)
Definition as_byteswapped (self : AnalyzeHeader) (endianness' : endian_code)
  : exn + AnalyzeHeader :=
  if bool_decide (endianness' = endianness self) then
    __init__ (Some (binaryblock self)) (Some (endianness self)) false None
  else
    let hdr_data := byteswap (_header_data self) in
    __init__ (Some (tostring hdr_data)) (Some endianness') false None.

(** *** Data type *)

Definition get_data_dtype (self : AnalyzeHeader) : exn + np_dtype :=
  let code := datatype (_header_data self) in
  match data_type_codes_dtype code with
  | None => inl (KeyError (pretty code))
  | Some dtype => inr (newbyteorder (endianness self) dtype)
  end.

Definition set_data_dtype (datatype' : dt_key) : ES AnalyzeHeader unit :=
  match data_type_codes datatype' with
  | None =>
      raise (HeaderDataError
               ("data dtype " ++ dquote ++ key_str datatype' ++ dquote
                ++ " not recognized"))
  | Some code =>
      match data_type_codes_dtype code with
      | None => raise (KeyError (pretty code))
      | Some dtype =>
          if bool_decide (dt_type dtype = np_void)
             && bool_decide (dt_fields dtype = []) then
            raise (HeaderDataError
                     ("data dtype " ++ dquote ++ key_str datatype'
                      ++ dquote ++ " known but not supported"))
          else
            modify (fun self =>
                      with_data self (set_datatype (_header_data self) code))
            ;;; modify (fun self =>
                      with_data self
                        (set_bitpix (_header_data self)
                           (dt_itemsize dtype * 8)))
      end
  end.

(** *** Shape and zooms *)

Definition get_data_shape (self : AnalyzeHeader) : list Z :=
  let dims := dims (_header_data self) in
  let ndims := dim (_header_data self) 0 in
  if ndims =? 0 then [0]
  else py_slice dims 1 (ndims + 1).

(** The last assignment, [dims[1:ndims+1] = shape], needs as many
    values as the slice has slots; numpy raises [ValueError] when a
    longer shape cannot be broadcast into it. *)
Definition set_data_shape (shape : list Z) : ES AnalyzeHeader unit :=
  let ndims := Z.of_nat (length shape) in
  modify (fun self =>
            with_data self (set_dims (_header_data self) 0 (replicate 8 1)))
  ;;; modify (fun self => with_data self (set_dim (_header_data self) 0 ndims))
  ;;; if slice_length 8 1 (ndims + 1) =? ndims then
        modify (fun self =>
                  with_data self (set_dims (_header_data self) 1 shape))
      else raise (ValueError "could not broadcast input array").

Definition get_zooms (self : AnalyzeHeader) : list spec_float :=
  let hdr := _header_data self in
  let ndim := dim hdr 0 in
  if ndim =? 0 then []
  else map f32_decode (py_slice (pixdims hdr) 1 (ndim + 1)).

(** [zooms] is the sequence as [np.asarray] holds it, in double
    precision; storing it narrows every value to a single. *)
Definition set_zooms (zooms : list spec_float) : ES AnalyzeHeader unit :=
  self <- get_state ;;
  let hdr := _header_data self in
  let ndim := dim hdr 0 in
  if negb (Z.of_nat (length zooms) =? ndim) then
    raise (HeaderDataError
             ("Expecting " ++ pretty ndim ++ " zoom values for ndim "
              ++ pretty ndim))
  else if existsb (fun z => SFltb z (S754_zero false)) zooms then
    raise (HeaderDataError "zooms must be positive")
  else if slice_length 8 1 (ndim + 1) =? Z.of_nat (length zooms) then
    modify (fun self =>
              with_data self
                (set_pixdims (_header_data self) 1
                   (map (fun z => f32_encode (f64_to_f32 z)) zooms)))
  else raise (ValueError "could not broadcast input array").

(** *** The base affine *)

Definition get_base_affine (self : AnalyzeHeader)
  : list (list spec_float) :=
  let hdr := _header_data self in
  let zooms := map f32_decode (py_slice (pixdims hdr) 1 4) in
  let zooms :=
    if default_x_flip then
      match zooms with
      | z :: rest => f32_mul z (f32_of_Z (-1)) :: rest
      | [] => []
      end
    else zooms in
  let origin :=
    map (fun d => f64_div (f64_of_Z (wrap 16 (d - 1))) (f64_of_Z 2))
        (py_slice (dims hdr) 1 4) in
  let aff := eye 4 in
  let aff := assign_top_left (map (map f32_to_f64) (diag zooms)) aff in
  let aff :=
    assign_last_col
      (zip_with f64_mul (map SFopp origin) (map f32_to_f64 zooms)) aff in
  aff.

(** *** Writing the data *)

Section DataIO.

(** The stream ([seek], [tell]), the array to write (its [shape]
    and [dtype.type]), the marshaller [array_to_file] and the cast
    test [can_cast] of [volumeutils]. *)
Variable fileobj : Type.
Variable seek : Z -> ES fileobj unit.
Variable tell : ES fileobj Z.
Variable ndarray : Type.
Variable shape_of : ndarray -> list Z.
Variable type_of : ndarray -> np_type.
Variable array_to_file : ndarray -> np_dtype -> ES fileobj unit.
Variable can_cast : np_type -> np_type -> bool -> bool -> bool.

Definition _prepare_write (self : AnalyzeHeader) (data : ndarray)
  : ES fileobj unit :=
  let shape := get_data_shape self in
  if negb (bool_decide (shape_of data = shape)) then
    raise (HeaderDataError
             ("Data should be shape (" ++ join ", " (map pretty shape)
              ++ ")"))
  else
    match float_to_int (f32_decode (vox_offset (_header_data self))) with
    | inl e => raise e
    | inr offset =>
        fun f =>
          match seek offset f with
          | (inl (IOError msg), f) =>
              (pos <- tell ;;
               if negb (pos =? offset) then raise (IOError msg)
               else ret tt) f
          | r => r
          end
    end.

Definition write_raw_data (self : AnalyzeHeader) (data : ndarray)
  : ES fileobj unit :=
  _prepare_write self data ;;;
  match get_data_dtype self with
  | inl e => raise e
  | inr out_dtype => array_to_file data out_dtype
  end.

Definition _cast_check (self : AnalyzeHeader) (nptype : np_type)
  : exn + unit :=
  match get_data_dtype self with
  | inl e => inl e
  | inr out_dtype =>
      if can_cast nptype (dt_type out_dtype)
           _has_data_intercept _has_data_slope
      then inr tt
      else inl (HeaderTypeError
                  ("Cannot cast data to header dtype without"
                   ++ " large potential loss in precision"))
  end.

Definition write_data (self : AnalyzeHeader) (data : ndarray)
  : ES fileobj unit :=
  match _cast_check self (type_of data) with
  | inl e => raise e
  | inr _ => write_raw_data self data
  end.

End DataIO.

End Analyze.

(** ** Concrete collaborators for the examples *)

(** Dictionary values that are Python integers.  numpy stores an integer
    into every element of an integer field by keeping its low bytes,
    into every element of a float field by rounding it to a single, and
    into a character field as its decimal text, cut or padded with NUL
    to the width of the field. *)
Definition int_setfield (o : endian_code) (c : np_code) (n : nat) (v : Z)
  : exn + list byte :=
  match c with
  | i2 | i4 =>
      inr (concat (replicate n (in_order o (le_encode (code_size c) v))))
  | f4 =>
      inr (concat (replicate n
             (in_order o (le_encode 4 (f32_encode (f32_of_Z v))))))
  | str k =>
      inr (take (k * n)
             (list_byte_of_string (pretty v) ++ replicate (k * n) x00))
  end.

(** [AnalyzeHeader()] on a little-endian machine. *)
Definition empty_header : AnalyzeHeader (pyobj := Z) :=
  {| _header_data := _empty_headerdata little_endian None;
     extra_data := ∅ |}.

(** [hdr = AnalyzeHeader(); hdr['funny key'] = 0] *)
Definition funny_header : AnalyzeHeader (pyobj := Z) :=
  snd (__setitem__ int_setfield "funny key" 0 empty_header).

(** The block of a big-endian empty header whose rank field says 9. *)
Definition rank9_block : list byte :=
  data (set_dim (_empty_headerdata little_endian (Some big_endian)) 0 9).

(** A stream that is a position and the record of what was written at
    which position; when it is not seekable, [seek] raises [IOError]
    and leaves the position alone. *)
Record stream := {
  seekable : bool;
  position : Z;
  written : list (Z * list Z * np_dtype)
}.

Definition stream_seek (offset : Z) : ES stream unit := fun f =>
  if seekable f then
    (inr tt, {| seekable := true; position := offset; written := written f |})
  else (inl (IOError "illegal seek"), f).

Definition stream_tell : ES stream Z := fun f => (inr (position f), f).

(** An array given by its shape, its scalar type and its values. *)
Record array := {
  arr_shape : list Z;
  arr_type : np_type;
  arr_values : list Z
}.

Definition stream_array_to_file (a : array) (dt : np_dtype) : ES stream unit :=
  fun f =>
    (inr tt,
     {| seekable := seekable f;
        position := position f + dt_itemsize dt * Z.of_nat (length (arr_values a));
        written := written f ++ [(position f, arr_values a, dt)] |}).

(** A cast test that refuses to narrow a float to an integer type and
    allows every other pair. *)
Definition simple_can_cast (src dst : np_type) (has_intercept has_slope : bool)
  : bool :=
  match src, dst with
  | (np_float32 | np_float64), (np_uint8 | np_int16 | np_int32) => false
  | _, _ => true
  end.

(** [hdr = AnalyzeHeader(); hdr['sizeof_hdr'] = 0; hdr['pixdim'][1] = -1] *)
Definition broken_header : AnalyzeHeader (pyobj := Z) :=
  with_data empty_header
    (set_pixdim (set_sizeof_hdr (_header_data empty_header) 0) 1
       (f32_encode (f32_of_Z (-1)))).

(** [hdr.set_data_shape((3, 5, 7)); hdr.set_zooms((3, 2, 1))] *)
Definition zoomed_header : AnalyzeHeader (pyobj := Z) :=
  snd (set_zooms (map f64_of_Z [3; 2; 1])
         (snd (set_data_shape [3; 5; 7] empty_header))).

(** The same with a first extent of -32768, as a block can hold it. *)
Definition wrapped_header : AnalyzeHeader (pyobj := Z) :=
  with_data zoomed_header (set_dim (_header_data zoomed_header) 1 (-32768)).

(** [hdr.set_data_shape((1, 2, 3)); hdr.set_data_dtype(np.float64)] *)
Definition float64_header : AnalyzeHeader (pyobj := Z) :=
  snd (set_data_dtype little_endian (key_type np_float64)
         (snd (set_data_shape [1; 2; 3] empty_header))).

(** [np.arange(6).reshape(1, 2, 3)] *)
Definition arange6 : array :=
  {| arr_shape := [1; 2; 3]; arr_type := np_int64;
     arr_values := [0; 1; 2; 3; 4; 5] |}.

(** A stream that cannot seek, standing at its start. *)
Definition pipe : stream :=
  {| seekable := false; position := 0; written := [] |}.

(** ** Further methods of [AnalyzeHeader] *)

(** The header data as [as_byteswapped] rebuilds it for the opposite
    order: the bytes swapped, read under the opposite order. *)
Definition swapped_data (hd : ndarray0) : ndarray0 :=
  {| dtype_order := opposite (dtype_order hd);
     data := data (byteswap hd) |}.


(** What [_get_code_field] returns or raises. *)
Inductive code_field :=
| code_int (code : Z)
| code_label (label : string)
| code_KeyError (code : Z)
| code_TypeError (msg : string).

Section AnalyzeMore.

Variable native_code : endian_code.
Variable error_level : Z.
Context {pyobj : Type} `{EqDecision pyobj}.

(** [self != other] *)
Definition __ne__ (self other : AnalyzeHeader (pyobj := pyobj)) : bool :=
  negb (__eq__ native_code self other).

(** What indexing a header gives: for a field of the layout the field of
    the header data (a view with its byte order, code, element count and
    bytes), for any other key the entry of [extra_data]. *)
Inductive item_value :=
| field_value (order : endian_code) (c : np_code) (n : nat)
    (bytes : list byte)
| extra_value (v : pyobj).

(** [self[item]] *)
Definition __getitem__ (item : string)
    (self : AnalyzeHeader (pyobj := pyobj)) : exn + item_value :=
  match find_field header_dtype item 0 with
  | Some (off, c, n) =>
      let hd := _header_data self in
      inr (field_value (dtype_order hd) c n
             (take (code_size c * n) (drop off (data hd))))
  | None =>
      match extra_data self !! item with
      | Some v => inr (extra_value v)
      | None => inl (KeyError item)
      end
  end.

(** Modelled from the spec: the [label] column of the recoder
    [data_type_codes], [data_type_codes.label[code]], which gives the
    label of a code of the table and is a [KeyError] for any other
    code. *)
Definition data_type_codes_label (code : Z) : option string :=
  match filter (fun r => row_matches native_code (key_code code) r = true)
               (rev _dtdefs) with
  | r :: _ => Some (snd (fst r))
  | [] => None
  end.

(** [self._get_code_field(code_repr, 'datatype', data_type_codes)] *)
Definition _get_code_field (self : AnalyzeHeader (pyobj := pyobj))
    (code_repr : string) : code_field :=
  let code := datatype (_header_data self) in
  if String.eqb code_repr "code" then code_int code
  else if String.eqb code_repr "label" then
    match data_type_codes_label code with
    | Some l => code_label l
    | None => code_KeyError code
    end
  else code_TypeError ("code_repr should be " ++ dquote ++ "label" ++ dquote
                       ++ " or " ++ dquote ++ "code" ++ dquote).

(** [self.get_datatype(code_repr)] *)
Definition get_datatype (self : AnalyzeHeader (pyobj := pyobj))
    (code_repr : string) : code_field :=
  _get_code_field self code_repr.

Section HeaderIO.

(** A file object with [read] and [write]. *)
Variable fileobj : Type.
Variable read : nat -> ES fileobj (list byte).
Variable write : list byte -> ES fileobj unit.

(** [AnalyzeHeader.from_fileobj(fileobj, endianness, check)] *)
Definition from_fileobj (endianness : option endian_code) (check : bool)
  : ES fileobj (AnalyzeHeader (pyobj := pyobj)) :=
  raw_str <- read (itemsize header_dtype) ;;
  match __init__ native_code error_level (Some raw_str) endianness check
          None with
  | inl e => raise e
  | inr hdr => ret hdr
  end.

(** [self.write_header_to(fileobj)] *)
Definition write_header_to (self : AnalyzeHeader (pyobj := pyobj))
  : ES fileobj unit :=
  write (binaryblock self).

End HeaderIO.

End AnalyzeMore.

(** ** An in-memory file *)

(** A [StringIO]: its contents and its position.  Writing replaces the
    bytes from the position on and extends the contents where it runs
    past their end (after padding with NUL when the position is beyond
    the end); reading returns at most the bytes asked for and moves the
    position past them. *)
Record StringIO := { getvalue : list byte; pos : nat }.

Definition StringIO_write (s : list byte) : ES StringIO unit := fun f =>
  let padded := getvalue f ++ replicate (pos f - length (getvalue f)) x00 in
  (inr tt,
   {| getvalue := take (pos f) padded ++ s
                  ++ drop (pos f + length s) padded;
      pos := (pos f + length s)%nat |}).

Definition StringIO_read (n : nat) : ES StringIO (list byte) := fun f =>
  let s := take n (drop (pos f) (getvalue f)) in
  (inr s, {| getvalue := getvalue f; pos := (pos f + length s)%nat |}).

Definition StringIO_seek (p : nat) : ES StringIO unit := fun f =>
  (inr tt, {| getvalue := getvalue f; pos := p |}).

(** ** The image object *)

Section AnalyzeImage.

Variable native_code : endian_code.
Context {pyobj : Type} `{EqDecision pyobj}.

(** The array type, the world of files, and
    [header.read_data(allopen(fname))]: opening the file and
    materialising the array the header describes. *)
Variable ndarray : Type.
Variable world : Type.
Variable read_data :
  AnalyzeHeader (pyobj := pyobj) -> string -> ES world ndarray.

(** The attributes of an image: the array, when one is held, the
    affine, when one is set (a 4 by 4 array of doubles, given by its
    rows), the mapping from file roles to file names, when one is set,
    and the header. *)
Record AnalyzeImage := {
  _data : option ndarray;
  _affine : option (list (list spec_float));
  _files : option (gmap string string);
  _metadata : AnalyzeHeader (pyobj := pyobj)
}.

(** [img.get_data()]: the state is the image and the world of files. *)
Definition get_data : ES (AnalyzeImage * world) (option ndarray) :=
  fun '(self, w) =>
    match _data self with
    | Some d => (inr (Some d), (self, w))
    | None =>
        match _files self with
        | None => (inr None, (self, w))
        | Some files =>
            if bool_decide (files = ∅) then (inr None, (self, w))
            else
              match files !! "image" with
              | None => (inr None, (self, w))
              | Some fname =>
                  match read_data (_metadata self) fname w with
                  | (inl e, w') => (inl e, (self, w'))
                  | (inr d, w') =>
                      (inr (Some d),
                       ({| _data := Some d; _affine := _affine self;
                           _files := _files self;
                           _metadata := _metadata self |}, w'))
                  end
              end
        end
    end.

(** [img.get_shape()], given the shape of an array. *)
Variable shape_of : ndarray -> list Z.

Definition get_shape (self : AnalyzeImage) : list Z :=
  match _data self with
  | Some d => shape_of d
  | None => get_data_shape (_metadata self)
  end.




End AnalyzeImage.


(** * Proofs *)

(** ** Bytes *)

Lemma Z_of_byte_range (b : byte) : 0 <= Z_of_byte b < 256.
Proof.
  unfold Z_of_byte. pose proof (Byte.to_N_bounded b). lia.
Qed.

Lemma Z_of_byte_of_Z (z : Z) : Z_of_byte (byte_of_Z z) = z mod 256.
Proof.
  unfold byte_of_Z, Z_of_byte.
  assert (Hr : 0 <= z mod 256 < 256) by (apply Z.mod_pos_bound; lia).
  destruct (Byte.of_N (Z.to_N (z mod 256))) as [b |] eqn:E.
  - apply Byte.to_of_N in E. rewrite E. lia.
  - apply Byte.of_N_None_iff in E. lia.
Qed.

Lemma byte_of_Z_of_byte (b : byte) : byte_of_Z (Z_of_byte b) = b.
Proof.
  unfold byte_of_Z. rewrite Z.mod_small by apply Z_of_byte_range.
  unfold Z_of_byte. rewrite N2Z.id, Byte.of_to_N. reflexivity.
Qed.

Lemma length_le_encode (n : nat) (z : Z) : length (le_encode n z) = n.
Proof.
  revert z. induction n as [| n IH]; intros z; simpl; [reflexivity |].
  now rewrite IH.
Qed.

Lemma le_decode_range (bs : list byte) :
  0 <= le_decode bs < 256 ^ Z.of_nat (length bs).
Proof.
  induction bs as [| b bs IH]; [simpl; lia |].
  cbn [le_decode length]. rewrite Nat2Z.inj_succ, Z.pow_succ_r by lia.
  pose proof (Z_of_byte_range b). lia.
Qed.

Lemma le_decode_encode (n : nat) (z : Z) :
  le_decode (le_encode n z) = z mod 256 ^ Z.of_nat n.
Proof.
  revert z. induction n as [| n IH]; intros z.
  - simpl. now rewrite Z.mod_1_r.
  - cbn [le_encode le_decode]. rewrite IH, Z_of_byte_of_Z.
    rewrite Nat2Z.inj_succ, Z.pow_succ_r by lia.
    rewrite Z.rem_mul_r by lia. reflexivity.
Qed.

Lemma le_encode_decode (bs : list byte) :
  le_encode (length bs) (le_decode bs) = bs.
Proof.
  induction bs as [| b bs IH]; [reflexivity |].
  cbn [length le_encode le_decode].
  pose proof (Z_of_byte_range b) as Hb.
  assert (Hm : (Z_of_byte b + 256 * le_decode bs) mod 256 = Z_of_byte b).
  { rewrite (Z.mul_comm 256), Z.mod_add by lia. apply Z.mod_small. lia. }
  assert (Hd : (Z_of_byte b + 256 * le_decode bs) / 256 = le_decode bs).
  { rewrite (Z.mul_comm 256), Z.div_add by lia.
    rewrite Z.div_small by lia. lia. }
  rewrite Hd, IH. f_equal.
  unfold byte_of_Z. rewrite Hm.
  rewrite <- (Z.mod_small (Z_of_byte b) 256) by lia.
  apply byte_of_Z_of_byte.
Qed.

Lemma in_order_involutive (o : endian_code) (bs : list byte) :
  in_order o (in_order o bs) = bs.
Proof. destruct o; simpl; [reflexivity | apply rev_involutive]. Qed.

Lemma length_in_order (o : endian_code) (bs : list byte) :
  length (in_order o bs) = length bs.
Proof. destruct o; simpl; [reflexivity | apply length_rev]. Qed.

Lemma in_order_opposite (o : endian_code) (bs : list byte) :
  in_order (opposite o) bs = in_order o (rev bs).
Proof. destruct o; simpl; [reflexivity | now rewrite rev_involutive]. Qed.

Lemma opposite_involutive (o : endian_code) : opposite (opposite o) = o.
Proof. now destruct o. Qed.

Lemma opposite_neq (o : endian_code) : opposite o <> o.
Proof. now destruct o. Qed.

(** ** Two's complement *)

Lemma signed_range (w u : Z) :
  0 < w -> 0 <= u < 2 ^ w -> - 2 ^ (w - 1) <= signed w u < 2 ^ (w - 1).
Proof.
  intros Hw Hu. unfold signed.
  assert (E : 2 ^ w = 2 * 2 ^ (w - 1)).
  { rewrite <- Z.pow_succ_r by lia. f_equal. lia. }
  destruct (u <? 2 ^ (w - 1)) eqn:C; lia.
Qed.

Lemma wrap_small (w z : Z) :
  0 < w -> - 2 ^ (w - 1) <= z < 2 ^ (w - 1) -> wrap w z = z.
Proof.
  intros Hw Hz. unfold wrap, signed.
  assert (E : 2 ^ w = 2 * 2 ^ (w - 1)).
  { rewrite <- Z.pow_succ_r by lia. f_equal. lia. }
  destruct (Z_lt_le_dec z 0) as [Hn | Hp].
  - replace (z mod 2 ^ w) with (z + 2 ^ w).
    + destruct (z + 2 ^ w <? 2 ^ (w - 1)) eqn:C; lia.
    + apply Z.mod_unique with (q := -1); lia.
  - rewrite Z.mod_small by lia.
    destruct (z <? 2 ^ (w - 1)) eqn:C; lia.
Qed.

(** ** Elements of the block *)

Lemma length_write_int o b off sz v :
  length (write_int o b off sz v) = length b.
Proof. unfold write_int. apply length_inserts. Qed.

Lemma take_drop_inserts (off : nat) (k b : list byte) :
  (off + length k <= length b)%nat ->
  take (length k) (drop off (list_inserts off k b)) = k.
Proof.
  intros Hlen. apply list_eq. intros i.
  destruct (decide (i < length k)%nat) as [Hi | Hi].
  - rewrite lookup_take_lt, lookup_drop by lia.
    rewrite list_lookup_inserts by lia. f_equal. lia.
  - rewrite lookup_take_ge by lia. symmetry. apply lookup_ge_None. lia.
Qed.

Lemma take_drop_inserts_other (off off' n : nat) (k b : list byte) :
  (off' + n <= off \/ off + length k <= off')%nat ->
  take n (drop off' (list_inserts off k b)) = take n (drop off' b).
Proof.
  intros Hd. apply list_eq. intros i.
  destruct (decide (i < n)%nat) as [Hi | Hi].
  - rewrite !lookup_take_lt, !lookup_drop by lia.
    destruct Hd as [Hd | Hd].
    + apply list_lookup_inserts_lt. lia.
    + apply list_lookup_inserts_ge. lia.
  - now rewrite !lookup_take_ge by lia.
Qed.

Lemma read_uint_write_int o b off sz v :
  (off + sz <= length b)%nat ->
  read_uint o (write_int o b off sz v) off sz
  = v mod 256 ^ Z.of_nat sz.
Proof.
  intros Hlen. unfold read_uint, write_int.
  pose proof (take_drop_inserts off (in_order o (le_encode sz v)) b) as E.
  rewrite length_in_order, length_le_encode in E. rewrite E by exact Hlen.
  rewrite in_order_involutive. apply le_decode_encode.
Qed.

Lemma read_uint_write_int_other o b off sz v off' sz' :
  (off' + sz' <= off \/ off + sz <= off')%nat ->
  read_uint o (write_int o b off sz v) off' sz' = read_uint o b off' sz'.
Proof.
  intros Hd. unfold read_uint, write_int.
  rewrite take_drop_inserts_other; [reflexivity |].
  now rewrite length_in_order, length_le_encode.
Qed.

Lemma read_uint_range o b off sz :
  0 <= read_uint o b off sz < 256 ^ Z.of_nat sz.
Proof.
  unfold read_uint.
  pose proof (le_decode_range (in_order o (take sz (drop off b)))) as H.
  rewrite length_in_order in H.
  assert (Hl : (length (take sz (drop off b)) <= sz)%nat)
    by (rewrite length_take; lia).
  assert (256 ^ Z.of_nat (length (take sz (drop off b)))
          <= 256 ^ Z.of_nat sz) by (apply Z.pow_le_mono_r; lia).
  lia.
Qed.

(** ** Byte swapping *)

Lemma length_byteswap_chunks cs (b : list byte) :
  length (byteswap_chunks cs b) = length b.
Proof.
  revert b. induction cs as [| [n numeric] cs IH]; intros b; [reflexivity |].
  cbn [byteswap_chunks]. rewrite length_app, IH, length_drop.
  destruct numeric; rewrite ?length_rev, length_take; lia.
Qed.

Lemma byteswap_chunks_nil cs : byteswap_chunks cs [] = [].
Proof.
  induction cs as [| [n numeric] cs IH]; [reflexivity |].
  cbn [byteswap_chunks]. rewrite take_nil, drop_nil, IH.
  now destruct numeric.
Qed.

(** Swapping twice gives the buffer back, whatever its length. *)
Lemma byteswap_chunks_involutive cs (b : list byte) :
  byteswap_chunks cs (byteswap_chunks cs b) = b.
Proof.
  revert b. induction cs as [| [n numeric] cs IH]; intros b; [reflexivity |].
  cbn [byteswap_chunks].
  set (x := if numeric then rev (take n b) else take n b).
  assert (Hx : length x = length (take n b))
    by (subst x; destruct numeric; now rewrite ?length_rev).
  assert (Hxx : (if numeric then rev x else x) = take n b)
    by (subst x; destruct numeric; now rewrite ?rev_involutive).
  destruct (decide (n <= length b)%nat) as [Hn | Hn].
  - rewrite length_take_le in Hx by lia.
    rewrite take_app_length', drop_app_length' by lia.
    rewrite Hxx, IH. apply take_drop.
  - assert (Hd : drop n b = []) by (apply drop_ge; lia).
    rewrite Hd, byteswap_chunks_nil, app_nil_r.
    rewrite length_take_ge in Hx by lia.
    rewrite take_ge, drop_ge by lia.
    rewrite Hxx, byteswap_chunks_nil, app_nil_r. apply take_ge. lia.
Qed.

(** A numeric element of the swapped buffer holds the bytes of the same
    element of the original, reversed. *)
Lemma byteswap_chunks_elem cs1 sz cs2 (b : list byte) :
  let off := sum_list (map fst cs1) in
  (off + sz <= length b)%nat ->
  take sz (drop off (byteswap_chunks (cs1 ++ (sz, true) :: cs2) b))
  = rev (take sz (drop off b)).
Proof.
  revert b. induction cs1 as [| [n numeric] cs1 IH]; intros b off Hlen.
  - subst off. change (sum_list (map fst [])) with 0%nat in *.
    cbn [app byteswap_chunks]. rewrite !drop_0.
    rewrite take_app_length'; [reflexivity |].
    rewrite length_rev, length_take. lia.
  - subst off.
    change (sum_list (map fst ((n, numeric) :: cs1)))
      with (n + sum_list (map fst cs1))%nat in *.
    cbn [app byteswap_chunks].
    rewrite drop_app_add'.
    + rewrite IH by (rewrite length_drop; lia).
      now rewrite drop_drop.
    + destruct numeric; rewrite ?length_rev, length_take; lia.
Qed.

Lemma byteswap_involutive (hd : ndarray0) : byteswap (byteswap hd) = hd.
Proof.
  destruct hd as [o b]. unfold byteswap. cbn [dtype_order data].
  now rewrite byteswap_chunks_involutive.
Qed.

(** Reading the swapped buffer under the opposite order gives the value
    the original has under its own order: the rank field. *)
Lemma dim0_byteswap (o : endian_code) (b : list byte) :
  length b = 348%nat ->
  dim {| dtype_order := opposite o;
         data := byteswap_chunks (chunks header_dtype) b |} 0
  = dim {| dtype_order := o; data := b |} 0.
Proof.
  intros Hlen. unfold dim, get_int, read_int, read_uint.
  cbn [dtype_order data]. f_equal. f_equal.
  change (off_dim + 2 * 0)%nat with 40%nat.
  pose proof (byteswap_chunks_elem
                (take 7 (chunks header_dtype)) 2
                (drop 8 (chunks header_dtype)) b) as E.
  change (take 7 (chunks header_dtype) ++ (2%nat, true)
            :: drop 8 (chunks header_dtype))
    with (chunks header_dtype) in E.
  change (sum_list (map fst (take 7 (chunks header_dtype)))) with 40%nat in E.
  cbv zeta in E. rewrite E by lia.
  rewrite in_order_opposite. now rewrite rev_involutive.
Qed.

(** ** Endianness *)

Section Endianness.

Variable native_code : endian_code.
Variable error_level : Z.
Context {pyobj : Type} `{EqDecision pyobj}.

Lemma endianness_dtype_order (self : AnalyzeHeader (pyobj := pyobj)) :
  endianness native_code self = dtype_order (_header_data self).
Proof.
  unfold endianness, swapped_code. case_bool_decide as E; [now rewrite E |].
  destruct native_code, (dtype_order (_header_data self));
    cbn; congruence.
Qed.

(** Construction from a block of the right size under a given order,
    without checks, takes the block and the order as they are. *)
Lemma init_from_bytes (bb : list byte) (e : endian_code)
    (extra : option (gmap string pyobj)) :
  length bb = 348%nat ->
  __init__ native_code error_level (Some bb) (Some e) false extra
  = inr {| _header_data := {| dtype_order := e; data := bb |};
           extra_data := match extra with
                         | None => ∅
                         | Some d => d
                         end |}.
Proof.
  intros Hlen. unfold __init__. rewrite Hlen.
  change (itemsize header_dtype) with 348%nat.
  rewrite Nat.eqb_refl. cbn [negb].
  case_bool_decide as E; cbn [negb]; [now rewrite E | reflexivity].
Qed.

Lemma eq_refl_header (self : AnalyzeHeader (pyobj := pyobj)) :
  __eq__ native_code self self = true.
Proof.
  unfold __eq__. rewrite bool_decide_eq_true_2 by reflexivity.
  now rewrite !bool_decide_eq_true_2 by reflexivity.
Qed.

Lemma as_byteswapped_opposite (self : AnalyzeHeader (pyobj := pyobj)) :
  length (binaryblock self) = 348%nat ->
  as_byteswapped native_code error_level self
    (opposite (endianness native_code self))
  = inr {| _header_data :=
             {| dtype_order := opposite (dtype_order (_header_data self));
                data := data (byteswap (_header_data self)) |};
           extra_data := ∅ |}.
Proof.
  intros Hlen. unfold as_byteswapped.
  rewrite bool_decide_eq_false_2 by apply opposite_neq.
  rewrite init_from_bytes.
  - now rewrite endianness_dtype_order.
  - unfold tostring, byteswap. cbn [data].
    now rewrite length_byteswap_chunks.
Qed.

Lemma as_byteswapped_same (self : AnalyzeHeader (pyobj := pyobj)) :
  length (binaryblock self) = 348%nat ->
  as_byteswapped native_code error_level self (endianness native_code self)
  = inr {| _header_data := _header_data self; extra_data := ∅ |}.
Proof.
  intros Hlen. unfold as_byteswapped.
  rewrite bool_decide_eq_true_2 by reflexivity.
  rewrite init_from_bytes by exact Hlen.
  rewrite endianness_dtype_order. unfold binaryblock, tostring.
  now destruct (_header_data self).
Qed.

(** The checks never touch the ancillary mapping. *)
Lemma run_checks_extra_data (fix_ : bool)
    (self : AnalyzeHeader (pyobj := pyobj)) :
  extra_data (snd (run_checks (_get_checks native_code) fix_ self))
  = extra_data self.
Proof.
  unfold _get_checks. cbn [run_checks].
  unfold _chk_sizeof_hdr, _chk_datatype, _chk_bitpix, _chk_pixdims.
  repeat match goal with
         | |- context [if ?c then _ else _] => destruct c
         | |- context [match ?c with Some _ => _ | None => _ end] =>
             destruct c
         end; reflexivity.
Qed.

Lemma check_fix_extra_data (self : AnalyzeHeader (pyobj := pyobj)) :
  extra_data (snd (check_fix native_code error_level self))
  = extra_data self.
Proof.
  unfold check_fix, BatteryRunner_check_fix.
  rewrite <- (run_checks_extra_data true self).
  now destruct (run_checks (_get_checks native_code) true self).
Qed.

(** C2.  Endianness inference depends only on the rank field and the
    size-of-header field of the block as read under the order of the
    array it is given: a rank in 1..7 gives native whatever the size
    field holds; otherwise a rank of 0 gives swapped exactly when the
    size field is 1543569408 and native if not; any other rank,
    negative or above 7, gives swapped.  The two answers differ.  The
    constructor, when no byte order is given, infers it from the block
    read under the native order, and reads the block under the order
    inferred. *)
Theorem guessed_endian_rule (hdr : ndarray0) (bb : list byte) :
  _guessed_endian native_code hdr
  = (if (1 <=? dim hdr 0) && (dim hdr 0 <=? 7) then native_code
     else if dim hdr 0 =? 0 then
       if sizeof_hdr hdr =? 1543569408 then swapped_code native_code
       else native_code
     else swapped_code native_code)
  /\ swapped_code native_code <> native_code
  /\ ((dim hdr 0 <? 0) || (7 <? dim hdr 0)
      = negb ((1 <=? dim hdr 0) && (dim hdr 0 <=? 7))
        && negb (dim hdr 0 =? 0))
  /\ __init__ native_code error_level (pyobj := pyobj) (Some bb) None false
       None
     = (if (length bb =? 348)%nat then
          inr {| _header_data :=
                   {| dtype_order :=
                        _guessed_endian native_code
                          {| dtype_order := native_code; data := bb |};
                      data := bb |};
                 extra_data := ∅ |}
        else inl (HeaderDataError "Binary block is wrong size")).
Proof.
  split; [| split; [apply opposite_neq | split]].
  - unfold _guessed_endian.
    destruct (dim hdr 0 =? 0) eqn:E0.
    + apply Z.eqb_eq in E0. now rewrite E0.
    + now destruct ((1 <=? dim hdr 0) && (dim hdr 0 <=? 7)).
  - destruct (dim hdr 0 <? 0) eqn:A, (7 <? dim hdr 0) eqn:B,
      (1 <=? dim hdr 0) eqn:C, (dim hdr 0 <=? 7) eqn:D,
      (dim hdr 0 =? 0) eqn:E; try reflexivity; lia.
  - unfold __init__. change (itemsize header_dtype) with 348%nat.
    destruct (length bb =? 348)%nat; cbn [negb]; [| reflexivity].
    case_bool_decide as E; cbn [negb]; [now rewrite E | reflexivity].
Qed.

(** C1, as amended.  A header with an empty ancillary mapping and a
    348-byte block is rebuilt as it is from its own block under its
    own byte order when the checks are off, and also when they are on
    and find nothing to repair or to raise; converting it to the
    opposite byte order gives a header that compares equal to it, and
    converting that one back gives the header itself. *)
Theorem roundtrip_without_extra_data (self : AnalyzeHeader (pyobj := pyobj)) :
  length (binaryblock self) = 348%nat ->
  extra_data self = ∅ ->
  __init__ native_code error_level (Some (binaryblock self))
    (Some (endianness native_code self)) false None = inr self
  /\ (check_fix native_code error_level self = (inr tt, self) ->
      __init__ native_code error_level (Some (binaryblock self))
        (Some (endianness native_code self)) true None = inr self)
  /\ __eq__ native_code self self = true
  /\ exists swapped : AnalyzeHeader,
       as_byteswapped native_code error_level self
         (opposite (endianness native_code self)) = inr swapped
       /\ endianness native_code swapped
          = opposite (endianness native_code self)
       /\ __eq__ native_code swapped self = true
       /\ as_byteswapped native_code error_level swapped
            (endianness native_code self) = inr self.
Proof.
  intros Hlen Hextra.
  assert (Hself : {| _header_data :=
                       {| dtype_order := endianness native_code self;
                          data := binaryblock self |};
                     extra_data := ∅ |} = self).
  { rewrite endianness_dtype_order. destruct self as [[o b] x].
    cbn in *. now subst x. }
  split; [| split; [| split]].
  - rewrite init_from_bytes by exact Hlen. now rewrite Hself.
  - intros Hchk. unfold __init__. rewrite Hlen.
    change (itemsize header_dtype) with 348%nat.
    rewrite Nat.eqb_refl. cbn [negb].
    assert (E : (if negb (bool_decide (endianness native_code self
                                       = native_code))
                 then {| dtype_order := endianness native_code self;
                         data := binaryblock self |}
                 else {| dtype_order := native_code;
                         data := binaryblock self |})
                = {| dtype_order := endianness native_code self;
                     data := binaryblock self |}).
    { case_bool_decide as E; cbn [negb]; [now rewrite E | reflexivity]. }
    rewrite E, Hself, Hchk. reflexivity.
  - apply eq_refl_header.
  - eexists. split; [apply as_byteswapped_opposite; exact Hlen |].
    split; [| split].
    + now rewrite !endianness_dtype_order.
    + unfold __eq__. rewrite !endianness_dtype_order. cbn [_header_data].
      rewrite bool_decide_eq_false_2 by apply opposite_neq.
      unfold binaryblock, tostring. cbn [_header_data extra_data].
      rewrite Hextra.
      now rewrite !bool_decide_eq_true_2 by reflexivity.
    + unfold as_byteswapped. rewrite !endianness_dtype_order.
      cbn [_header_data].
      rewrite bool_decide_eq_false_2
        by (intros E; symmetry in E; revert E; apply opposite_neq).
      rewrite init_from_bytes.
      * unfold binaryblock, tostring, byteswap.
        cbn [data dtype_order _header_data].
        rewrite byteswap_chunks_involutive.
        destruct self as [[o b] x]. cbn in *. now subst x.
      * unfold tostring, byteswap. cbn [data].
        rewrite !length_byteswap_chunks. exact Hlen.
Qed.

(** C10.  Only the 348-byte block is serialized: the block does not
    depend on the ancillary mapping; every header the constructor
    builds from a byte block, without a mapping passed along, has an
    empty ancillary mapping; and [as_byteswapped] succeeds on a
    header with a 348-byte block and returns, for either byte order,
    a header with an empty ancillary mapping, so the entries of the
    source are not carried over. *)
Theorem serialized_form_drops_extra_data
    (self : AnalyzeHeader (pyobj := pyobj)) (e : endian_code) :
  length (binaryblock self) = 348%nat ->
  (forall extra : gmap string pyobj,
     binaryblock {| _header_data := _header_data self;
                    extra_data := extra |}
     = binaryblock self)
  /\ (forall bb e' check (h : AnalyzeHeader (pyobj := pyobj)),
        __init__ native_code error_level (Some bb) e' check None = inr h ->
        extra_data h = ∅)
  /\ (exists h : AnalyzeHeader (pyobj := pyobj),
        __init__ native_code error_level (Some (binaryblock self))
          (Some (endianness native_code self)) false None = inr h
        /\ binaryblock h = binaryblock self
        /\ extra_data h = ∅)
  /\ (exists h : AnalyzeHeader (pyobj := pyobj),
        as_byteswapped native_code error_level self e = inr h
        /\ endianness native_code h = e
        /\ extra_data h = ∅).
Proof.
  intros Hlen. split; [reflexivity |]. split; [| split].
  - intros bb e' check h. unfold __init__.
    destruct (negb (length bb =? itemsize header_dtype)%nat);
      [discriminate |].
    destruct check.
    + rewrite (surjective_pairing (check_fix _ _ _)).
      destruct (fst (check_fix _ _ _)); [discriminate |].
      intros E. injection E as <-. now rewrite check_fix_extra_data.
    + intros E. injection E as <-. reflexivity.
  - eexists. split; [apply init_from_bytes; exact Hlen |].
    split; reflexivity.
  - destruct (decide (e = endianness native_code self)) as [-> | Hne].
    + eexists. split; [apply as_byteswapped_same; exact Hlen |].
      split; [| reflexivity].
      now rewrite !endianness_dtype_order.
    + assert (e = opposite (endianness native_code self)) as ->.
      { destruct e, (endianness native_code self); cbn; congruence. }
      eexists. split; [apply as_byteswapped_opposite; exact Hlen |].
      split; [| reflexivity].
      now rewrite !endianness_dtype_order.
Qed.

End Endianness.

(** ** Fields of the header data *)

Lemma pow256 (n : nat) : 256 ^ Z.of_nat n = 2 ^ (8 * Z.of_nat n).
Proof.
  rewrite Z.pow_mul_r by lia. reflexivity.
Qed.

Lemma get_int_range (hd : ndarray0) (off sz : nat) :
  (0 < sz)%nat ->
  - 2 ^ (8 * Z.of_nat sz - 1) <= get_int hd off sz < 2 ^ (8 * Z.of_nat sz - 1).
Proof.
  intros Hsz. unfold get_int, read_int. apply signed_range; [lia |].
  rewrite <- pow256. apply read_uint_range.
Qed.

Lemma get_int_set_int (hd : ndarray0) (off sz : nat) (v : Z) :
  (off + sz <= length (data hd))%nat ->
  get_int (set_int hd off sz v) off sz = wrap (8 * Z.of_nat sz) v.
Proof.
  intros Hlen. unfold get_int, set_int, read_int. cbn [dtype_order data].
  rewrite read_uint_write_int by exact Hlen.
  unfold wrap. now rewrite pow256.
Qed.

Lemma get_int_set_int_other (hd : ndarray0) (off sz off' sz' : nat) (v : Z) :
  (off' + sz' <= off \/ off + sz <= off')%nat ->
  get_int (set_int hd off sz v) off' sz' = get_int hd off' sz'.
Proof.
  intros Hd. unfold get_int, set_int, read_int. cbn [dtype_order data].
  now rewrite read_uint_write_int_other by exact Hd.
Qed.

Lemma length_set_elems (hd : ndarray0) (off sz : nat) (vs : list Z) :
  length (data (set_elems hd off sz vs)) = length (data hd).
Proof.
  revert hd off. induction vs as [| v vs IH]; intros hd off; [reflexivity |].
  cbn [set_elems]. rewrite IH. unfold set_int. cbn [data].
  apply length_write_int.
Qed.

Lemma dtype_order_set_elems (hd : ndarray0) (off sz : nat) (vs : list Z) :
  dtype_order (set_elems hd off sz vs) = dtype_order hd.
Proof.
  revert hd off. induction vs as [| v vs IH]; intros hd off; [reflexivity |].
  cbn [set_elems]. now rewrite IH.
Qed.

(** Writing a run of elements leaves every element outside the run as it
    was. *)
Lemma read_uint_set_elems_other (hd : ndarray0) (off sz : nat) (vs : list Z)
    (off' sz' : nat) :
  (off' + sz' <= off \/ off + sz * length vs <= off')%nat ->
  read_uint (dtype_order hd) (data (set_elems hd off sz vs)) off' sz'
  = read_uint (dtype_order hd) (data hd) off' sz'.
Proof.
  revert hd off. induction vs as [| v vs IH]; intros hd off Hd;
    [reflexivity |].
  cbn [set_elems length] in *.
  pose proof (IH (set_int hd off sz v) (off + sz)%nat) as E.
  cbn [set_int dtype_order] in E. rewrite E by lia.
  unfold set_int. cbn [data]. apply read_uint_write_int_other. lia.
Qed.

(** The [j]-th element of the run holds the [j]-th value, cut to the
    width of the element. *)
Lemma read_uint_set_elems (hd : ndarray0) (off sz : nat) (vs : list Z)
    (j : nat) (v : Z) :
  (off + sz * length vs <= length (data hd))%nat ->
  vs !! j = Some v ->
  read_uint (dtype_order hd) (data (set_elems hd off sz vs)) (off + sz * j) sz
  = v mod 256 ^ Z.of_nat sz.
Proof.
  revert hd off j. induction vs as [| w vs IH]; intros hd off j Hlen Hj;
    [discriminate |].
  cbn [set_elems length] in *. destruct j as [| j].
  - injection Hj as ->.
    pose proof (read_uint_set_elems_other (set_int hd off sz v)
                  (off + sz) sz vs off sz) as E.
    cbn [set_int dtype_order] in E.
    replace (off + sz * 0)%nat with off by lia. rewrite E by lia.
    unfold set_int. cbn [data]. apply read_uint_write_int. lia.
  - cbn in Hj.
    pose proof (IH (set_int hd off sz w) (off + sz)%nat j) as E.
    cbn [set_int dtype_order data] in E.
    rewrite length_write_int in E.
    replace (off + sz * S j)%nat with (off + sz + sz * j)%nat by lia.
    apply E; [lia | exact Hj].
Qed.

(** [hdr['dim'][j]] after [hdr['dim'][i:i+len(vs)] = vs] *)
Lemma dim_set_dims (hd : ndarray0) (i : nat) (vs : list Z) (j : nat) :
  length (data hd) = 348%nat ->
  (i + length vs <= 8)%nat ->
  dim (set_dims hd i vs) j
  = match vs !! (j - i)%nat with
    | Some v => if (i <=? j)%nat then wrap 16 v else dim hd j
    | None => dim hd j
    end.
Proof.
  intros Hlen Hfit. unfold dim, set_dims, get_int, read_int.
  rewrite dtype_order_set_elems. unfold off_dim.
  destruct (i <=? j)%nat eqn:Hij.
  - apply Nat.leb_le in Hij.
    destruct (vs !! (j - i)%nat) as [v |] eqn:Hv.
    + replace (40 + 2 * j)%nat with (40 + 2 * i + 2 * (j - i))%nat by lia.
      rewrite (read_uint_set_elems _ _ _ _ _ v) by (rewrite ?Hlen; lia || exact Hv).
      unfold wrap. reflexivity.
    + apply lookup_ge_None in Hv.
      rewrite read_uint_set_elems_other by lia. reflexivity.
  - apply Nat.leb_gt in Hij.
    rewrite read_uint_set_elems_other by lia.
    now destruct (vs !! (j - i)%nat).
Qed.

(** Fields other than [dim] do not see an assignment to [dim]. *)
Lemma read_uint_set_dims_other (hd : ndarray0) (i : nat) (vs : list Z)
    (off sz : nat) :
  (i + length vs <= 8)%nat ->
  (off + sz <= 40 \/ 56 <= off)%nat ->
  read_uint (dtype_order hd) (data (set_dims hd i vs)) off sz
  = read_uint (dtype_order hd) (data hd) off sz.
Proof.
  intros Hfit Hd. unfold set_dims, off_dim.
  apply read_uint_set_elems_other. lia.
Qed.

(** [hdr['pixdim'][j]] after [hdr['pixdim'][i:i+len(vs)] = vs] *)
Lemma pixdim_set_pixdims (hd : ndarray0) (i : nat) (vs : list Z) (j : nat) :
  length (data hd) = 348%nat ->
  (i + length vs <= 8)%nat ->
  pixdim (set_pixdims hd i vs) j
  = match vs !! (j - i)%nat with
    | Some v => if (i <=? j)%nat then v mod 2 ^ 32 else pixdim hd j
    | None => pixdim hd j
    end.
Proof.
  intros Hlen Hfit. unfold pixdim, set_pixdims.
  rewrite dtype_order_set_elems. unfold off_pixdim.
  destruct (i <=? j)%nat eqn:Hij.
  - apply Nat.leb_le in Hij.
    destruct (vs !! (j - i)%nat) as [v |] eqn:Hv.
    + replace (76 + 4 * j)%nat with (76 + 4 * i + 4 * (j - i))%nat by lia.
      rewrite (read_uint_set_elems _ _ _ _ _ v) by (rewrite ?Hlen; lia || exact Hv).
      reflexivity.
    + apply lookup_ge_None in Hv.
      rewrite read_uint_set_elems_other by lia. reflexivity.
  - apply Nat.leb_gt in Hij.
    rewrite read_uint_set_elems_other by lia.
    now destruct (vs !! (j - i)%nat).
Qed.

Lemma read_uint_set_pixdims_other (hd : ndarray0) (i : nat) (vs : list Z)
    (off sz : nat) :
  (i + length vs <= 8)%nat ->
  (off + sz <= 76 \/ 108 <= off)%nat ->
  read_uint (dtype_order hd) (data (set_pixdims hd i vs)) off sz
  = read_uint (dtype_order hd) (data hd) off sz.
Proof.
  intros Hfit Hd. unfold set_pixdims, off_pixdim.
  apply read_uint_set_elems_other. lia.
Qed.

Lemma dims_eq (hd : ndarray0) :
  dims hd = [dim hd 0; dim hd 1; dim hd 2; dim hd 3;
             dim hd 4; dim hd 5; dim hd 6; dim hd 7].
Proof. reflexivity. Qed.

Lemma spatial_pixdims (hd : ndarray0) :
  py_slice (pixdims hd) 1 4 = [pixdim hd 1; pixdim hd 2; pixdim hd 3].
Proof. reflexivity. Qed.

Lemma spatial_dims (hd : ndarray0) :
  py_slice (dims hd) 1 4 = [dim hd 1; dim hd 2; dim hd 3].
Proof. reflexivity. Qed.

Lemma dim_range (hd : ndarray0) (i : nat) : -32768 <= dim hd i <= 32767.
Proof.
  pose proof (get_int_range hd (off_dim + 2 * i) 2) as H.
  unfold dim. change (2 ^ (8 * Z.of_nat 2 - 1)) with 32768 in H. lia.
Qed.

Lemma pixdim_range (hd : ndarray0) (i : nat) : 0 <= pixdim hd i < 2 ^ 32.
Proof. unfold pixdim. apply read_uint_range. Qed.

(** ** Singles given by their pattern *)

Lemma f32_abs_range (bits : Z) : 0 <= f32_abs bits < 2 ^ 31.
Proof.
  unfold f32_abs. change (2 ^ 31 - 1) with (Z.ones 31).
  rewrite Z.land_ones by lia. apply Z.mod_pos_bound. lia.
Qed.

Lemma f32_abs_sign (bits : Z) : Z.testbit (f32_abs bits) 31 = false.
Proof.
  unfold f32_abs. change (2 ^ 31 - 1) with (Z.ones 31).
  rewrite Z.land_spec, Z.ones_spec_high by lia. apply andb_false_r.
Qed.

Lemma f32_abs_exponent (bits : Z) :
  Z.land (Z.shiftr (f32_abs bits) 23) 255 = Z.land (Z.shiftr bits 23) 255.
Proof.
  unfold f32_abs. change (2 ^ 31 - 1) with (Z.ones 31).
  change 255 with (Z.ones 8).
  apply Z.bits_inj'. intros n Hn.
  rewrite !Z.land_spec, !Z.shiftr_spec, Z.land_spec by lia.
  destruct (Z_lt_le_dec n 8) as [Hlt | Hge].
  - rewrite (Z.ones_spec_low 31) by lia. now rewrite andb_true_r.
  - rewrite (Z.ones_spec_high 8) by lia. now rewrite !andb_false_r.
Qed.

Lemma f32_abs_fraction (bits : Z) :
  Z.land (f32_abs bits) (2 ^ 23 - 1) = Z.land bits (2 ^ 23 - 1).
Proof.
  unfold f32_abs. change (2 ^ 31 - 1) with (Z.ones 31).
  change (2 ^ 23 - 1) with (Z.ones 23).
  apply Z.bits_inj'. intros n Hn.
  rewrite !Z.land_spec.
  destruct (Z_lt_le_dec n 23) as [Hlt | Hge].
  - rewrite (Z.ones_spec_low 31) by lia. now rewrite andb_true_r.
  - rewrite (Z.ones_spec_high 23) by lia. now rewrite !andb_false_r.
Qed.

(** Clearing the sign bit of the pattern is [abs] on the value. *)
Lemma f32_decode_abs (bits : Z) :
  f32_decode (f32_abs bits) = SFabs (f32_decode bits).
Proof.
  unfold f32_decode.
  rewrite f32_abs_sign, f32_abs_exponent, f32_abs_fraction.
  destruct (Z.land (Z.shiftr bits 23) 255 =? 255).
  - now destruct (Z.land bits (2 ^ 23 - 1) =? 0).
  - destruct (Z.land (Z.shiftr bits 23) 255 =? 0).
    + now destruct (Z.land bits (2 ^ 23 - 1)).
    + now destruct (Z.land bits (2 ^ 23 - 1) + 2 ^ 23).
Qed.

Lemma f32_abs_not_negative (bits : Z) : f32_ltb0 (f32_abs bits) = false.
Proof.
  unfold f32_ltb0. rewrite f32_decode_abs.
  now destruct (f32_decode bits) as [s | s | | s m e].
Qed.

(** ** Assignments to one field seen from another *)

Ltac unfold_fields :=
  unfold sizeof_hdr, set_sizeof_hdr, datatype, set_datatype, bitpix,
    set_bitpix, dim, set_dim, pixdim, set_pixdim, vox_offset,
    off_sizeof_hdr, off_dim, off_datatype, off_bitpix, off_pixdim,
    off_vox_offset.

Ltac other_field :=
  unfold_fields;
  first
    [ apply get_int_set_int_other; lia
    | unfold set_int; cbn [dtype_order data];
      apply read_uint_write_int_other; lia
    | unfold get_int, read_int, set_pixdims, set_dims, off_pixdim, off_dim;
      rewrite dtype_order_set_elems;
      rewrite read_uint_set_elems_other by lia; reflexivity ].

Lemma datatype_set_sizeof_hdr hd v :
  datatype (set_sizeof_hdr hd v) = datatype hd.
Proof. other_field. Qed.

Lemma bitpix_set_sizeof_hdr hd v : bitpix (set_sizeof_hdr hd v) = bitpix hd.
Proof. other_field. Qed.

Lemma dim_set_sizeof_hdr hd v j : dim (set_sizeof_hdr hd v) j = dim hd j.
Proof. other_field. Qed.

Lemma pixdim_set_sizeof_hdr hd v j :
  pixdim (set_sizeof_hdr hd v) j = pixdim hd j.
Proof. other_field. Qed.

Lemma pixdims_set_sizeof_hdr hd v :
  pixdims (set_sizeof_hdr hd v) = pixdims hd.
Proof.
  unfold pixdims. apply map_ext. intros j. apply pixdim_set_sizeof_hdr.
Qed.

Lemma sizeof_hdr_set_sizeof_hdr hd v :
  length (data hd) = 348%nat ->
  sizeof_hdr (set_sizeof_hdr hd v) = wrap 32 v.
Proof.
  intros Hlen. unfold sizeof_hdr, set_sizeof_hdr, off_sizeof_hdr.
  rewrite get_int_set_int by lia. reflexivity.
Qed.

Lemma sizeof_hdr_set_pixdims hd i vs :
  (i + length vs <= 8)%nat ->
  sizeof_hdr (set_pixdims hd i vs) = sizeof_hdr hd.
Proof. intros Hfit. other_field. Qed.

Lemma datatype_set_pixdims hd i vs :
  (i + length vs <= 8)%nat ->
  datatype (set_pixdims hd i vs) = datatype hd.
Proof. intros Hfit. other_field. Qed.

Lemma bitpix_set_pixdims hd i vs :
  (i + length vs <= 8)%nat ->
  bitpix (set_pixdims hd i vs) = bitpix hd.
Proof. intros Hfit. other_field. Qed.

Lemma dim_set_pixdims hd i vs j :
  (i + length vs <= 8)%nat -> (j < 8)%nat ->
  dim (set_pixdims hd i vs) j = dim hd j.
Proof. intros Hfit Hj. other_field. Qed.

Lemma dim_set_datatype hd v j : (j < 8)%nat -> dim (set_datatype hd v) j = dim hd j.
Proof. intros Hj. other_field. Qed.

Lemma dim_set_bitpix hd v j : (j < 8)%nat -> dim (set_bitpix hd v) j = dim hd j.
Proof. intros Hj. other_field. Qed.

Lemma datatype_set_bitpix hd v : datatype (set_bitpix hd v) = datatype hd.
Proof. other_field. Qed.

Lemma datatype_set_datatype hd v :
  length (data hd) = 348%nat ->
  datatype (set_datatype hd v) = wrap 16 v.
Proof.
  intros Hlen. unfold datatype, set_datatype, off_datatype.
  rewrite get_int_set_int by lia. reflexivity.
Qed.

Lemma bitpix_set_bitpix hd v :
  length (data hd) = 348%nat ->
  bitpix (set_bitpix hd v) = wrap 16 v.
Proof.
  intros Hlen. unfold bitpix, set_bitpix, off_bitpix.
  rewrite get_int_set_int by lia. reflexivity.
Qed.

Lemma length_set_int hd off sz v :
  length (data (set_int hd off sz v)) = length (data hd).
Proof. unfold set_int. cbn [data]. apply length_write_int. Qed.

(** ** The registry *)

Section Registry.

Variable native_code : endian_code.

(** The codes of the table, with their dtypes. *)
Lemma registry_codes (k : dt_key) (code : Z) :
  data_type_codes native_code k = Some code ->
  In (code, data_type_codes_dtype native_code code)
     (map (fun r => (fst (fst r), Some (row_dtype native_code r)))
          _dtdefs).
Proof.
  unfold data_type_codes. cbn [_dtdefs rev app].
  repeat (rewrite filter_cons; case_decide as Hm;
          [ intros E; injection E as <-; clear; cbn; tauto | clear Hm ]).
  discriminate.
Qed.

(** Every code of the table is a 16-bit value, and the bit width of
    its dtype is one too. *)
Lemma registry_code_fits (k : dt_key) (code : Z) :
  data_type_codes native_code k = Some code ->
  exists dt, data_type_codes_dtype native_code code = Some dt
             /\ wrap 16 code = code
             /\ wrap 16 (dt_itemsize dt * 8) = dt_itemsize dt * 8.
Proof.
  intros Hk. apply registry_codes in Hk. cbn in Hk.
  repeat (destruct Hk as [Hk | Hk];
          [ injection Hk as <- <-; eexists; repeat split; reflexivity |]).
  contradiction.
Qed.

End Registry.

Section Checks.

Variable native_code : endian_code.
Variable error_level : Z.
Context {pyobj : Type} `{EqDecision pyobj}.

(** C3.  A header whose size-of-header field is 0 and that has a
    negative value among its three spatial spacings, the data type
    code and bit width being in order: [check_fix] raises nothing,
    leaves the size field at 348 and each of the three spacings at its
    absolute value (none negative any more), and exactly two reports
    record a fix; the diagnose-only run leaves the header as it was
    and returns exactly two reports of nonzero severity (30 and 40),
    none with a fix. *)
Theorem check_fix_repairs_size_and_spacing
    (hdr : AnalyzeHeader (pyobj := pyobj)) (dt : np_dtype) :
  length (binaryblock hdr) = 348%nat ->
  sizeof_hdr (_header_data hdr) = 0 ->
  existsb f32_ltb0 (py_slice (pixdims (_header_data hdr)) 1 4) = true ->
  data_type_codes_dtype native_code (datatype (_header_data hdr)) = Some dt ->
  dt_type dt <> np_void ->
  bitpix (_header_data hdr) = dt_itemsize dt * 8 ->
  exists (reports : list Report) (fixed : AnalyzeHeader),
    BatteryRunner_check_fix (_get_checks native_code) hdr = (reports, fixed)
    /\ check_fix native_code error_level hdr = (inr tt, fixed)
    /\ sizeof_hdr (_header_data fixed) = 348
    /\ py_slice (pixdims (_header_data fixed)) 1 4
       = map f32_abs (py_slice (pixdims (_header_data hdr)) 1 4)
    /\ map f32_decode (py_slice (pixdims (_header_data fixed)) 1 4)
       = map (fun x => SFabs (f32_decode x))
           (py_slice (pixdims (_header_data hdr)) 1 4)
    /\ existsb f32_ltb0 (py_slice (pixdims (_header_data fixed)) 1 4) = false
    /\ map fix_msg (filter (fun r => fix_msg r <> "") reports)
       = ["set sizeof_hdr to 348"; "setting to abs of pixdim values"]
    /\ check_only native_code hdr
       = ([ {| error := cHeaderDataError; level := 30;
               problem_msg := "sizeof_hdr should be 348";
               fix_msg := ""; fix_problem_msg := "" |};
            {| error := cHeaderDataError; level := 40;
               problem_msg := "pixdim[1,2,3] should be positive";
               fix_msg := ""; fix_problem_msg := "" |} ],
          hdr).
Proof.
  intros Hlen Hsz Hneg Hdt Hvoid Hbp.
  unfold binaryblock, tostring in Hlen.
  set (hd := _header_data hdr) in *.
  set (hd1 := set_sizeof_hdr hd 348).
  set (spatial := py_slice (pixdims hd) 1 4) in *.
  set (hd2 := set_pixdims hd1 1 (map f32_abs spatial)).
  assert (Hfix : BatteryRunner_check_fix (_get_checks native_code) hdr
                 = ([ with_fix_msg
                        (with_problem_msg (new_Report cHeaderDataError)
                           "sizeof_hdr should be 348")
                        "set sizeof_hdr to 348";
                      with_fix_problem_msg (new_Report cHeaderDataError)
                        "not attempting fix";
                      new_Report cException;
                      with_fix_msg
                        (with_problem_msg (new_Report cHeaderDataError)
                           "pixdim[1,2,3] should be positive")
                        "setting to abs of pixdim values" ],
                    with_data hdr hd2)).
  { unfold BatteryRunner_check_fix, _get_checks. cbn [run_checks].
    unfold _chk_sizeof_hdr at 1. fold hd. rewrite Hsz.
    change (0 =? 348) with false. cbv iota.
    unfold _chk_datatype at 1. cbn [_header_data with_data]. fold hd1.
    replace (datatype hd1) with (datatype hd)
      by (symmetry; apply datatype_set_sizeof_hdr).
    rewrite Hdt. rewrite bool_decide_eq_false_2 by exact Hvoid.
    unfold _chk_bitpix at 1. cbn [_header_data with_data].
    replace (datatype hd1) with (datatype hd)
      by (symmetry; apply datatype_set_sizeof_hdr).
    rewrite Hdt.
    replace (bitpix hd1) with (bitpix hd)
      by (symmetry; apply bitpix_set_sizeof_hdr).
    rewrite Hbp, Z.eqb_refl.
    unfold _chk_pixdims at 1. cbn [_header_data with_data].
    replace (pixdims hd1) with (pixdims hd)
      by (symmetry; apply pixdims_set_sizeof_hdr).
    fold spatial. rewrite Hneg. cbn [negb]. reflexivity. }
  assert (Hlen1 : length (data hd1) = 348%nat)
    by (subst hd1; unfold set_sizeof_hdr; now rewrite length_set_int).
  assert (Hsp : spatial = [pixdim hd 1; pixdim hd 2; pixdim hd 3])
    by apply spatial_pixdims.
  assert (Hsp2 : py_slice (pixdims hd2) 1 4 = map f32_abs spatial).
  { rewrite spatial_pixdims. subst hd2. rewrite Hsp. cbn [map].
    rewrite !pixdim_set_pixdims by (exact Hlen1 || (cbn; lia)).
    cbn [lookup list_lookup Nat.sub Nat.leb].
    now rewrite !Z.mod_small
      by (pose proof (f32_abs_range (pixdim hd 1));
          pose proof (f32_abs_range (pixdim hd 2));
          pose proof (f32_abs_range (pixdim hd 3)); lia). }
  exists
    [ with_fix_msg
        (with_problem_msg (new_Report cHeaderDataError)
           "sizeof_hdr should be 348") "set sizeof_hdr to 348";
      with_fix_problem_msg (new_Report cHeaderDataError)
        "not attempting fix";
      new_Report cException;
      with_fix_msg
        (with_problem_msg (new_Report cHeaderDataError)
           "pixdim[1,2,3] should be positive")
        "setting to abs of pixdim values" ],
    (with_data hdr hd2).
  cbn [_header_data with_data].
  split; [exact Hfix |]. split; [| split; [| split; [| split; [| split;
    [| split]]]]].
  - unfold check_fix. rewrite Hfix. reflexivity.
  - subst hd2. rewrite sizeof_hdr_set_pixdims by (rewrite Hsp; cbn; lia).
    subst hd1. now rewrite sizeof_hdr_set_sizeof_hdr by exact Hlen.
  - exact Hsp2.
  - rewrite Hsp2, map_map. apply map_ext. intros x. apply f32_decode_abs.
  - rewrite Hsp2, Hsp. cbn [map existsb].
    now rewrite !f32_abs_not_negative.
  - reflexivity.
  - unfold check_only, BatteryRunner_check_only, _get_checks.
    cbn [run_checks].
    unfold _chk_sizeof_hdr at 1. fold hd. rewrite Hsz.
    change (0 =? 348) with false. cbv iota.
    unfold _chk_datatype at 1. fold hd.
    rewrite Hdt. rewrite bool_decide_eq_false_2 by exact Hvoid.
    unfold _chk_bitpix at 1. fold hd. rewrite Hdt, Hbp, Z.eqb_refl.
    unfold _chk_pixdims at 1. fold hd. fold spatial. rewrite Hneg.
    cbn [negb]. reflexivity.
Qed.

End Checks.

(** ** Setting and getting the data type *)

Lemma prefix_append (sub t : string) : String.prefix sub (sub +:+ t) = true.
Proof.
  induction sub as [| c sub IH]; simpl; [now destruct t |].
  destruct (Ascii.ascii_dec c c) as [_ | Hne]; [exact IH | congruence].
Qed.

Lemma contains_unfold (sub s : string) :
  contains sub s
  = String.prefix sub s
    || match s with
       | EmptyString => false
       | String _ s' => contains sub s'
       end.
Proof. now destruct s. Qed.

Lemma contains_here (sub t : string) : contains sub (sub +:+ t) = true.
Proof. rewrite contains_unfold, prefix_append. reflexivity. Qed.

Lemma contains_later (sub pre s : string) :
  contains sub s = true -> contains sub (pre +:+ s) = true.
Proof.
  intros Hs. induction pre as [| c pre IH]; [exact Hs |].
  change (String c pre +:+ s) with (String c (pre +:+ s)).
  rewrite contains_unfold, IH. apply orb_true_r.
Qed.

Lemma newbyteorder_repr (e : endian_code) (d : np_dtype) :
  dt_type (newbyteorder e d) = dt_type d
  /\ dt_fields (newbyteorder e d) = dt_fields d
  /\ dt_itemsize (newbyteorder e d) = dt_itemsize d.
Proof. unfold newbyteorder. now destruct (dt_byteorder d). Qed.

Section DataType.

Variable native_code : endian_code.
Context {pyobj : Type} `{EqDecision pyobj}.

Lemma registry_type_dtype (t : np_type) (code : Z) :
  data_type_codes native_code (key_type t) = Some code ->
  data_type_codes_dtype native_code code
  = Some (dtype_of_type native_code t).
Proof.
  destruct t; vm_compute; intros E; try discriminate;
    injection E as <-; reflexivity.
Qed.

Lemma registry_dtype_dtype (d : np_dtype) (code : Z) :
  data_type_codes native_code (key_dtype d) = Some code ->
  data_type_codes_dtype native_code code = Some d.
Proof.
  unfold data_type_codes. cbn [_dtdefs rev app].
  repeat (rewrite filter_cons; case_decide as Hm;
          [ intros E; injection E as <-;
            apply bool_decide_eq_true_1 in Hm; rewrite Hm; reflexivity
          | clear Hm ]).
  discriminate.
Qed.

(** What a successful [set_data_dtype] leaves in the header. *)
Lemma set_data_dtype_success (self : AnalyzeHeader (pyobj := pyobj))
    (k : dt_key) (code : Z) (dt : np_dtype) :
  length (binaryblock self) = 348%nat ->
  data_type_codes native_code k = Some code ->
  data_type_codes_dtype native_code code = Some dt ->
  bool_decide (dt_type dt = np_void) && bool_decide (dt_fields dt = [])
  = false ->
  let self' :=
    with_data self
      (set_bitpix (set_datatype (_header_data self) code)
         (dt_itemsize dt * 8)) in
  set_data_dtype native_code k self = (inr tt, self')
  /\ datatype (_header_data self') = code
  /\ bitpix (_header_data self') = dt_itemsize dt * 8.
Proof.
  intros Hlen Hk Hdt Hsup self'.
  destruct (registry_code_fits native_code k code Hk)
    as [dt' [Hdt' [Hc Hb]]].
  rewrite Hdt in Hdt'. injection Hdt' as <-.
  unfold binaryblock, tostring in Hlen.
  split; [| split].
  - unfold set_data_dtype. rewrite Hk, Hdt, Hsup. reflexivity.
  - subst self'. cbn [_header_data with_data].
    rewrite datatype_set_bitpix, datatype_set_datatype by exact Hlen.
    exact Hc.
  - subst self'. cbn [_header_data with_data].
    rewrite bitpix_set_bitpix
      by (unfold set_datatype; now rewrite length_set_int).
    exact Hb.
Qed.

(** Bytes outside an element do not see an assignment to it. *)
Lemma lookup_set_int_other (hd : ndarray0) (off sz : nat) (v : Z) (k : nat) :
  (k < off \/ off + sz <= k)%nat ->
  data (set_int hd off sz v) !! k = data hd !! k.
Proof.
  intros Hk. unfold set_int, write_int. cbn [data].
  destruct (decide (k < off)%nat) as [Hlt | Hge].
  - apply list_lookup_inserts_lt. exact Hlt.
  - apply list_lookup_inserts_ge.
    rewrite length_in_order, length_le_encode. lia.
Qed.

(** C8.  [set_data_dtype] is all or nothing, and which of the two is
    decided by the key alone.  A key the registry knows with a
    supported representation makes the call return, and the header it
    leaves holds the code of the registry entry in [datatype] and
    eight times the byte size of its representation in [bitpix], both
    written, with every byte outside the two fields, the byte order
    and the ancillary mapping as they were; np.uint8 is such a key.  A
    key the registry does not know, or knows as void without fields,
    makes the call raise and leaves the header exactly as it was, so
    that neither the data type code nor the bit width has changed.
    There is no third outcome: whenever the call fails the header is
    untouched, and whenever it returns both fields are written. *)
Theorem set_data_dtype_atomic (self : AnalyzeHeader (pyobj := pyobj))
    (k : dt_key) :
  length (binaryblock self) = 348%nat ->
  match set_data_dtype native_code k self with
  | (inl e, self') => self' = self
  | (inr _, self') =>
      exists code dt,
        data_type_codes native_code k = Some code
        /\ data_type_codes_dtype native_code code = Some dt
        /\ datatype (_header_data self') = code
        /\ bitpix (_header_data self') = dt_itemsize dt * 8
        /\ extra_data self' = extra_data self
  end
  /\ match data_type_codes native_code k with
     | None =>
         exists e, set_data_dtype native_code k self = (inl e, self)
     | Some code =>
         exists dt,
           data_type_codes_dtype native_code code = Some dt
           /\ if bool_decide (dt_type dt = np_void)
                 && bool_decide (dt_fields dt = [])
              then
                exists e, set_data_dtype native_code k self = (inl e, self)
              else
                exists self',
                  set_data_dtype native_code k self = (inr tt, self')
                  /\ datatype (_header_data self') = code
                  /\ bitpix (_header_data self') = dt_itemsize dt * 8
                  /\ extra_data self' = extra_data self
                  /\ endianness native_code self'
                     = endianness native_code self
                  /\ length (binaryblock self') = 348%nat
                  /\ (forall i : nat, (i < 70 \/ 74 <= i)%nat ->
                      binaryblock self' !! i = binaryblock self !! i)
     end
  /\ data_type_codes native_code (key_type np_uint8) = Some 2
  /\ data_type_codes_dtype native_code 2
     = Some (dtype_of_type native_code np_uint8)
  /\ bool_decide (dt_type (dtype_of_type native_code np_uint8) = np_void)
     && bool_decide (dt_fields (dtype_of_type native_code np_uint8) = [])
     = false.
Proof.
  intros Hlen. split; [| split; [| repeat split]].
  - destruct (data_type_codes native_code k) as [code |] eqn:Hk.
    + destruct (registry_code_fits native_code k code Hk)
        as [dt [Hdt _]].
      destruct (bool_decide (dt_type dt = np_void)
                && bool_decide (dt_fields dt = [])) eqn:Hsup.
      * unfold set_data_dtype. rewrite Hk, Hdt, Hsup. reflexivity.
      * destruct (set_data_dtype_success self k code dt Hlen Hk Hdt Hsup)
          as [E [Hc Hb]].
        rewrite E. exists code, dt. repeat split; assumption.
    + unfold set_data_dtype. rewrite Hk. reflexivity.
  - destruct (data_type_codes native_code k) as [code |] eqn:Hk.
    + destruct (registry_code_fits native_code k code Hk)
        as [dt [Hdt _]].
      exists dt. split; [exact Hdt |].
      destruct (bool_decide (dt_type dt = np_void)
                && bool_decide (dt_fields dt = [])) eqn:Hsup.
      * eexists. unfold set_data_dtype. rewrite Hk, Hdt, Hsup. reflexivity.
      * destruct (set_data_dtype_success self k code dt Hlen Hk Hdt Hsup)
          as [E [Hc Hb]].
        eexists. split; [exact E |]. split; [exact Hc |].
        split; [exact Hb |]. split; [reflexivity |].
        unfold endianness, binaryblock, tostring in *.
        cbn [_header_data with_data].
        unfold set_bitpix, set_datatype.
        split; [reflexivity |].
        split; [now rewrite !length_set_int |].
        intros i Hi.
        rewrite !lookup_set_int_other
          by (unfold off_bitpix, off_datatype; lia).
        reflexivity.
    + eexists. unfold set_data_dtype. rewrite Hk. reflexivity.
Qed.

(** C4, as amended.  For a key the registry knows with a supported
    representation, [set_data_dtype] succeeds and [get_data_dtype]
    then returns that representation (same scalar type, fields and
    size) in the byte order of the header; for a scalar type given as
    the key it is the dtype of that very type, as for uint8, and a
    dtype given as the key comes back likewise.  A key
    the registry knows as void without fields, such as the code 0,
    fails with [HeaderDataError] and a message that says "known but
    not supported"; a key the registry does not know fails with
    [HeaderDataError] and a message that says "not recognized".  The
    header is unchanged by a failure. *)
Theorem set_data_dtype_outcomes (self : AnalyzeHeader (pyobj := pyobj))
    (k : dt_key) :
  length (binaryblock self) = 348%nat ->
  match data_type_codes native_code k with
  | None =>
      exists msg,
        set_data_dtype native_code k self = (inl (HeaderDataError msg), self)
        /\ contains "not recognized" msg = true
  | Some code =>
      exists dt,
        data_type_codes_dtype native_code code = Some dt
        /\ (forall t, k = key_type t -> dt = dtype_of_type native_code t)
      /\ (forall d, k = key_dtype d -> dt = d)
        /\ if bool_decide (dt_type dt = np_void)
              && bool_decide (dt_fields dt = [])
           then
             exists msg,
               set_data_dtype native_code k self
               = (inl (HeaderDataError msg), self)
               /\ contains "known but not supported" msg = true
           else
             exists self',
               set_data_dtype native_code k self = (inr tt, self')
               /\ get_data_dtype native_code self'
                  = inr (newbyteorder (endianness native_code self) dt)
  end
  /\ data_type_codes native_code (key_type np_uint8) = Some 2
  /\ newbyteorder (endianness native_code self)
       (dtype_of_type native_code np_uint8)
     = dtype_of_type native_code np_uint8
  /\ data_type_codes native_code (key_code 0) = Some 0
  /\ data_type_codes_dtype native_code 0
     = Some (dtype_of_type native_code np_void)
  /\ data_type_codes native_code (key_label "implausible") = None.
Proof.
  intros Hlen. split; [| repeat split].
  destruct (data_type_codes native_code k) as [code |] eqn:Hk.
  - destruct (registry_code_fits native_code k code Hk)
      as [dt [Hdt _]].
    exists dt. split; [exact Hdt |]. split.
    { intros t ->. rewrite (registry_type_dtype t code Hk) in Hdt.
      now injection Hdt. }
    split.
    { intros d ->. rewrite (registry_dtype_dtype d code Hk) in Hdt.
      now injection Hdt. }
    destruct (bool_decide (dt_type dt = np_void)
              && bool_decide (dt_fields dt = [])) eqn:Hsup.
    + eexists. split.
      * unfold set_data_dtype. rewrite Hk, Hdt, Hsup. reflexivity.
      * do 3 apply contains_later.
        change (dquote +:+ " known but not supported")
          with ((dquote +:+ " ") +:+ ("known but not supported" +:+ "")).
        apply contains_later, contains_here.
    + destruct (set_data_dtype_success self k code dt Hlen Hk Hdt Hsup)
        as [E [Hc Hb]].
      eexists. split; [exact E |].
      unfold get_data_dtype. rewrite Hc, Hdt. reflexivity.
  - eexists. split.
    + unfold set_data_dtype. rewrite Hk. reflexivity.
    + do 3 apply contains_later.
      change (dquote +:+ " not recognized")
        with ((dquote +:+ " ") +:+ ("not recognized" +:+ "")).
      apply contains_later, contains_here.
Qed.

End DataType.

(** ** Shape *)

Lemma slice_length_fits (n : Z) :
  0 <= n -> slice_length 8 1 (n + 1) = Z.min n 7.
Proof.
  intros Hn. unfold slice_length, slice_bound.
  destruct (n + 1 <? 0) eqn:A; [lia |].
  change (1 <? 0) with false. cbv iota. lia.
Qed.

Lemma take_tail_dims (l : list Z) (r : Z) :
  length l = 8%nat -> 0 <= r ->
  py_slice l 1 (r + 1) = take (Z.to_nat r) (drop 1 l).
Proof.
  intros Hlen Hr. unfold py_slice, slice_bound. rewrite Hlen.
  destruct (r + 1 <? 0) eqn:A; [lia |].
  change (1 <? 0) with false. cbv iota.
  change (Z.to_nat (Z.max 0 (Z.min (Z.of_nat 8) 1))) with 1%nat.
  destruct (Z_le_gt_dec r 7) as [Hle | Hgt].
  - f_equal. lia.
  - rewrite !take_ge; [reflexivity | |]; rewrite length_drop, Hlen; lia.
Qed.

Section Shape.

Context {pyobj : Type} `{EqDecision pyobj}.

(** [set_data_shape] with at most seven extents: the call succeeds and
    leaves the rank, the extents as the 16-bit slots keep them, and 1
    in every slot after them. *)
Lemma set_data_shape_dims (self : AnalyzeHeader (pyobj := pyobj))
    (shape : list Z) :
  length (binaryblock self) = 348%nat ->
  (length shape <= 7)%nat ->
  exists self',
    set_data_shape shape self = (inr tt, self')
    /\ extra_data self' = extra_data self
    /\ dtype_order (_header_data self') = dtype_order (_header_data self)
    /\ length (data (_header_data self')) = 348%nat
    /\ dims (_header_data self')
       = Z.of_nat (length shape) :: map (wrap 16) shape
         ++ replicate (7 - length shape) 1.
Proof.
  intros Hlen Hfit. unfold binaryblock, tostring in Hlen.
  unfold set_data_shape.
  rewrite slice_length_fits by lia.
  rewrite Z.min_l by lia. rewrite Z.eqb_refl.
  cbn [bind modify _header_data with_data extra_data].
  eexists. split; [reflexivity |].
  cbn [_header_data with_data extra_data].
  change (set_dim ?hd 0 ?v) with (set_dims hd 0 [v]).
  set (hd := _header_data self) in *.
  split; [reflexivity |]. split.
  { unfold set_dims. now rewrite !dtype_order_set_elems. }
  split.
  { unfold set_dims. now rewrite !length_set_elems. }
  assert (H1 : length (data (set_dims hd 0 (replicate 8 1))) = 348%nat)
    by (unfold set_dims; now rewrite length_set_elems).
  assert (H2 : length (data (set_dims (set_dims hd 0 (replicate 8 1)) 0
                               [Z.of_nat (length shape)])) = 348%nat)
    by (unfold set_dims; now rewrite !length_set_elems).
  rewrite dims_eq.
  rewrite !(dim_set_dims _ 1 shape) by (exact H2 || lia).
  rewrite !(dim_set_dims _ 0 [_]) by (exact H1 || (cbn; lia)).
  rewrite !(dim_set_dims _ 0 (replicate 8 1)) by (exact Hlen || (cbn; lia)).
  destruct shape as [| a [| b [| c [| d [| e [| f [| g [| x ?]]]]]]]];
    cbn [length] in Hfit; try lia; reflexivity.
Qed.

Lemma get_data_shape_rank (self : AnalyzeHeader (pyobj := pyobj)) :
  0 <= dim (_header_data self) 0 ->
  get_data_shape self
  = if dim (_header_data self) 0 =? 0 then [0]
    else take (Z.to_nat (dim (_header_data self) 0))
           (drop 1 (dims (_header_data self))).
Proof.
  intros Hr. unfold get_data_shape.
  destruct (dim (_header_data self) 0 =? 0); [reflexivity |].
  now apply take_tail_dims.
Qed.

(** C6.  [get_data_shape] returns the leading [dim[0]] entries of
    [dim[1:]] (all seven when the rank is larger), except that a rank
    of 0 gives the one-element shape (0,).  [set_data_shape] with a
    shape of N <= 7 extents succeeds and leaves [dim] as N, the N
    extents, and 1 in each of the remaining slots, whatever they held
    before; when the extents are 16-bit values, [get_data_shape] then
    returns the shape that was set (and (0,) for the empty shape). *)
Theorem shape_get_and_set (self : AnalyzeHeader (pyobj := pyobj))
    (shape : list Z) :
  length (binaryblock self) = 348%nat ->
  0 <= dim (_header_data self) 0 ->
  (length shape <= 7)%nat ->
  Forall (fun d => -32768 <= d <= 32767) shape ->
  get_data_shape self
  = (if dim (_header_data self) 0 =? 0 then [0]
     else take (Z.to_nat (dim (_header_data self) 0))
            (drop 1 (dims (_header_data self))))
  /\ exists self',
       set_data_shape shape self = (inr tt, self')
       /\ dims (_header_data self')
          = Z.of_nat (length shape) :: shape
            ++ replicate (7 - length shape) 1
       /\ get_data_shape self'
          = (if (length shape =? 0)%nat then [0] else shape).
Proof.
  intros Hlen Hrank Hfit Hext.
  split; [now apply get_data_shape_rank |].
  destruct (set_data_shape_dims self shape Hlen Hfit)
    as [self' [Hset [_ [_ [_ Hdims]]]]].
  assert (Hwrap : map (wrap 16) shape = shape).
  { clear -Hext. induction Hext as [| d l Hd _ IH]; [reflexivity |].
    cbn [map]. rewrite IH. f_equal. apply wrap_small; lia. }
  rewrite Hwrap in Hdims.
  exists self'. split; [exact Hset |]. split; [exact Hdims |].
  assert (Hd0 : dim (_header_data self') 0 = Z.of_nat (length shape)).
  { rewrite dims_eq in Hdims. now injection Hdims. }
  rewrite get_data_shape_rank by lia. rewrite Hd0, Hdims.
  destruct shape as [| a l]; [reflexivity |].
  cbn [length Nat.eqb]. 
  replace (Z.of_nat (S (length l)) =? 0) with false
    by (symmetry; apply Z.eqb_neq; lia).
  rewrite Nat2Z.id. cbn [drop].
  apply (take_app_length (a :: l)).
Qed.

End Shape.

(** ** The rank field *)

(** Every field other than [dim] lies before offset 40 or from offset 56
    on. *)
Lemma find_field_other (item : string) (off : nat) (c : np_code) (n : nat) :
  find_field header_dtype item 0 = Some (off, c, n) ->
  item <> "dim" ->
  (off + code_size c * n <= 40 \/ 56 <= off)%nat.
Proof.
  intros Hf Hne. unfold header_dtype, header_key_dtd, image_dimension_dtd,
    data_history_dtd in Hf. cbn [app find_field fst snd] in Hf.
  repeat match type of Hf with
         | (if (?name =? item)%string then _ else _) = _ =>
             destruct (String.eqb_spec name item) as [Heq | _];
             [ try (symmetry in Heq; contradiction);
               injection Hf as <- <- <-; cbn; lia
             | ]
         end.
  discriminate.
Qed.

Section Rank.

Variable native_code : endian_code.
Variable error_level : Z.
Context {pyobj : Type} `{EqDecision pyobj}.
Variable np_setfield :
  endian_code -> np_code -> nat -> pyobj -> exn + list byte.

Lemma setitem_dim (item : string) (value : pyobj)
    (self : AnalyzeHeader (pyobj := pyobj)) (j : nat) :
  item <> "dim" -> (j < 8)%nat ->
  dim (_header_data (snd (__setitem__ np_setfield item value self))) j
  = dim (_header_data self) j.
Proof.
  intros Hne Hj. unfold __setitem__.
  destruct (find_field header_dtype item 0) as [[[off c] n] |] eqn:Hf;
    [| reflexivity].
  destruct (np_setfield _ c n value) as [e | bs]; [reflexivity |].
  cbn [snd _header_data with_data].
  pose proof (find_field_other item off c n Hf Hne) as Hoff.
  unfold dim, get_int, read_int, read_uint, off_dim. cbn [dtype_order data].
  rewrite take_drop_inserts_other; [reflexivity |].
  rewrite length_take. lia.
Qed.

Lemma update_dim (other : list (string * pyobj))
    (self : AnalyzeHeader (pyobj := pyobj)) (j : nat) :
  (forall v, ~ In ("dim", v) other) -> (j < 8)%nat ->
  dim (_header_data (snd (update np_setfield other self))) j
  = dim (_header_data self) j.
Proof.
  intros Hno Hj. revert self.
  induction other as [| [key value] rest IH]; intros self; [reflexivity |].
  cbn [update]. unfold bind.
  pose proof (setitem_dim key value self j) as E.
  destruct (__setitem__ np_setfield key value self) as [[e | []] self'].
  - cbn [snd] in *. apply E; [| exact Hj].
    intros ->. apply (Hno value). now left.
  - rewrite IH.
    + cbn [snd] in E. apply E; [| exact Hj].
      intros ->. apply (Hno value). now left.
    + intros v Hin. apply (Hno v). now right.
Qed.

(** The checks write [sizeof_hdr], [bitpix] and [pixdim] only. *)
Lemma run_checks_dim (fix_ : bool) (self : AnalyzeHeader (pyobj := pyobj))
    (j : nat) :
  (j < 8)%nat ->
  dim (_header_data (snd (run_checks (_get_checks native_code) fix_ self))) j
  = dim (_header_data self) j
  /\ dtype_order
       (_header_data (snd (run_checks (_get_checks native_code) fix_ self)))
     = dtype_order (_header_data self).
Proof.
  intros Hj. unfold _get_checks. cbn [run_checks].
  unfold _chk_sizeof_hdr, _chk_datatype, _chk_bitpix, _chk_pixdims.
  repeat match goal with
         | |- context [if ?c then _ else _] => destruct c
         | |- context [match ?c with Some _ => _ | None => _ end] =>
             destruct c
         end;
    cbn [snd _header_data with_data];
    rewrite ?spatial_pixdims;
    rewrite ?dim_set_pixdims by (cbn; lia);
    rewrite ?dim_set_bitpix by exact Hj;
    rewrite ?dim_set_sizeof_hdr;
    unfold set_pixdims; rewrite ?dtype_order_set_elems;
    split; reflexivity.
Qed.

Lemma check_fix_dim (self : AnalyzeHeader (pyobj := pyobj)) (j : nat) :
  (j < 8)%nat ->
  dim (_header_data (snd (check_fix native_code error_level self))) j
  = dim (_header_data self) j.
Proof.
  intros Hj. unfold check_fix, BatteryRunner_check_fix.
  rewrite <- (proj1 (run_checks_dim true self j Hj)).
  now destruct (run_checks (_get_checks native_code) true self).
Qed.

Lemma set_zooms_dim (zooms : list spec_float)
    (self : AnalyzeHeader (pyobj := pyobj)) (j : nat) :
  (j < 8)%nat ->
  dim (_header_data (snd (set_zooms zooms self))) j
  = dim (_header_data self) j.
Proof.
  intros Hj. unfold set_zooms, bind, get_state.
  destruct (negb (Z.of_nat (length zooms) =? dim (_header_data self) 0))
    eqn:Hn; [reflexivity |].
  destruct (existsb _ zooms); [reflexivity |].
  destruct (slice_length 8 1 (dim (_header_data self) 0 + 1)
            =? Z.of_nat (length zooms)) eqn:Hs; [| reflexivity].
  apply negb_false_iff, Z.eqb_eq in Hn. apply Z.eqb_eq in Hs.
  rewrite <- Hn in Hs. rewrite slice_length_fits in Hs by lia.
  cbn [modify snd _header_data with_data].
  apply dim_set_pixdims; [rewrite length_map; lia | exact Hj].
Qed.

Lemma set_data_dtype_dim (k : dt_key)
    (self : AnalyzeHeader (pyobj := pyobj)) (j : nat) :
  (j < 8)%nat ->
  dim (_header_data (snd (set_data_dtype native_code k self))) j
  = dim (_header_data self) j.
Proof.
  intros Hj. unfold set_data_dtype.
  destruct (data_type_codes native_code k) as [code |]; [| reflexivity].
  destruct (data_type_codes_dtype native_code code) as [dt |];
    [| reflexivity].
  destruct (bool_decide (dt_type dt = np_void)
            && bool_decide (dt_fields dt = [])); [reflexivity |].
  cbn [bind modify snd _header_data with_data].
  now rewrite dim_set_bitpix, dim_set_datatype.
Qed.

Lemma empty_rank (e : option endian_code) :
  dim (_empty_headerdata native_code e) 0 = 0
  /\ length (data (_empty_headerdata native_code e)) = 348%nat.
Proof.
  destruct native_code, e as [[] |]; vm_compute; split; reflexivity.
Qed.

(** C5, as amended.  The rank field is 0 in an empty header and N
    after [set_data_shape] with N <= 7 extents; [set_zooms],
    [set_data_dtype], [check_fix] and [as_byteswapped] leave it as it
    is, so a rank in 0..7 stays in 0..7 under them.  Construction from
    a byte block, with or without checks, keeps the rank the block
    holds under the byte order that was given or inferred, and
    construction from a mapping without a [dim] entry keeps the 0 of
    the empty header: no check looks at the rank. *)
Theorem rank_of_reachable_headers (self : AnalyzeHeader (pyobj := pyobj)) :
  length (binaryblock self) = 348%nat ->
  (forall e, dim (_empty_headerdata native_code e) 0 = 0)
  /\ (forall shape, (length shape <= 7)%nat ->
        dim (_header_data (snd (set_data_shape shape self))) 0
        = Z.of_nat (length shape))
  /\ (forall zooms,
        dim (_header_data (snd (set_zooms zooms self))) 0
        = dim (_header_data self) 0)
  /\ (forall k,
        dim (_header_data (snd (set_data_dtype native_code k self))) 0
        = dim (_header_data self) 0)
  /\ dim (_header_data (snd (check_fix native_code error_level self))) 0
     = dim (_header_data self) 0
  /\ (forall e, exists h : AnalyzeHeader (pyobj := pyobj),
        as_byteswapped native_code error_level self e = inr h
        /\ dim (_header_data h) 0 = dim (_header_data self) 0)
  /\ (forall bb e check (h : AnalyzeHeader (pyobj := pyobj)),
        __init__ native_code error_level (Some bb) e check None = inr h ->
        dim (_header_data h) 0
        = dim {| dtype_order :=
                   match e with
                   | Some e => e
                   | None => _guessed_endian native_code
                               {| dtype_order := native_code; data := bb |}
                   end;
                 data := bb |} 0)
  /\ (forall mapping e check (h : AnalyzeHeader (pyobj := pyobj)),
        from_mapping native_code error_level np_setfield mapping e check
        = inr h ->
        (forall v, ~ In ("dim", v) mapping) ->
        dim (_header_data h) 0 = 0).
Proof.
  intros Hlen.
  split; [intros e; apply empty_rank |].
  split.
  { intros shape Hfit.
    destruct (set_data_shape_dims self shape Hlen Hfit)
      as [self' [Hset [_ [_ [_ Hdims]]]]].
    rewrite Hset. cbn [snd]. rewrite dims_eq in Hdims.
    now injection Hdims. }
  split; [intros zooms; apply set_zooms_dim; lia |].
  split; [intros k; apply set_data_dtype_dim; lia |].
  split; [apply check_fix_dim; lia |].
  split.
  { intros e.
    destruct (decide (e = endianness native_code self)) as [-> | Hne].
    - eexists. split; [apply as_byteswapped_same; exact Hlen |].
      reflexivity.
    - assert (e = opposite (endianness native_code self)) as ->.
      { destruct e, (endianness native_code self); cbn; congruence. }
      eexists. split; [apply as_byteswapped_opposite; exact Hlen |].
      cbn [_header_data]. unfold byteswap. cbn [data].
      rewrite dim0_byteswap by exact Hlen.
      now destruct (_header_data self). }
  split.
  { intros bb e check h. unfold __init__.
    destruct (negb (length bb =? itemsize header_dtype)%nat);
      [discriminate |].
    set (order := match e with
                  | Some e => e
                  | None => _guessed_endian native_code
                              {| dtype_order := native_code; data := bb |}
                  end).
    assert (E : (if negb (bool_decide (order = native_code))
                 then {| dtype_order := order; data := bb |}
                 else {| dtype_order := native_code; data := bb |})
                = {| dtype_order := order; data := bb |}).
    { case_bool_decide as E; cbn [negb]; [now rewrite E | reflexivity]. }
    rewrite E. destruct check.
    - rewrite (surjective_pairing (check_fix _ _ _)).
      destruct (fst (check_fix _ _ _)); [discriminate |].
      intros F. injection F as <-. now rewrite check_fix_dim by lia.
    - intros F. now injection F as <-. }
  intros mapping e check h. unfold from_mapping.
  cbn [__init__].
  rewrite (surjective_pairing (update _ _ _)).
  destruct (fst (update _ _ _)); [discriminate |].
  intros F Hno.
  assert (D : dim (_header_data h) 0
              = dim (_header_data
                       (snd (update np_setfield mapping
                               {| _header_data :=
                                    _empty_headerdata native_code e;
                                  extra_data := ∅ |}))) 0).
  { destruct check.
    - rewrite (surjective_pairing (check_fix _ _ _)) in F.
      destruct (fst (check_fix _ _ _)); [discriminate |].
      injection F as <-. now rewrite check_fix_dim by lia.
    - now injection F as <-. }
  rewrite D, update_dim by (exact Hno || lia).
  apply empty_rank.
Qed.

End Rank.

(** ** Singles and doubles *)

Lemma digits2_pos_bounds (p : positive) :
  2 ^ (Zpos (digits2_pos p) - 1) <= Zpos p < 2 ^ Zpos (digits2_pos p).
Proof.
  induction p as [p IH | p IH |]; cbn [digits2_pos].
  - rewrite Pos2Z.inj_succ.
    replace (Z.succ (Zpos (digits2_pos p)) - 1) with (Zpos (digits2_pos p))
      by lia.
    rewrite Z.pow_succ_r by lia.
    assert (E : 2 ^ Zpos (digits2_pos p)
                = 2 * 2 ^ (Zpos (digits2_pos p) - 1)).
    { rewrite <- Z.pow_succ_r by lia. f_equal. lia. }
    lia.
  - rewrite Pos2Z.inj_succ.
    replace (Z.succ (Zpos (digits2_pos p)) - 1) with (Zpos (digits2_pos p))
      by lia.
    rewrite Z.pow_succ_r by lia.
    assert (E : 2 ^ Zpos (digits2_pos p)
                = 2 * 2 ^ (Zpos (digits2_pos p) - 1)).
    { rewrite <- Z.pow_succ_r by lia. f_equal. lia. }
    lia.
  - cbn. lia.
Qed.

Lemma digits2_pos_unique (p : positive) (d : Z) :
  0 < d -> 2 ^ (d - 1) <= Zpos p < 2 ^ d -> Zpos (digits2_pos p) = d.
Proof.
  intros Hd Hp. pose proof (digits2_pos_bounds p) as Hb.
  destruct (Z_lt_le_dec (Zpos (digits2_pos p)) d) as [Hlt | Hge].
  - assert (2 ^ Zpos (digits2_pos p) <= 2 ^ (d - 1))
      by (apply Z.pow_le_mono_r; lia). lia.
  - destruct (Z_lt_le_dec d (Zpos (digits2_pos p))) as [Hlt | Hle]; [| lia].
    assert (2 ^ d <= 2 ^ (Zpos (digits2_pos p) - 1))
      by (apply Z.pow_le_mono_r; lia). lia.
Qed.

Lemma land_ones_range (x n : Z) : 0 <= n -> 0 <= Z.land x (Z.ones n) < 2 ^ n.
Proof.
  intros Hn. rewrite Z.land_ones by exact Hn. apply Z.mod_pos_bound.
  apply Z.pow_pos_nonneg; lia.
Qed.

(** Every pattern denotes a single in canonical form. *)
Lemma f32_decode_valid (bits : Z) : valid_binary 24 128 (f32_decode bits) = true.
Proof.
  unfold f32_decode.
  pose proof (land_ones_range (Z.shiftr bits 23) 8 ltac:(lia)) as He.
  pose proof (land_ones_range bits 23 ltac:(lia)) as Hm.
  change (Z.ones 8) with 255 in He.
  change (Z.ones 23) with (2 ^ 23 - 1) in Hm.
  set (e := Z.land (Z.shiftr bits 23) 255) in *.
  set (m := Z.land bits (2 ^ 23 - 1)) in *.
  destruct (e =? 255) eqn:E255.
  { now destruct (m =? 0). }
  apply Z.eqb_neq in E255.
  destruct (e =? 0) eqn:E0.
  - destruct m as [| p | p] eqn:Em; try reflexivity.
    cbn [valid_binary]. unfold bounded, canonical_mantissa, fexp, emin.
    pose proof (digits2_pos_bounds p) as Hb.
    assert (Zpos (digits2_pos p) <= 23).
    { destruct (Z_le_gt_dec (Zpos (digits2_pos p)) 23) as [? | Hgt];
        [assumption |].
      assert (2 ^ 23 <= 2 ^ (Zpos (digits2_pos p) - 1))
        by (apply Z.pow_le_mono_r; lia). lia. }
    apply andb_true_iff. split; [apply Z.eqb_eq | apply Z.leb_le]; lia.
  - apply Z.eqb_neq in E0.
    destruct (m + 2 ^ 23) as [| p | p] eqn:Em; try reflexivity.
    cbn [valid_binary]. unfold bounded, canonical_mantissa, fexp, emin.
    assert (Hd : Zpos (digits2_pos p) = 24).
    { apply digits2_pos_unique; [lia |].
      change (2 ^ (24 - 1)) with (2 ^ 23). change (2 ^ 24) with (2 * 2 ^ 23).
      lia. }
    rewrite Hd.
    apply andb_true_iff. split; [apply Z.eqb_eq | apply Z.leb_le]; lia.
Qed.

(** Multiplying a single by -1 flips its sign and nothing else. *)
Lemma f32_mul_minus_one (x : spec_float) :
  valid_binary 24 128 x = true ->
  f32_mul x (f32_of_Z (-1)) = SFopp x.
Proof.
  intros Hv. change (f32_of_Z (-1)) with (S754_finite true 8388608 (-23)).
  destruct x as [s | s | | s m e]; cbn [f32_mul SFmul SFopp];
    rewrite ?xorb_true_r; try reflexivity.
  cbn [valid_binary] in Hv. unfold bounded, canonical_mantissa in Hv.
  apply andb_true_iff in Hv. destruct Hv as [Hc He].
  apply Z.eqb_eq in Hc. apply Z.leb_le in He.
  rewrite Pos.mul_comm.
  change (8388608 * m)%positive
    with (m~0~0~0~0~0~0~0~0~0~0~0~0~0~0~0~0~0~0~0~0~0~0~0)%positive.
  unfold binary_round_aux, shr_fexp.
  set (big := (m~0~0~0~0~0~0~0~0~0~0~0~0~0~0~0~0~0~0~0~0~0~0~0)%positive).
  assert (Hdig : Zdigits2 (Zpos big) = Zpos (digits2_pos m) + 23).
  { subst big. cbn [Zdigits2 digits2_pos]. lia. }
  rewrite Hdig.
  replace (Zpos (digits2_pos m) + 23 + (e + -23))
    with (Zpos (digits2_pos m) + e) by lia.
  rewrite Hc. replace (e - (e + -23)) with 23 by lia.
  cbn [shr shr_record_of_loc].
  assert (Hit : SpecFloat.iter_pos shr_1 23
                  {| shr_m := Zpos big; shr_r := false; shr_s := false |}
                = {| shr_m := Zpos m; shr_r := false; shr_s := false |})
    by reflexivity.
  rewrite Hit. cbn [shr_m loc_of_shr_record round_nearest_even].
  replace (e + -23 + 23) with e by lia.
  cbn [Zdigits2]. rewrite Hc, Z.sub_diag. cbn [shr shr_record_of_loc shr_m].
  change (128 - 24) with 104.
  now rewrite (proj2 (Z.leb_le e 104) He).
Qed.

Lemma f32_negate (bits : Z) :
  f32_mul (f32_decode bits) (f32_of_Z (-1)) = SFopp (f32_decode bits).
Proof. apply f32_mul_minus_one, f32_decode_valid. Qed.

(** ** The base affine *)

Lemma affine_matrix (a b c t1 t2 t3 : spec_float) :
  assign_last_col [t1; t2; t3]
    (assign_top_left (map (map f32_to_f64) (diag [a; b; c])) (eye 4))
  = [ [f32_to_f64 a; S754_zero false; S754_zero false; t1];
      [S754_zero false; f32_to_f64 b; S754_zero false; t2];
      [S754_zero false; S754_zero false; f32_to_f64 c; t3];
      [S754_zero false; S754_zero false; S754_zero false; f64_of_Z 1] ].
Proof. reflexivity. Qed.

Section Affine.

Variable native_code : endian_code.
Context {pyobj : Type} `{EqDecision pyobj}.

(** C7.  For a header whose three spatial extents are above -32768
    (so that extent - 1 is a 16-bit value), [get_base_affine] is the
    4x4 matrix with last row (0, 0, 0, 1) whose 3x3 part is diagonal:
    the negated first spacing, then the second and the third; the
    last column holds -((extent - 1) / 2) * signed spacing for each
    axis.  An empty header given the shape (3,5,7) and the zooms
    (3,2,1) has the diagonal (-3,2,1) and the translation (3,-4,-3);
    given the shape (3,5) after that, the third translation is zero
    (a negative zero) and the diagonal is unchanged. *)
Theorem base_affine_entries (self : AnalyzeHeader (pyobj := pyobj)) :
  -32768 < dim (_header_data self) 1 ->
  -32768 < dim (_header_data self) 2 ->
  -32768 < dim (_header_data self) 3 ->
  let hdr := _header_data self in
  let zx := SFopp (f32_decode (pixdim hdr 1)) in
  let zy := f32_decode (pixdim hdr 2) in
  let zz := f32_decode (pixdim hdr 3) in
  get_base_affine self
  = [ [f32_to_f64 zx; S754_zero false; S754_zero false;
       center_translation (dim hdr 1) zx];
      [S754_zero false; f32_to_f64 zy; S754_zero false;
       center_translation (dim hdr 2) zy];
      [S754_zero false; S754_zero false; f32_to_f64 zz;
       center_translation (dim hdr 3) zz];
      [S754_zero false; S754_zero false; S754_zero false; f64_of_Z 1] ]
  /\ (let h0 : AnalyzeHeader (pyobj := pyobj) :=
        {| _header_data := _empty_headerdata native_code None;
           extra_data := ∅ |} in
      let h1 := snd (set_zooms (map f64_of_Z [3; 2; 1])
                       (snd (set_data_shape [3; 5; 7] h0))) in
      let h2 := snd (set_data_shape [3; 5] h1) in
      get_base_affine h1
      = map (map f64_of_Z)
          [[-3; 0; 0; 3]; [0; 2; 0; -4]; [0; 0; 1; -3]; [0; 0; 0; 1]]
      /\ get_base_affine h2
         = [ [f64_of_Z (-3); S754_zero false; S754_zero false; f64_of_Z 3];
             [S754_zero false; f64_of_Z 2; S754_zero false; f64_of_Z (-4)];
             [S754_zero false; S754_zero false; f64_of_Z 1; S754_zero true];
             [S754_zero false; S754_zero false; S754_zero false;
              f64_of_Z 1] ]
      /\ SFeqb (S754_zero true) (S754_zero false) = true).
Proof.
  intros H1 H2 H3 hdr zx zy zz. subst hdr zx zy zz. split.
  - unfold get_base_affine.
    rewrite spatial_pixdims, spatial_dims. unfold default_x_flip.
    cbn [map zip_with]. rewrite f32_negate.
    pose proof (dim_range (_header_data self) 1).
    pose proof (dim_range (_header_data self) 2).
    pose proof (dim_range (_header_data self) 3).
    rewrite !wrap_small by (change (2 ^ (16 - 1)) with 32768; lia).
    apply affine_matrix.
  - destruct native_code; vm_compute; repeat split; reflexivity.
Qed.

End Affine.

(** ** Writing the data *)

Section Writing.

Variable native_code : endian_code.
Context {pyobj : Type} `{EqDecision pyobj}.
Variable fileobj : Type.
Variable seek : Z -> ES fileobj unit.
Variable tell : ES fileobj Z.
Variable ndarray : Type.
Variable shape_of : ndarray -> list Z.
Variable type_of : ndarray -> np_type.
Variable array_to_file : ndarray -> np_dtype -> ES fileobj unit.
Variable can_cast : np_type -> np_type -> bool -> bool -> bool.

Local Abbreviation write_raw_data' :=
  (write_raw_data native_code fileobj seek tell ndarray shape_of
     array_to_file).
Local Abbreviation write_data' :=
  (write_data native_code fileobj seek tell ndarray shape_of type_of
     array_to_file can_cast).

(** C9.  For a header with a registered data type and a finite
    [vox_offset]: [write_raw_data] fails with [HeaderDataError], its
    message naming the header's shape, and leaves the stream alone
    when the array's shape differs; otherwise it seeks to the offset
    and hands the array to the marshaller when the seek succeeds, or
    when the seek fails with [IOError] but the stream already stands
    at the offset; an [IOError] with the stream elsewhere is raised
    again, and any other seek failure is passed on.  [write_data]
    fails with [HeaderTypeError], the stream untouched, when the cast
    test refuses the array's type for the header's type, and is
    [write_raw_data] when it accepts it. *)
Theorem write_data_outcomes (self : AnalyzeHeader (pyobj := pyobj))
    (data : ndarray) (f : fileobj) (dt : np_dtype) (offset : Z) :
  get_data_dtype native_code self = inr dt ->
  float_to_int (f32_decode (vox_offset (_header_data self))) = inr offset ->
  (shape_of data <> get_data_shape self ->
   write_raw_data' self data f
   = (inl (HeaderDataError
             ("Data should be shape ("
              ++ join ", " (map pretty (get_data_shape self)) ++ ")")),
      f))
  /\ (shape_of data = get_data_shape self ->
      (forall f1, seek offset f = (inr tt, f1) ->
         write_raw_data' self data f = array_to_file data dt f1)
      /\ (forall msg f1 f2,
            seek offset f = (inl (IOError msg), f1) ->
            tell f1 = (inr offset, f2) ->
            write_raw_data' self data f = array_to_file data dt f2)
      /\ (forall msg f1 pos f2,
            seek offset f = (inl (IOError msg), f1) ->
            tell f1 = (inr pos, f2) -> pos <> offset ->
            write_raw_data' self data f = (inl (IOError msg), f2))
      /\ (forall e f1,
            seek offset f = (inl e, f1) -> class_of e <> cIOError ->
            write_raw_data' self data f = (inl e, f1)))
  /\ (can_cast (type_of data) (dt_type dt) false false = false ->
      write_data' self data f
      = (inl (HeaderTypeError
                "Cannot cast data to header dtype without large potential loss in precision"),
         f))
  /\ (can_cast (type_of data) (dt_type dt) false false = true ->
      write_data' self data f = write_raw_data' self data f).
Proof.
  intros Hdt Hoff. split; [| split; [| split]].
  - intros Hne. unfold write_raw_data, _prepare_write, bind.
    rewrite bool_decide_eq_false_2 by exact Hne. reflexivity.
  - intros Heq.
    assert (Hpre : forall r,
               _prepare_write fileobj seek tell ndarray shape_of self data f
               = r ->
               write_raw_data' self data f
               = match r with
                 | (inl e, f') => (inl e, f')
                 | (inr _, f') => array_to_file data dt f'
                 end).
    { intros r <-. unfold write_raw_data, bind. rewrite Hdt.
      now destruct (_prepare_write _ _ _ _ _ _ _ _) as [[e | u] f']. }
    assert (Hp : _prepare_write fileobj seek tell ndarray shape_of self
                   data f
                 = match seek offset f with
                   | (inl (IOError msg), f1) =>
                       match tell f1 with
                       | (inl e, f2) => (inl e, f2)
                       | (inr pos, f2) =>
                           if negb (pos =? offset)
                           then (inl (IOError msg), f2)
                           else (inr tt, f2)
                       end
                   | r => r
                   end).
    { unfold _prepare_write.
      rewrite bool_decide_eq_true_2 by exact Heq. cbn [negb].
      rewrite Hoff.
      destruct (seek offset f) as [[e | u] f1]; [| reflexivity].
      destruct e; try reflexivity.
      unfold bind. destruct (tell f1) as [[e | pos] f2]; [reflexivity |].
      now destruct (negb (pos =? offset)). }
    split; [| split; [| split]].
    + intros f1 Hs. rewrite (Hpre _ Hp), Hs. reflexivity.
    + intros msg f1 f2 Hs Ht. rewrite (Hpre _ Hp), Hs, Ht.
      now rewrite Z.eqb_refl.
    + intros msg f1 pos f2 Hs Ht Hpos. rewrite (Hpre _ Hp), Hs, Ht.
      now rewrite (proj2 (Z.eqb_neq pos offset) Hpos).
    + intros e f1 Hs Hc. rewrite (Hpre _ Hp), Hs.
      destruct e; try reflexivity. now contradiction Hc.
  - intros Hc. unfold write_data, _cast_check. rewrite Hdt.
    unfold _has_data_intercept, _has_data_slope. rewrite Hc. reflexivity.
  - intros Hc. unfold write_data, _cast_check. rewrite Hdt.
    unfold _has_data_intercept, _has_data_slope. rewrite Hc. reflexivity.
Qed.

End Writing.

(** * The theorems at concrete headers *)

(** C1: the claim as stated fails for a header with an ancillary entry.
    The header rebuilt from the block of [funny_header] under its own
    byte order, with the checks on (they find nothing) or off, does not
    compare equal to it, and neither does the header converted to the
    opposite order and back. *)
Lemma roundtrip_loses_extra_data :
  (forall check : bool,
     ~ (exists rebuilt : AnalyzeHeader (pyobj := Z),
          __init__ little_endian 40 (Some (binaryblock funny_header))
            (Some (endianness little_endian funny_header)) check None
          = inr rebuilt
          /\ __eq__ little_endian rebuilt funny_header = true))
  /\ ~ (exists swapped back : AnalyzeHeader (pyobj := Z),
          as_byteswapped little_endian 40 funny_header big_endian
          = inr swapped
          /\ as_byteswapped little_endian 40 swapped little_endian = inr back
          /\ __eq__ little_endian back funny_header = true).
Proof.
  split.
  - intros check [rebuilt [E Q]].
    destruct check; vm_compute in E; injection E as <-;
      vm_compute in Q; discriminate Q.
  - intros [swapped [back [E1 [E2 Q]]]]. vm_compute in E1.
    injection E1 as <-. vm_compute in E2. injection E2 as <-.
    vm_compute in Q. discriminate Q.
Qed.

Lemma roundtrip_without_extra_data_witness :
  length (binaryblock empty_header) = 348%nat
  /\ extra_data empty_header = ∅
  /\ __init__ little_endian 40 (Some (binaryblock empty_header))
       (Some (endianness little_endian empty_header)) false None
     = inr empty_header.
Proof.
  split; [reflexivity |]. split; [reflexivity |].
  exact (proj1 (roundtrip_without_extra_data little_endian 40 empty_header
                  eq_refl eq_refl)).
Defined.

Lemma check_fix_repairs_size_and_spacing_witness :
  length (binaryblock broken_header) = 348%nat
  /\ sizeof_hdr (_header_data broken_header) = 0
  /\ existsb f32_ltb0 (py_slice (pixdims (_header_data broken_header)) 1 4)
     = true
  /\ exists (reports : list Report) (fixed : AnalyzeHeader (pyobj := Z)),
       BatteryRunner_check_fix (_get_checks little_endian) broken_header
       = (reports, fixed)
       /\ check_fix little_endian 40 broken_header = (inr tt, fixed)
       /\ sizeof_hdr (_header_data fixed) = 348.
Proof.
  split; [reflexivity |]. split; [reflexivity |]. split; [reflexivity |].
  destruct (check_fix_repairs_size_and_spacing little_endian 40
              broken_header (dtype_of_type little_endian np_float32)
              eq_refl eq_refl eq_refl eq_refl
              ltac:(discriminate) eq_refl)
    as [reports [fixed [H1 [H2 [H3 _]]]]].
  exists reports, fixed. repeat split; assumption.
Defined.

(** C4: the claim as stated fails on the class of the error.  Setting
    the code 0 fails, and the error is not of the class
    [HeaderTypeError]: it is a [HeaderDataError]. *)
Lemma set_data_dtype_none_is_not_a_type_error :
  ~ (exists e,
       fst (set_data_dtype little_endian (key_code 0) empty_header) = inl e
       /\ class_of e = cHeaderTypeError)
  /\ exists e,
       fst (set_data_dtype little_endian (key_code 0) empty_header) = inl e
       /\ class_of e = cHeaderDataError
       /\ contains "known but not supported" (message_of e) = true.
Proof.
  split.
  - intros [e [E C]]. vm_compute in E. injection E as <-. discriminate C.
  - eexists. split; [vm_compute; reflexivity |]. split; reflexivity.
Qed.

Lemma set_data_dtype_outcomes_witness :
  length (binaryblock empty_header) = 348%nat
  /\ exists self' : AnalyzeHeader (pyobj := Z),
       set_data_dtype little_endian (key_type np_uint8) empty_header
       = (inr tt, self')
       /\ get_data_dtype little_endian self'
          = inr (dtype_of_type little_endian np_uint8).
Proof.
  split; [reflexivity |].
  pose proof (proj1 (set_data_dtype_outcomes little_endian empty_header
                       (key_type np_uint8) eq_refl)) as H.
  change (data_type_codes little_endian (key_type np_uint8))
    with (Some 2) in H.
  destruct H as [dt [Hdt [Hty [_ Hout]]]].
  rewrite (Hty np_uint8 eq_refl) in Hout.
  exact Hout.
Defined.

(** C5: the claim as stated fails for construction from bytes with the
    checks on.  The block of a big-endian header that is empty but for
    a rank field of 9 is accepted, with the byte order inferred and
    every check run, and the header built from it has rank 9; a mapping
    that sets [dim] to 9 does the same; and [set_data_shape] with eight
    extents raises, leaving the rank 8 it had already written. *)
Lemma rank_is_not_checked :
  (exists h : AnalyzeHeader (pyobj := Z),
     __init__ little_endian 40 (Some rank9_block) None true None = inr h
     /\ dim (_header_data h) 0 = 9)
  /\ (exists h : AnalyzeHeader (pyobj := Z),
        from_mapping little_endian 40 int_setfield [("dim", 9)] None true
        = inr h
        /\ dim (_header_data h) 0 = 9)
  /\ (exists (e : exn) (h : AnalyzeHeader (pyobj := Z)),
        set_data_shape [1; 2; 3; 4; 5; 6; 7; 8] empty_header = (inl e, h)
        /\ class_of e = cValueError
        /\ dims (_header_data h) = [8; 1; 1; 1; 1; 1; 1; 1])
  /\ ~ (forall (bb : list byte) (h : AnalyzeHeader (pyobj := Z)),
          __init__ little_endian 40 (Some bb) None true None = inr h ->
          0 <= dim (_header_data h) 0 <= 7).
Proof.
  assert (E : exists h : AnalyzeHeader (pyobj := Z),
            __init__ little_endian 40 (Some rank9_block) None true None
            = inr h
            /\ dim (_header_data h) 0 = 9)
    by (eexists; split; vm_compute; reflexivity).
  split; [exact E |]. split; [| split].
  - eexists. split; vm_compute; reflexivity.
  - do 2 eexists. split; [vm_compute; reflexivity |].
    split; vm_compute; reflexivity.
  - intros H. destruct E as [h [E D]]. specialize (H _ _ E). lia.
Qed.

Lemma rank_of_reachable_headers_witness :
  length (binaryblock empty_header) = 348%nat
  /\ dim (_header_data (snd (set_data_shape [3; 5; 7] empty_header))) 0 = 3
  /\ dim (_header_data (snd (check_fix little_endian 40 empty_header))) 0 = 0.
Proof.
  split; [reflexivity |].
  pose proof (rank_of_reachable_headers little_endian 40 int_setfield
                empty_header eq_refl) as [_ [Hs [_ [_ [Hc _]]]]].
  split; [exact (Hs [3; 5; 7] ltac:(cbn; lia)) | exact Hc].
Defined.

Lemma shape_get_and_set_witness :
  length (binaryblock empty_header) = 348%nat
  /\ 0 <= dim (_header_data empty_header) 0
  /\ (length [3; 5; 7] <= 7)%nat
  /\ Forall (fun d => -32768 <= d <= 32767) [3; 5; 7]
  /\ get_data_shape empty_header = [0]
  /\ exists self' : AnalyzeHeader (pyobj := Z),
       set_data_shape [3; 5; 7] empty_header = (inr tt, self')
       /\ dims (_header_data self') = [3; 3; 5; 7; 1; 1; 1; 1]
       /\ get_data_shape self' = [3; 5; 7].
Proof.
  assert (H1 : length (binaryblock empty_header) = 348%nat) by reflexivity.
  assert (H2 : 0 <= dim (_header_data empty_header) 0)
    by (vm_compute; discriminate).
  assert (H3 : (length [3; 5; 7] <= 7)%nat) by (cbn; lia).
  assert (H4 : Forall (fun d => -32768 <= d <= 32767) [3; 5; 7])
    by (repeat constructor; lia).
  split; [exact H1 |]. split; [exact H2 |]. split; [exact H3 |].
  split; [exact H4 |].
  exact (shape_get_and_set empty_header [3; 5; 7] H1 H2 H3 H4).
Defined.

Lemma base_affine_entries_witness :
  -32768 < dim (_header_data zoomed_header) 1
  /\ -32768 < dim (_header_data zoomed_header) 2
  /\ -32768 < dim (_header_data zoomed_header) 3
  /\ get_base_affine zoomed_header
     = [ [f32_to_f64 (SFopp (f32_decode (pixdim (_header_data zoomed_header) 1)));
          S754_zero false; S754_zero false;
          center_translation (dim (_header_data zoomed_header) 1)
            (SFopp (f32_decode (pixdim (_header_data zoomed_header) 1)))];
         [S754_zero false;
          f32_to_f64 (f32_decode (pixdim (_header_data zoomed_header) 2));
          S754_zero false;
          center_translation (dim (_header_data zoomed_header) 2)
            (f32_decode (pixdim (_header_data zoomed_header) 2))];
         [S754_zero false; S754_zero false;
          f32_to_f64 (f32_decode (pixdim (_header_data zoomed_header) 3));
          center_translation (dim (_header_data zoomed_header) 3)
            (f32_decode (pixdim (_header_data zoomed_header) 3))];
         [S754_zero false; S754_zero false; S754_zero false; f64_of_Z 1] ].
Proof.
  assert (H1 : -32768 < dim (_header_data zoomed_header) 1)
    by (vm_compute; reflexivity).
  assert (H2 : -32768 < dim (_header_data zoomed_header) 2)
    by (vm_compute; reflexivity).
  assert (H3 : -32768 < dim (_header_data zoomed_header) 3)
    by (vm_compute; reflexivity).
  split; [exact H1 |]. split; [exact H2 |]. split; [exact H3 |].
  exact (proj1 (base_affine_entries little_endian zoomed_header H1 H2 H3)).
Defined.

(** Where the bound on the extents matters: at an extent of -32768 the
    header computes extent - 1 in 16 bits, which gives 32767, and the
    translation is the one an extent of 32768 would have. *)
Lemma base_affine_at_smallest_extent :
  dim (_header_data wrapped_header) 1 = -32768
  /\ nth 3 (nth 0 (get_base_affine wrapped_header) []) S754_nan
     = center_translation 32768 (f32_of_Z (-3))
  /\ center_translation 32768 (f32_of_Z (-3))
     <> center_translation (-32768) (f32_of_Z (-3)).
Proof.
  split; [vm_compute; reflexivity |].
  split; [vm_compute; reflexivity |].
  vm_compute. discriminate.
Qed.

Lemma set_data_dtype_atomic_witness :
  length (binaryblock empty_header) = 348%nat
  /\ (exists self' : AnalyzeHeader (pyobj := Z),
        set_data_dtype little_endian (key_type np_float64) empty_header
        = (inr tt, self')
        /\ datatype (_header_data self') = 64
        /\ bitpix (_header_data self') = 64
        /\ (forall i : nat, (i < 70 \/ 74 <= i)%nat ->
            binaryblock self' !! i = binaryblock empty_header !! i))
  /\ snd (set_data_dtype little_endian (key_code 0) empty_header)
     = empty_header.
Proof.
  split; [reflexivity |]. split.
  - pose proof (proj1 (proj2 (set_data_dtype_atomic little_endian
                                empty_header (key_type np_float64) eq_refl)))
      as H.
    change (data_type_codes little_endian (key_type np_float64))
      with (Some 64) in H.
    destruct H as (dt & Hdt & H).
    change (data_type_codes_dtype little_endian 64)
      with (Some (dtype_of_type little_endian np_float64)) in Hdt.
    injection Hdt as <-.
    change (bool_decide (dt_type (dtype_of_type little_endian np_float64)
                         = np_void)
            && bool_decide (dt_fields (dtype_of_type little_endian np_float64)
                            = []))
      with false in H.
    destruct H as (self' & H1 & H2 & H3 & _ & _ & _ & H4).
    exists self'. repeat split; assumption.
  - pose proof (proj1 (set_data_dtype_atomic little_endian empty_header
                         (key_code 0) eq_refl)) as H.
    exact H.
Defined.

Lemma write_data_outcomes_witness :
  get_data_dtype little_endian float64_header
  = inr (dtype_of_type little_endian np_float64)
  /\ float_to_int (f32_decode (vox_offset (_header_data float64_header)))
     = inr 0
  /\ write_raw_data little_endian stream stream_seek stream_tell array
       arr_shape stream_array_to_file float64_header arange6 pipe
     = stream_array_to_file arange6
         (dtype_of_type little_endian np_float64) pipe.
Proof.
  assert (H1 : get_data_dtype little_endian float64_header
               = inr (dtype_of_type little_endian np_float64))
    by (vm_compute; reflexivity).
  assert (H2 : float_to_int
                 (f32_decode (vox_offset (_header_data float64_header)))
               = inr 0) by (vm_compute; reflexivity).
  split; [exact H1 |]. split; [exact H2 |].
  pose proof (write_data_outcomes little_endian stream stream_seek
                stream_tell array arr_shape arr_type stream_array_to_file
                simple_can_cast float64_header arange6 pipe _ _ H1 H2)
    as [_ [Hw _]].
  destruct (Hw ltac:(vm_compute; reflexivity)) as [_ [Hpos _]].
  exact (Hpos "illegal seek" pipe pipe eq_refl eq_refl).
Defined.

Lemma serialized_form_drops_extra_data_witness :
  length (binaryblock funny_header) = 348%nat
  /\ extra_data funny_header <> ∅
  /\ exists h : AnalyzeHeader (pyobj := Z),
       as_byteswapped little_endian 40 funny_header big_endian = inr h
       /\ endianness little_endian h = big_endian
       /\ extra_data h = ∅.
Proof.
  split; [reflexivity |]. split.
  - intros E. apply (f_equal (fun m => m !! "funny key")) in E.
    vm_compute in E. discriminate E.
  - exact (proj2 (proj2 (proj2
             (serialized_form_drops_extra_data little_endian 40
                funny_header big_endian eq_refl)))).
Defined.

(** * Further properties *)

(** ** Fields under byte swapping *)

Lemma sum_list_chunks (cs : list (nat * bool)) (k sz : nat) (num : bool) :
  cs !! k = Some (sz, num) ->
  (sum_list (map fst (take k cs)) + sz <= sum_list (map fst cs))%nat.
Proof.
  intros Hk. rewrite <- (take_drop_middle cs k (sz, num) Hk) at 2.
  rewrite map_app, sum_list_with_app. cbn [map fst sum_list_with id]. lia.
Qed.

(** A numeric element of the swapped block, read under the opposite
    order, has the value it had. *)
Lemma read_uint_swapped (hd : ndarray0) (k sz : nat) :
  length (data hd) = 348%nat ->
  chunks header_dtype !! k = Some (sz, true) ->
  let off := sum_list (map fst (take k (chunks header_dtype))) in
  read_uint (dtype_order (swapped_data hd)) (data (swapped_data hd)) off sz
  = read_uint (dtype_order hd) (data hd) off sz.
Proof.
  intros Hlen Hk off. unfold read_uint, swapped_data, byteswap.
  cbn [dtype_order data].
  pose proof (sum_list_chunks _ _ _ _ Hk) as Hb.
  change (sum_list (map fst (chunks header_dtype))) with 348%nat in Hb.
  pose proof (byteswap_chunks_elem
                (take k (chunks header_dtype)) sz
                (drop (S k) (chunks header_dtype)) (data hd)) as E.
  rewrite (take_drop_middle _ _ _ Hk) in E. cbv zeta in E.
  fold off in E, Hb. rewrite E by lia.
  rewrite in_order_opposite. now rewrite rev_involutive.
Qed.

Lemma dim_swapped (hd : ndarray0) (i : nat) :
  length (data hd) = 348%nat -> (i < 8)%nat ->
  dim (swapped_data hd) i = dim hd i.
Proof.
  intros Hlen Hi. unfold dim, get_int, read_int. f_equal.
  destruct i as [| [| [| [| [| [| [| [| i]]]]]]]]; [| | | | | | | | lia].
  - exact (read_uint_swapped hd 7 2 Hlen eq_refl).
  - exact (read_uint_swapped hd 8 2 Hlen eq_refl).
  - exact (read_uint_swapped hd 9 2 Hlen eq_refl).
  - exact (read_uint_swapped hd 10 2 Hlen eq_refl).
  - exact (read_uint_swapped hd 11 2 Hlen eq_refl).
  - exact (read_uint_swapped hd 12 2 Hlen eq_refl).
  - exact (read_uint_swapped hd 13 2 Hlen eq_refl).
  - exact (read_uint_swapped hd 14 2 Hlen eq_refl).
Qed.

Lemma pixdim_swapped (hd : ndarray0) (i : nat) :
  length (data hd) = 348%nat -> (i < 8)%nat ->
  pixdim (swapped_data hd) i = pixdim hd i.
Proof.
  intros Hlen Hi. unfold pixdim.
  destruct i as [| [| [| [| [| [| [| [| i]]]]]]]]; [| | | | | | | | lia].
  - exact (read_uint_swapped hd 21 4 Hlen eq_refl).
  - exact (read_uint_swapped hd 22 4 Hlen eq_refl).
  - exact (read_uint_swapped hd 23 4 Hlen eq_refl).
  - exact (read_uint_swapped hd 24 4 Hlen eq_refl).
  - exact (read_uint_swapped hd 25 4 Hlen eq_refl).
  - exact (read_uint_swapped hd 26 4 Hlen eq_refl).
  - exact (read_uint_swapped hd 27 4 Hlen eq_refl).
  - exact (read_uint_swapped hd 28 4 Hlen eq_refl).
Qed.

Lemma sizeof_hdr_swapped (hd : ndarray0) :
  length (data hd) = 348%nat -> sizeof_hdr (swapped_data hd) = sizeof_hdr hd.
Proof.
  intros Hlen. unfold sizeof_hdr, get_int, read_int. f_equal.
  exact (read_uint_swapped hd 0 4 Hlen eq_refl).
Qed.

Lemma datatype_swapped (hd : ndarray0) :
  length (data hd) = 348%nat -> datatype (swapped_data hd) = datatype hd.
Proof.
  intros Hlen. unfold datatype, get_int, read_int. f_equal.
  exact (read_uint_swapped hd 18 2 Hlen eq_refl).
Qed.

Lemma bitpix_swapped (hd : ndarray0) :
  length (data hd) = 348%nat -> bitpix (swapped_data hd) = bitpix hd.
Proof.
  intros Hlen. unfold bitpix, get_int, read_int. f_equal.
  exact (read_uint_swapped hd 19 2 Hlen eq_refl).
Qed.

Lemma vox_offset_swapped (hd : ndarray0) :
  length (data hd) = 348%nat -> vox_offset (swapped_data hd) = vox_offset hd.
Proof.
  intros Hlen. unfold vox_offset.
  exact (read_uint_swapped hd 29 4 Hlen eq_refl).
Qed.

Lemma dims_swapped (hd : ndarray0) :
  length (data hd) = 348%nat -> dims (swapped_data hd) = dims hd.
Proof.
  intros Hlen. rewrite !dims_eq.
  now rewrite !dim_swapped by (exact Hlen || lia).
Qed.

Lemma pixdims_swapped (hd : ndarray0) :
  length (data hd) = 348%nat -> pixdims (swapped_data hd) = pixdims hd.
Proof.
  intros Hlen. unfold pixdims. cbn [map seq].
  now rewrite !pixdim_swapped by (exact Hlen || lia).
Qed.

(** ** Equality and byte-order conversion *)

Lemma newbyteorder_twice (e e' : endian_code) (d : np_dtype) :
  newbyteorder e (newbyteorder e' d) = newbyteorder e d.
Proof.
  unfold newbyteorder. destruct d as [t fs sz [o |]]; reflexivity.
Qed.

Section Conversion.

Variable native_code : endian_code.
Variable error_level : Z.
Context {pyobj : Type} `{EqDecision pyobj}.

(** What [__eq__] compares. *)
Lemma eq_header_spec (a b : AnalyzeHeader (pyobj := pyobj)) :
  __eq__ native_code a b = true
  <-> extra_data a = extra_data b
      /\ (_header_data a = _header_data b
          \/ _header_data a = swapped_data (_header_data b)).
Proof.
  unfold __eq__. rewrite !endianness_dtype_order.
  unfold binaryblock, tostring, swapped_data.
  destruct a as [[oa da] xa], b as [[ob db] xb]. cbn [_header_data extra_data
    dtype_order data byteswap].
  case_bool_decide as Ho.
  - rewrite andb_true_iff, !bool_decide_eq_true. subst ob. split.
    + intros [-> ->]. split; [reflexivity | now left].
    + intros [-> [E | E]].
      * injection E as ->. split; reflexivity.
      * injection E as E _. exfalso. symmetry in E. revert E.
        apply opposite_neq.
  - rewrite andb_true_iff, !bool_decide_eq_true. split.
    + intros [-> ->]. split; [reflexivity |]. right. f_equal.
      destruct oa, ob; cbn; congruence.
    + intros [-> [E | E]].
      * injection E as -> _. contradiction.
      * injection E as _ ->. split; reflexivity.
Qed.

Lemma swapped_data_involutive (hd : ndarray0) :
  swapped_data (swapped_data hd) = hd.
Proof.
  destruct hd as [o b]. unfold swapped_data, byteswap.
  cbn [dtype_order data].
  now rewrite opposite_involutive, byteswap_chunks_involutive.
Qed.

(** Equality of headers is an equivalence relation: the comparison does
    not depend on which of the two headers is swapped for it. *)
Theorem eq_headers_equivalence (a b c : AnalyzeHeader (pyobj := pyobj)) :
  __eq__ native_code a a = true
  /\ __eq__ native_code a b = __eq__ native_code b a
  /\ (__eq__ native_code a b = true -> __eq__ native_code b c = true ->
      __eq__ native_code a c = true)
  /\ __ne__ native_code a b = negb (__eq__ native_code a b).
Proof.
  split; [apply eq_refl_header |]. split; [| split; [| reflexivity]].
  - apply eq_true_iff_eq. rewrite !eq_header_spec. split.
    + intros [-> [-> | E]]; (split; [reflexivity |]); [now left |].
      right. rewrite E. now rewrite swapped_data_involutive.
    + intros [-> [-> | E]]; (split; [reflexivity |]); [now left |].
      right. rewrite E. now rewrite swapped_data_involutive.
  - rewrite !eq_header_spec. intros [Hx1 E1] [Hx2 E2].
    split; [congruence |].
    destruct E1 as [E1 | E1], E2 as [E2 | E2]; rewrite E1, E2.
    + now left.
    + now right.
    + now right.
    + left. apply swapped_data_involutive.
Qed.

Lemma accessors_swapped (h h' : AnalyzeHeader (pyobj := pyobj)) :
  length (data (_header_data h)) = 348%nat ->
  _header_data h' = swapped_data (_header_data h) ->
  get_data_shape h' = get_data_shape h
  /\ get_zooms h' = get_zooms h
  /\ get_base_affine h' = get_base_affine h
  /\ get_data_dtype native_code h'
     = match get_data_dtype native_code h with
       | inl e => inl e
       | inr d => inr (newbyteorder (endianness native_code h') d)
       end.
Proof.
  intros Hlen E.
  unfold get_data_shape, get_zooms, get_base_affine, get_data_dtype.
  rewrite E.
  rewrite ?dims_swapped, ?datatype_swapped, ?pixdims_swapped by exact Hlen.
  rewrite !dim_swapped by (exact Hlen || lia).
  repeat split.
  destruct (data_type_codes_dtype _); [| reflexivity].
  now rewrite newbyteorder_twice.
Qed.

(** Converting a header to a byte order, its own or the other one,
    succeeds for a 348-byte block and gives a header of that order whose
    shape, zooms, base affine and data type (up to the byte order asked
    for) are those of the original; the ancillary mapping is not
    carried over. *)
Theorem as_byteswapped_keeps_values (self : AnalyzeHeader (pyobj := pyobj))
    (e : endian_code) :
  length (binaryblock self) = 348%nat ->
  exists h',
    as_byteswapped native_code error_level self e = inr h'
    /\ endianness native_code h' = e
    /\ length (binaryblock h') = 348%nat
    /\ extra_data h' = ∅
    /\ get_data_shape h' = get_data_shape self
    /\ get_zooms h' = get_zooms self
    /\ get_base_affine h' = get_base_affine self
    /\ get_data_dtype native_code h'
       = match get_data_dtype native_code self with
         | inl x => inl x
         | inr d => inr (newbyteorder e d)
         end.
Proof.
  intros Hlen.
  destruct (decide (e = endianness native_code self)) as [-> | Hne].
  - eexists. split; [apply as_byteswapped_same; exact Hlen |].
    rewrite !endianness_dtype_order. cbn [_header_data extra_data].
    split; [reflexivity |]. split; [exact Hlen |]. split; [reflexivity |].
    unfold get_data_shape, get_zooms, get_base_affine, get_data_dtype.
    cbn [_header_data]. repeat split.
    rewrite !endianness_dtype_order. cbn [_header_data].
    destruct (data_type_codes_dtype _); [| reflexivity].
    now rewrite newbyteorder_twice.
  - assert (He : e = opposite (endianness native_code self)).
    { destruct e, (endianness native_code self); cbn; congruence. }
    subst e. eexists. split; [apply as_byteswapped_opposite; exact Hlen |].
    rewrite !endianness_dtype_order. split; [reflexivity |].
    split.
    { unfold binaryblock, tostring, byteswap. cbn [_header_data data].
      rewrite length_byteswap_chunks. exact Hlen. }
    split; [reflexivity |].
    match goal with
    | |- context [get_data_shape ?h] =>
        destruct (accessors_swapped self h Hlen eq_refl)
          as (-> & -> & -> & ->)
    end.
    rewrite !endianness_dtype_order. repeat split.
Qed.

(** Headers that compare equal read alike: same shape, same zooms, same
    base affine, same ancillary mapping, and the same data type up to
    the byte order each one is stored in. *)
Theorem equal_headers_read_alike (a b : AnalyzeHeader (pyobj := pyobj)) :
  length (binaryblock b) = 348%nat ->
  __eq__ native_code a b = true ->
  extra_data a = extra_data b
  /\ get_data_shape a = get_data_shape b
  /\ get_zooms a = get_zooms b
  /\ get_base_affine a = get_base_affine b
  /\ get_data_dtype native_code a
     = match get_data_dtype native_code b with
       | inl x => inl x
       | inr d => inr (newbyteorder (endianness native_code a) d)
       end.
Proof.
  intros Hlen [Hx [E | E]]%eq_header_spec; (split; [exact Hx |]).
  - unfold get_data_shape, get_zooms, get_base_affine, get_data_dtype.
    rewrite !endianness_dtype_order, E. repeat split.
    destruct (data_type_codes_dtype _); [| reflexivity].
    now rewrite newbyteorder_twice.
  - apply accessors_swapped; assumption.
Qed.

(** In a 348-byte block the two bytes of an extent and the four bytes
    of the size field, read under the two byte orders. *)
Lemma dim0_two_orders (o : endian_code) (b : list byte) :
  length b = 348%nat ->
  let hd := {| dtype_order := o; data := b |} in
  let hd' := {| dtype_order := opposite o; data := b |} in
  (1 <= dim hd 0 <= 7 -> 256 <= dim hd' 0 <= 1792)
  /\ (dim hd 0 = 0 -> dim hd' 0 = 0)
  /\ (sizeof_hdr hd = 348 -> sizeof_hdr hd' = 1543569408).
Proof.
  intros Hlen hd hd'. subst hd hd'.
  unfold dim, sizeof_hdr, get_int, read_int, read_uint, signed.
  cbn [dtype_order data].
  do 44 (destruct b as [| ? b]; [discriminate |]).
  change (take 2 (drop (off_dim + 2 * 0) ?l)) with (take 2 (drop 40 l)).
  change (take 4 (drop off_sizeof_hdr ?l)) with (take 4 l).
  cbn [take drop].
  clear Hlen.
  change (2 ^ (8 * Z.of_nat 2 - 1)) with 32768.
  change (2 ^ (8 * Z.of_nat 2)) with 65536.
  change (2 ^ (8 * Z.of_nat 4 - 1)) with 2147483648.
  change (2 ^ (8 * Z.of_nat 4)) with 4294967296.
  destruct o; cbn [opposite in_order rev app le_decode];
    repeat match goal with
           | |- context [Z_of_byte ?x] =>
               let v := fresh "v" in
               pose proof (Z_of_byte_range x);
               generalize dependent (Z_of_byte x); intros v ?
           end;
    repeat split; intros;
    repeat match goal with
           | |- context [?x <? ?y] => destruct (Z.ltb_spec x y)
           | H : context [?x <? ?y] |- _ => destruct (Z.ltb_spec x y)
           end; lia.
Qed.

(** The order guessed for the block of a header of plausible rank. *)
Lemma guessed_order_of_block (hd : ndarray0) :
  length (data hd) = 348%nat ->
  1 <= dim hd 0 <= 7 \/ (dim hd 0 = 0 /\ sizeof_hdr hd = 348) ->
  _guessed_endian native_code
    {| dtype_order := native_code; data := data hd |} = dtype_order hd.
Proof.
  intros Hlen Hrank.
  destruct hd as [o b]. cbn [data dtype_order] in *.
    unfold _guessed_endian, swapped_code.
    destruct (decide (o = native_code)) as [-> | Hne].
    - destruct Hrank as [Hr | [Hr Hs]].
      + destruct (Z.eqb_spec (dim {| dtype_order := native_code; data := b |} 0)
                    0); [lia |].
        destruct (Z.leb_spec 1
                    (dim {| dtype_order := native_code; data := b |} 0));
          [| lia].
        destruct (Z.leb_spec
                    (dim {| dtype_order := native_code; data := b |} 0) 7);
          [reflexivity | lia].
      + rewrite Hr, Hs. reflexivity.
    - assert (Ho : native_code = opposite o)
        by (destruct o, native_code; cbn; congruence).
      destruct (dim0_two_orders o b Hlen) as (H1 & H2 & H3).
      rewrite Ho. destruct Hrank as [Hr | [Hr Hs]].
      + specialize (H1 Hr).
        destruct (Z.eqb_spec (dim {| dtype_order := opposite o; data := b |} 0)
                    0); [lia |].
        destruct (Z.leb_spec 1
                    (dim {| dtype_order := opposite o; data := b |} 0));
          [| lia].
        destruct (Z.leb_spec
                    (dim {| dtype_order := opposite o; data := b |} 0) 7);
          [lia |]. cbn. apply opposite_involutive.
      + rewrite (H2 Hr), (H3 Hs). cbn. apply opposite_involutive.
Qed.

(** Construction from a block with the order left to be guessed. *)
Lemma init_guessing (bb : list byte) :
  length bb = 348%nat ->
  __init__ native_code error_level (pyobj := pyobj) (Some bb) None false None
  = inr {| _header_data :=
             {| dtype_order :=
                  _guessed_endian native_code
                    {| dtype_order := native_code; data := bb |};
                data := bb |};
           extra_data := ∅ |}.
Proof.
  intros Hlen. unfold __init__. rewrite Hlen.
  change (itemsize header_dtype) with 348%nat.
  change (negb (348 =? 348)%nat) with false. cbv iota.
  case_bool_decide as E; cbn [negb]; [now rewrite E | reflexivity].
Qed.

(** Construction from a block of 348 bytes: the header is the block
    under the order named, or guessed when none is, and with the checks
    on it is what [check_fix] makes of that header, or the error
    [check_fix] raises. *)
Lemma init_from_block (bb : list byte) (e : option endian_code)
    (check : bool) (extra : option (gmap string pyobj)) :
  length bb = 348%nat ->
  __init__ native_code error_level (Some bb) e check extra
  = let h :=
      {| _header_data :=
           {| dtype_order :=
                match e with
                | Some o => o
                | None =>
                    _guessed_endian native_code
                      {| dtype_order := native_code; data := bb |}
                end;
              data := bb |};
         extra_data := match extra with
                       | None => ∅
                       | Some x => x
                       end |} in
    if check then
      match check_fix native_code error_level h with
      | (inl err, _) => inl err
      | (inr _, h') => inr h'
      end
    else inr h.
Proof.
  intros Hlen. unfold __init__. rewrite Hlen.
  change (itemsize header_dtype) with 348%nat.
  change (negb (348 =? 348)%nat) with false. cbv iota zeta.
  case_bool_decide as E; cbn [negb]; [rewrite E |]; reflexivity.
Qed.

(** A header with a rank from 1 to 7, or with rank 0 and the size field
    at 348, is recognised from its bytes alone: the order guessed for
    its block is the order it is stored in, whichever the machine's
    order.  Constructing a header from the block without naming an
    order therefore gives back the header data when the checks are
    off; with the checks on it gives what [check_fix] makes of that
    header, repaired or raising, which is the header itself when
    [check_fix] passes it unchanged. *)
Theorem guessed_endian_recovers_order (hd : ndarray0) (check : bool) :
  length (data hd) = 348%nat ->
  1 <= dim hd 0 <= 7 \/ (dim hd 0 = 0 /\ sizeof_hdr hd = 348) ->
  let h := {| _header_data := hd; extra_data := (∅ : gmap string pyobj) |} in
  _guessed_endian native_code
    {| dtype_order := native_code; data := data hd |} = dtype_order hd
  /\ __init__ native_code error_level (Some (data hd)) None check None
     = (if check then
          match check_fix native_code error_level h with
          | (inl err, _) => inl err
          | (inr _, h') => inr h'
          end
        else inr h)
  /\ (check_fix native_code error_level h = (inr tt, h) ->
      __init__ native_code error_level (Some (data hd)) None check None
      = inr h).
Proof.
  intros Hlen Hrank h.
  pose proof (guessed_order_of_block hd Hlen Hrank) as G.
  assert (E : __init__ native_code error_level (Some (data hd)) None check
                None
              = (if check then
                   match check_fix native_code error_level h with
                   | (inl err, _) => inl err
                   | (inr _, h') => inr h'
                   end
                 else inr h)).
  { rewrite init_from_block by exact Hlen. cbv zeta. rewrite G.
    subst h. now destruct hd. }
  split; [exact G |]. split; [exact E |].
  intros Hfix. rewrite E, Hfix. now destruct check.
Qed.

End Conversion.

(** ** Rounding to a format gives a number of the format *)

Section RoundingIsValid.

Variables prec emax : Z.
Hypothesis prec_pos : 0 < prec.

Lemma Zdigits2_bounds (m : Z) :
  0 < m -> 0 < Zdigits2 m /\ 2 ^ (Zdigits2 m - 1) <= m < 2 ^ Zdigits2 m.
Proof.
  destruct m as [| p | p]; try lia. intros _. cbn [Zdigits2].
  split; [lia | apply digits2_pos_bounds].
Qed.

Lemma Zdigits2_unique (m d : Z) :
  0 < d -> 2 ^ (d - 1) <= m < 2 ^ d -> Zdigits2 m = d.
Proof.
  intros Hd Hm. assert (0 < m).
  { assert (0 < 2 ^ (d - 1)) by (apply Z.pow_pos_nonneg; lia). lia. }
  destruct m as [| p | p]; try lia. cbn [Zdigits2].
  now apply digits2_pos_unique.
Qed.

Lemma Zdigits2_nonneg (m : Z) : 0 <= Zdigits2 m.
Proof. destruct m; cbn; lia. Qed.

Lemma Zdigits2_monotone (a b : Z) : 0 <= a <= b -> Zdigits2 a <= Zdigits2 b.
Proof.
  intros [Ha Hab]. destruct (Z.eq_dec a 0) as [-> | Hne].
  - apply Zdigits2_nonneg.
  - destruct (Zdigits2_bounds a ltac:(lia)) as [Hda Hba].
    destruct (Zdigits2_bounds b ltac:(lia)) as [Hdb Hbb].
    destruct (Z_lt_le_dec (Zdigits2 b) (Zdigits2 a)) as [Hlt | Hle]; [| lia].
    assert (2 ^ Zdigits2 b <= 2 ^ (Zdigits2 a - 1))
      by (apply Z.pow_le_mono_r; lia).
    lia.
Qed.

(** The digits of a quotient by a power of two. *)
Lemma Zdigits2_shr (m n : Z) :
  0 < m -> 0 < n ->
  (n < Zdigits2 m -> Zdigits2 (m / 2 ^ n) = Zdigits2 m - n)
  /\ (Zdigits2 m <= n -> m / 2 ^ n = 0).
Proof.
  intros Hm Hn. destruct (Zdigits2_bounds m Hm) as [Hd Hb].
  set (d := Zdigits2 m) in *.
  assert (Hp : 0 < 2 ^ n) by (apply Z.pow_pos_nonneg; lia).
  split.
  - intros Hlt. apply Zdigits2_unique; [lia |].
    assert (E1 : 2 ^ (d - 1) = 2 ^ (d - n - 1) * 2 ^ n)
      by (rewrite <- Z.pow_add_r by lia; f_equal; lia).
    assert (E2 : 2 ^ d = 2 ^ (d - n) * 2 ^ n)
      by (rewrite <- Z.pow_add_r by lia; f_equal; lia).
    split.
    + apply Z.div_le_lower_bound; [exact Hp |]. lia.
    + apply Z.div_lt_upper_bound; [exact Hp |]. lia.
  - intros Hle. apply Z.div_small.
    assert (2 ^ d <= 2 ^ n) by (apply Z.pow_le_mono_r; lia). lia.
Qed.

Lemma shr_1_m (mrs : shr_record) :
  0 <= shr_m mrs -> shr_m (shr_1 mrs) = shr_m mrs / 2.
Proof.
  destruct mrs as [m r s]. cbn [shr_m shr_1]. intros Hm.
  destruct m as [| [p | p |] | p]; cbn [shr_m]; try lia; try reflexivity.
  - apply (Z.div_unique_pos (Zpos p~1) 2 (Zpos p) 1); lia.
  - apply (Z.div_unique_pos (Zpos p~0) 2 (Zpos p) 0); lia.
Qed.

Lemma iter_shr_1_m (p : positive) (mrs : shr_record) :
  0 <= shr_m mrs ->
  shr_m (SpecFloat.iter_pos shr_1 p mrs) = shr_m mrs / 2 ^ Zpos p.
Proof.
  revert mrs. induction p as [p IH | p IH |]; intros mrs Hm;
    cbn [SpecFloat.iter_pos].
  - assert (H1 : 0 <= shr_m (shr_1 mrs))
      by (rewrite shr_1_m by exact Hm; apply Z.div_pos; lia).
    assert (H2 : 0 <= shr_m (SpecFloat.iter_pos shr_1 p (shr_1 mrs)))
      by (rewrite IH by exact H1; apply Z.div_pos;
          [exact H1 | apply Z.pow_pos_nonneg; lia]).
    rewrite IH by exact H2. rewrite IH by exact H1.
    rewrite shr_1_m by exact Hm.
    rewrite !Z.div_div
      by (pose proof (Z.pow_pos_nonneg 2 (Zpos p) ltac:(lia) ltac:(lia)); lia).
    f_equal. rewrite Pos2Z.inj_xI.
    rewrite <- Z.pow_add_r by lia.
    rewrite <- (Z.pow_1_r 2) at 1. rewrite <- Z.pow_add_r by lia.
    f_equal. lia.
  - assert (H1 : 0 <= shr_m (SpecFloat.iter_pos shr_1 p mrs))
      by (rewrite IH by exact Hm; apply Z.div_pos;
          [exact Hm | apply Z.pow_pos_nonneg; lia]).
    rewrite IH by exact H1. rewrite IH by exact Hm.
    rewrite Z.div_div
      by (pose proof (Z.pow_pos_nonneg 2 (Zpos p) ltac:(lia) ltac:(lia)); lia).
    f_equal. rewrite Pos2Z.inj_xO. rewrite <- Z.pow_add_r by lia.
    f_equal. lia.
  - rewrite shr_1_m by exact Hm. reflexivity.
Qed.

Lemma shr_record_of_loc_m (m : Z) (l : location) :
  shr_m (shr_record_of_loc m l) = m.
Proof. now destruct l as [| []]. Qed.

(** Shifting a mantissa that is not too short for its exponent brings
    it to the exponent of its format. *)
Lemma shr_fexp_canonical (mx ex : Z) (lx : location) :
  0 <= mx ->
  ex <= fexp prec emax (Zdigits2 mx + ex) ->
  0 <= shr_m (fst (shr_fexp prec emax mx ex lx))
  /\ shr_m (fst (shr_fexp prec emax mx ex lx)) <= mx
  /\ ex <= snd (shr_fexp prec emax mx ex lx)
  /\ fexp prec emax
       (Zdigits2 (shr_m (fst (shr_fexp prec emax mx ex lx)))
        + snd (shr_fexp prec emax mx ex lx))
     = snd (shr_fexp prec emax mx ex lx).
Proof.
  intros Hm Hex. unfold shr_fexp, shr.
  set (D := Zdigits2 mx + ex) in *.
  destruct (fexp prec emax D - ex) as [| p | p] eqn:Hn; cbn [fst snd].
  - rewrite shr_record_of_loc_m. fold D. repeat split; lia.
  - rewrite iter_shr_1_m by (rewrite shr_record_of_loc_m; exact Hm).
    rewrite shr_record_of_loc_m.
    assert (Hp : 0 < 2 ^ Zpos p) by (apply Z.pow_pos_nonneg; lia).
    split; [apply Z.div_pos; lia |].
    split; [apply Z.div_le_upper_bound; nia |].
    split; [lia |].
    assert (He : ex + Zpos p = fexp prec emax D) by lia.
    rewrite He. unfold fexp in *.
    destruct (Z.eq_dec mx 0) as [-> | Hne].
    + rewrite Z.div_0_l by lia. cbn [Zdigits2] in *. subst D. lia.
    + destruct (Zdigits2_shr mx (Zpos p) ltac:(lia) ltac:(lia)) as [H1 H2].
      destruct (Z_lt_le_dec (Zpos p) (Zdigits2 mx)) as [Hlt | Hle].
      * rewrite (H1 Hlt). subst D. lia.
      * rewrite (H2 Hle). cbn [Zdigits2]. subst D. lia.
  - lia.
Qed.

Lemma round_nearest_even_range (m : Z) (l : location) :
  m <= round_nearest_even m l <= m + 1.
Proof.
  destruct l as [| []]; cbn [round_nearest_even]; try lia.
  destruct (Z.even m); lia.
Qed.

Lemma binary_round_aux_valid (sx : bool) (mx ex : Z) (lx : location) :
  0 <= mx ->
  ex <= fexp prec emax (Zdigits2 mx + ex) ->
  valid_binary prec emax (binary_round_aux prec emax sx mx ex lx) = true.
Proof.
  intros Hm Hex. unfold binary_round_aux.
  destruct (shr_fexp_canonical mx ex lx Hm Hex) as (H0 & _ & _ & Hc).
  destruct (shr_fexp prec emax mx ex lx) as [mrs' e']. cbn [fst snd] in *.
  pose proof (round_nearest_even_range (shr_m mrs')
                (loc_of_shr_record mrs')) as Hr.
  set (m2 := round_nearest_even (shr_m mrs') (loc_of_shr_record mrs')) in *.
  assert (Hex2 : e' <= fexp prec emax (Zdigits2 m2 + e')).
  { pose proof (Zdigits2_monotone (shr_m mrs') m2 ltac:(lia)) as Hd.
    unfold fexp in *. lia. }
  destruct (shr_fexp_canonical m2 e' loc_Exact ltac:(lia) Hex2)
    as (H0' & _ & _ & Hc').
  destruct (shr_fexp prec emax m2 e' loc_Exact) as [mrs'' e''].
  cbn [fst snd] in *.
  destruct (shr_m mrs'') as [| m | m] eqn:Hm3; try reflexivity.
  destruct (e'' <=? emax - prec) eqn:Hle; [| reflexivity].
  cbn [valid_binary]. unfold bounded, canonical_mantissa.
  rewrite Hle. cbn [Zdigits2] in Hc'. rewrite Hc', Z.eqb_refl. reflexivity.
Qed.

Lemma iter_xO (m : positive) (d : positive) :
  Zpos (Pos.iter xO m d) = Zpos m * 2 ^ Zpos d.
Proof.
  induction d as [| d IH] using Pos.peano_ind.
  - cbn [Pos.iter]. lia.
  - rewrite Pos.iter_succ, Pos2Z.inj_xO, IH, Pos2Z.inj_succ.
    rewrite Z.pow_succ_r by lia. lia.
Qed.

Lemma binary_round_valid (sx : bool) (mx : positive) (ex : Z) :
  valid_binary prec emax (binary_round prec emax sx mx ex) = true.
Proof.
  unfold binary_round, shl_align.
  set (D := Zpos (digits2_pos mx) + ex).
  destruct (fexp prec emax D - ex) as [| p | p] eqn:Hn.
  - apply binary_round_aux_valid; [lia |]. cbn [Zdigits2]. fold D. lia.
  - apply binary_round_aux_valid; [lia |]. cbn [Zdigits2]. fold D. lia.
  - apply binary_round_aux_valid; [lia |].
    assert (Hd : Zdigits2 (Zpos (Pos.iter xO mx p))
                 = Zpos (digits2_pos mx) + Zpos p).
    { apply Zdigits2_unique; [lia |]. rewrite iter_xO.
      pose proof (digits2_pos_bounds mx) as Hb.
      assert (Hp : 0 < 2 ^ Zpos p) by (apply Z.pow_pos_nonneg; lia).
      replace (Zpos (digits2_pos mx) + Zpos p - 1)
        with (Zpos (digits2_pos mx) - 1 + Zpos p) by lia.
      rewrite !Z.pow_add_r by lia. nia. }
    rewrite Hd.
    replace (Zpos (digits2_pos mx) + Zpos p + fexp prec emax D) with D
      by (subst D; lia).
    lia.
Qed.

Lemma binary_normalize_valid (m e : Z) (szero : bool) :
  valid_binary prec emax (binary_normalize prec emax m e szero) = true.
Proof.
  destruct m; cbn [binary_normalize]; [reflexivity | |];
    apply binary_round_valid.
Qed.

End RoundingIsValid.

(** Narrowing a double always gives a single in canonical form. *)
Lemma f64_to_f32_valid (x : spec_float) :
  valid_binary 24 128 (f64_to_f32 x) = true.
Proof.
  destruct x as [s | s | | s m e]; try reflexivity.
  unfold f64_to_f32. apply binary_normalize_valid. lia.
Qed.

(** ** Shape and zooms *)

(** Bytes outside a run of elements do not see an assignment to it. *)
Lemma lookup_set_elems_other (hd : ndarray0) (off sz : nat) (vs : list Z)
    (k : nat) :
  (k < off \/ off + sz * length vs <= k)%nat ->
  data (set_elems hd off sz vs) !! k = data hd !! k.
Proof.
  revert hd off. induction vs as [| v vs IH]; intros hd off Hk;
    [reflexivity |].
  cbn [set_elems length] in *. rewrite IH by lia.
  unfold set_int, write_int. cbn [data].
  destruct (decide (k < off)%nat) as [Hlt | Hge].
  - apply list_lookup_inserts_lt. exact Hlt.
  - apply list_lookup_inserts_ge.
    rewrite length_in_order, length_le_encode. lia.
Qed.

(** The three fields of a pattern put together from them. *)
Lemma f32_fields (s : bool) (E F : Z) :
  0 <= E < 256 -> 0 <= F < 2 ^ 23 ->
  let bits := (if s then 2 ^ 31 else 0) + (E * 2 ^ 23 + F) in
  Z.testbit bits 31 = s
  /\ Z.land (Z.shiftr bits 23) 255 = E
  /\ Z.land bits (2 ^ 23 - 1) = F.
Proof.
  intros HE HF bits.
  assert (Hb : bits = F + ((if s then 256 else 0) + E) * 2 ^ 23)
    by (subst bits; destruct s; lia).
  split; [| split].
  - rewrite Z.testbit_odd, Z.shiftr_div_pow2 by lia.
    assert (Hq : bits / 2 ^ 31 = if s then 1 else 0).
    { symmetry. apply (Z.div_unique_pos _ _ _ (E * 2 ^ 23 + F)); [lia |].
      subst bits. destruct s; lia. }
    rewrite Hq. now destruct s.
  - rewrite Z.shiftr_div_pow2 by lia.
    assert (Hq : bits / 2 ^ 23 = (if s then 256 else 0) + E).
    { symmetry. apply (Z.div_unique_pos _ _ _ F); [lia |]. lia. }
    rewrite Hq. change 255 with (Z.ones 8). rewrite Z.land_ones by lia.
    change (2 ^ 8) with 256. symmetry.
    apply (Z.mod_unique_pos _ _ (if s then 1 else 0)); [lia |].
    destruct s; lia.
  - change (2 ^ 23 - 1) with (Z.ones 23). rewrite Z.land_ones by lia.
    symmetry.
    apply (Z.mod_unique_pos _ _ ((if s then 256 else 0) + E)); lia.
Qed.

(** A single in canonical form has a pattern, and the pattern denotes
    it. *)
Lemma f32_decode_encode (x : spec_float) :
  valid_binary 24 128 x = true ->
  f32_decode (f32_encode x) = x /\ 0 <= f32_encode x < 2 ^ 32.
Proof.
  intros Hv. destruct x as [s | s | | s m e].
  - destruct s; split; (reflexivity || (cbn; lia)).
  - destruct s; split; (reflexivity || (cbn; lia)).
  - split; [reflexivity | cbn; lia].
  - cbn [valid_binary] in Hv. unfold bounded, canonical_mantissa in Hv.
    apply andb_true_iff in Hv. destruct Hv as [Hc He].
    apply Z.eqb_eq in Hc. apply Z.leb_le in He.
    unfold fexp, emin in Hc.
    change (3 - 128 - 24) with (-149) in Hc.
    change (128 - 24) with 104 in He.
    pose proof (digits2_pos_bounds m) as Hd.
    set (d := Zpos (digits2_pos m)) in *.
    assert (Hdpos : 0 < d) by (subst d; lia).
    cbn [f32_encode].
    destruct (Z.ltb_spec (Zpos m) (2 ^ 23)) as [Hsub | Hnorm].
    + (* subnormal: the exponent is the smallest one *)
      assert (He' : e = -149).
      { destruct (Z_lt_le_dec d 24) as [Hlt | Hge]; [lia |].
        assert (2 ^ 23 <= 2 ^ (d - 1)) by (apply Z.pow_le_mono_r; lia).
        lia. }
      subst e.
      destruct (f32_fields s 0 (Zpos m) ltac:(lia) ltac:(lia))
        as (Hs & HE & HF).
      change (0 * 2 ^ 23 + Zpos m) with (Zpos m) in *.
      split.
      * unfold f32_decode. rewrite Hs, HE, HF. reflexivity.
      * destruct s; lia.
    + assert (Hd24 : d = 24).
      { destruct (Z_lt_le_dec d 24) as [Hlt | Hge].
        - assert (2 ^ d <= 2 ^ 23) by (apply Z.pow_le_mono_r; lia). lia.
        - lia. }
      rewrite Hd24 in Hd. change (2 ^ (24 - 1)) with (2 ^ 23) in Hd.
      assert (Hlo : -149 <= e) by lia.
      destruct (f32_fields s (e + 150) (Zpos m - 2 ^ 23) ltac:(lia)
                  ltac:(change (2 ^ 24) with (2 * 2 ^ 23) in Hd; lia))
        as (Hs & HE & HF).
      split.
      * unfold f32_decode. rewrite Hs, HE, HF.
        destruct (Z.eqb_spec (e + 150) 255) as [E1 | _]; [lia |].
        destruct (Z.eqb_spec (e + 150) 0) as [E0 | _]; [lia |].
        replace (Zpos m - 2 ^ 23 + 2 ^ 23) with (Zpos m) by lia.
        f_equal. lia.
      * change (2 ^ 24) with (2 * 2 ^ 23) in Hd.
        change (2 ^ 32) with (512 * 2 ^ 23).
        change (2 ^ 31) with (256 * 2 ^ 23).
        destruct s; nia.
Qed.

(** [hdr['pixdim'][1:1+len(vs)] = vs] on the whole field. *)
Lemma pixdims_set_pixdims (hd : ndarray0) (vs : list Z) :
  length (data hd) = 348%nat ->
  (length vs <= 7)%nat ->
  pixdims (set_pixdims hd 1 vs)
  = pixdim hd 0 :: map (fun v => v mod 2 ^ 32) vs
    ++ drop (1 + length vs) (pixdims hd).
Proof.
  intros Hlen Hfit. unfold pixdims at 1. cbn [map seq].
  rewrite !(pixdim_set_pixdims _ 1 vs) by (exact Hlen || lia).
  destruct vs as [| a [| b [| c [| d [| e [| f [| g [| x ?]]]]]]]];
    cbn [length] in Hfit; try lia; reflexivity.
Qed.

(** An assignment to [dim] leaves everything else as it is. *)
Lemma set_dims_frame (hd : ndarray0) (i : nat) (vs : list Z) :
  (i + length vs <= 8)%nat ->
  dtype_order (set_dims hd i vs) = dtype_order hd
  /\ length (data (set_dims hd i vs)) = length (data hd)
  /\ (forall k : nat, (k < 40 \/ 56 <= k)%nat ->
      data (set_dims hd i vs) !! k = data hd !! k)
  /\ pixdims (set_dims hd i vs) = pixdims hd
  /\ sizeof_hdr (set_dims hd i vs) = sizeof_hdr hd
  /\ datatype (set_dims hd i vs) = datatype hd
  /\ bitpix (set_dims hd i vs) = bitpix hd.
Proof.
  intros Hfit.
    split; [apply dtype_order_set_elems |].
    split; [apply length_set_elems |].
    split.
    { intros k Hk. apply lookup_set_elems_other. unfold off_dim. lia. }
    split.
    { unfold pixdims. apply map_ext_in. intros j Hj.
      apply in_seq in Hj.
      unfold pixdim. unfold set_dims at 1. rewrite dtype_order_set_elems.
      apply read_uint_set_dims_other; [exact Hfit |]. unfold off_pixdim. lia. }
    unfold sizeof_hdr, datatype, bitpix, get_int, read_int.
    unfold set_dims at 1 3 5. rewrite !dtype_order_set_elems.
    rewrite !read_uint_set_dims_other
      by (exact Hfit
          || (unfold off_sizeof_hdr, off_datatype, off_bitpix; lia)).
    repeat split.
Qed.

Section ShapeZooms.

Context {pyobj : Type} `{EqDecision pyobj}.

(** Setting the shape writes the eight [dim] slots and nothing else,
    whether the call succeeds or raises: every byte outside the field,
    the byte order and the ancillary mapping are as before, so that the
    zooms of a dimension that reappears are the ones stored earlier,
    not fresh ones. *)
Theorem set_data_shape_frame (self : AnalyzeHeader (pyobj := pyobj))
    (shape : list Z) :
  let self' := snd (set_data_shape shape self) in
  extra_data self' = extra_data self
  /\ dtype_order (_header_data self') = dtype_order (_header_data self)
  /\ length (data (_header_data self')) = length (data (_header_data self))
  /\ (forall k : nat, (k < 40 \/ 56 <= k)%nat ->
      data (_header_data self') !! k = data (_header_data self) !! k)
  /\ pixdims (_header_data self') = pixdims (_header_data self)
  /\ sizeof_hdr (_header_data self') = sizeof_hdr (_header_data self)
  /\ datatype (_header_data self') = datatype (_header_data self)
  /\ bitpix (_header_data self') = bitpix (_header_data self).
Proof.
  pose proof set_dims_frame as Hframe.
  cbv zeta. unfold set_data_shape.
  cbn [bind modify _header_data with_data extra_data snd].
  set (hd := _header_data self).
  change (set_dim ?h 0 ?v) with (set_dims h 0 [v]).
  destruct (Hframe hd 0%nat (replicate 8 1) ltac:(cbn; lia))
    as (A1 & A2 & A3 & A4 & A5 & A6 & A7).
  destruct (Hframe (set_dims hd 0 (replicate 8 1)) 0%nat
              [Z.of_nat (length shape)] ltac:(cbn; lia))
    as (B1 & B2 & B3 & B4 & B5 & B6 & B7).
  destruct (slice_length 8 1 (Z.of_nat (length shape) + 1)
            =? Z.of_nat (length shape)) eqn:Hs.
  - apply Z.eqb_eq in Hs. rewrite slice_length_fits in Hs by lia.
    destruct (Hframe (set_dims (set_dims hd 0 (replicate 8 1)) 0
                        [Z.of_nat (length shape)]) 1%nat shape ltac:(lia))
      as (C1 & C2 & C3 & C4 & C5 & C6 & C7).
    cbn [modify snd fst _header_data with_data extra_data].
    repeat split; try congruence.
    intros k Hk. now rewrite C3, B3, A3.
  - cbn [raise snd fst _header_data with_data extra_data].
    repeat split; try congruence.
    intros k Hk. now rewrite B3, A3.
Qed.

(** A shape of more than seven extents cannot be stored: the call
    raises [ValueError], but only after the field was reset, so the
    header is left with the length of the shape as its rank and 1 in
    all seven extents. *)
Theorem set_data_shape_too_long (self : AnalyzeHeader (pyobj := pyobj))
    (shape : list Z) :
  length (binaryblock self) = 348%nat ->
  7 < Z.of_nat (length shape) <= 32767 ->
  exists self',
    set_data_shape shape self
    = (inl (ValueError "could not broadcast input array"), self')
    /\ dims (_header_data self')
       = Z.of_nat (length shape) :: replicate 7 1
    /\ get_data_shape self' = replicate 7 1.
Proof.
  intros Hlen [Hlong Hmax]. unfold binaryblock, tostring in Hlen.
  unfold set_data_shape.
  cbn [bind modify _header_data with_data extra_data].
  rewrite slice_length_fits by lia.
  destruct (Z.eqb_spec (Z.min (Z.of_nat (length shape)) 7)
              (Z.of_nat (length shape))) as [E | _]; [lia |].
  eexists. split; [reflexivity |].
  cbn [_header_data with_data].
  change (set_dim ?h 0 ?v) with (set_dims h 0 [v]).
  set (hd := _header_data self) in *.
  assert (H1 : length (data (set_dims hd 0 (replicate 8 1))) = 348%nat)
    by (unfold set_dims; now rewrite length_set_elems).
  assert (Hd : dims (set_dims (set_dims hd 0 (replicate 8 1)) 0
                       [Z.of_nat (length shape)])
               = Z.of_nat (length shape) :: replicate 7 1).
  { rewrite dims_eq.
    rewrite !(dim_set_dims _ 0 [_]) by (exact H1 || (cbn; lia)).
    rewrite !(dim_set_dims _ 0 (replicate 8 1)) by (exact Hlen || (cbn; lia)).
    cbn [lookup list_lookup replicate Nat.sub Nat.leb].
    rewrite (wrap_small 16 (Z.of_nat (length shape))) by lia.
    reflexivity. }
  split; [exact Hd |].
  unfold get_data_shape. cbn [_header_data with_data]. fold hd.
  change (set_dim ?h 0 ?v) with (set_dims h 0 [v]). rewrite Hd.
  assert (Hr : dim (set_dims (set_dims hd 0 (replicate 8 1)) 0
                      [Z.of_nat (length shape)]) 0
               = Z.of_nat (length shape)).
  { rewrite dims_eq in Hd. now injection Hd. }
  rewrite Hr.
  destruct (Z.eqb_spec (Z.of_nat (length shape)) 0) as [E | _]; [lia |].
  rewrite take_tail_dims by (reflexivity || lia).
  cbn [drop]. apply take_ge. rewrite length_replicate. lia.
Qed.

(** The zooms and the shape of a header go together: for a rank other
    than 0 there are as many zooms as extents, at most seven; for rank
    0 the shape is (0,) and there are no zooms. *)
Theorem zooms_match_shape (self : AnalyzeHeader (pyobj := pyobj)) :
  (if dim (_header_data self) 0 =? 0
   then get_data_shape self = [0] /\ get_zooms self = []
   else length (get_zooms self) = length (get_data_shape self))
  /\ (length (get_zooms self) <= 7)%nat
  /\ (length (get_data_shape self) <= 7)%nat.
Proof.
  unfold get_data_shape, get_zooms.
  assert (Hl : forall (A : Type) (l : list A) (r : Z),
            length l = 8%nat ->
            length (py_slice l 1 (r + 1))
            = Z.to_nat (slice_length 8 1 (r + 1))
            /\ (length (py_slice l 1 (r + 1)) <= 7)%nat).
  { intros A l r Hlen. unfold py_slice, slice_length, slice_bound.
    rewrite Hlen. change (Z.of_nat 8) with 8.
    change (1 <? 0) with false. cbv iota.
    rewrite length_take, length_drop, Hlen.
    destruct (r + 1 <? 0); lia. }
  destruct (Hl Z (dims (_header_data self)) (dim (_header_data self) 0)
              eq_refl) as [Ld Ld'].
  destruct (Hl Z (pixdims (_header_data self)) (dim (_header_data self) 0)
              eq_refl) as [Lp Lp'].
  destruct (dim (_header_data self) 0 =? 0).
  - repeat split; cbn [length]; lia.
  - rewrite length_map. repeat split; lia.
Qed.

(** What [set_zooms] does.  A count of zooms other than the rank, or a
    zoom below zero, raises [HeaderDataError] and leaves the header as
    it was; a zero or a NaN is not below zero and is accepted.
    Otherwise, for a rank of at most 7, the call succeeds: the zooms
    read back are the ones given, narrowed to single precision, the
    shape, the ancillary mapping and every byte outside the slots
    written are unchanged. *)
Theorem set_zooms_outcomes (self : AnalyzeHeader (pyobj := pyobj))
    (zooms : list spec_float) :
  length (binaryblock self) = 348%nat ->
  let rank := dim (_header_data self) 0 in
  (if negb (Z.of_nat (length zooms) =? rank) then
     exists msg, set_zooms zooms self = (inl (HeaderDataError msg), self)
   else if existsb (fun z => SFltb z (S754_zero false)) zooms then
     set_zooms zooms self
     = (inl (HeaderDataError "zooms must be positive"), self)
   else if rank <=? 7 then
     exists self',
       set_zooms zooms self = (inr tt, self')
       /\ get_zooms self' = map f64_to_f32 zooms
       /\ get_data_shape self' = get_data_shape self
       /\ extra_data self' = extra_data self
       /\ (forall k : nat, (k < 80 \/ 80 + 4 * length zooms <= k)%nat ->
           data (_header_data self') !! k = data (_header_data self) !! k)
   else
     set_zooms zooms self
     = (inl (ValueError "could not broadcast input array"), self))
  /\ (forall s, SFltb (S754_zero s) (S754_zero false) = false)
  /\ SFltb S754_nan (S754_zero false) = false.
Proof.
  intros Hlen rank. unfold binaryblock, tostring in Hlen.
  split; [| split; [intros s; now destruct s | reflexivity]].
  unfold set_zooms, bind, get_state. fold rank.
  destruct (negb (Z.of_nat (length zooms) =? rank)) eqn:Hn;
    [eexists; reflexivity |].
  apply negb_false_iff, Z.eqb_eq in Hn.
  destruct (existsb _ zooms) eqn:Hneg; [reflexivity |].
  rewrite slice_length_fits by lia.
  destruct (Z.leb_spec rank 7) as [Hle | Hgt].
  2: { destruct (Z.eqb_spec (Z.min rank 7) (Z.of_nat (length zooms)));
         [lia | reflexivity]. }
  destruct (Z.eqb_spec (Z.min rank 7) (Z.of_nat (length zooms))) as [_ | Hne];
    [| lia].
  cbn [modify]. eexists. split; [reflexivity |].
  set (vs := map (fun z => f32_encode (f64_to_f32 z)) zooms).
  assert (Hvs : length vs = length zooms) by (subst vs; apply length_map).
  assert (Hfit : (length vs <= 7)%nat) by lia.
  set (hd := _header_data self) in *.
  assert (Hdim : forall j, (j < 8)%nat ->
            dim (set_pixdims hd 1 vs) j = dim hd j).
  { intros j Hj. apply dim_set_pixdims; lia. }
  split; [| split; [| split]].
  - unfold get_zooms. cbn [_header_data with_data]. fold hd vs.
    rewrite Hdim by lia. fold rank.
    destruct (Z.eqb_spec rank 0) as [E0 | E0].
    { destruct zooms; [reflexivity | cbn [length] in Hn; lia]. }
    rewrite take_tail_dims by (reflexivity || lia).
    rewrite pixdims_set_pixdims by assumption.
    cbn [drop]. rewrite <- Hn, Nat2Z.id, <- Hvs.
    rewrite <- (length_map (fun v => v mod 2 ^ 32) vs) at 1.
    rewrite drop_0, take_app_length.
    subst vs. rewrite !map_map. apply map_ext. intros z.
    destruct (f32_decode_encode _ (f64_to_f32_valid z)) as [Hdec Hr].
    rewrite Z.mod_small by exact Hr. exact Hdec.
  - unfold get_data_shape. cbn [_header_data with_data]. fold hd vs.
    rewrite !dims_eq, !Hdim by lia. reflexivity.
  - reflexivity.
  - intros k Hk. cbn [_header_data with_data]. fold hd vs.
    unfold set_pixdims. apply lookup_set_elems_other.
    unfold off_pixdim. lia.
Qed.

End ShapeZooms.

(** ** The checks on any header *)

Lemma sizeof_hdr_set_bitpix hd v : sizeof_hdr (set_bitpix hd v) = sizeof_hdr hd.
Proof. other_field. Qed.

Lemma pixdim_set_bitpix hd v j : pixdim (set_bitpix hd v) j = pixdim hd j.
Proof. other_field. Qed.

Lemma pixdims_set_bitpix hd v : pixdims (set_bitpix hd v) = pixdims hd.
Proof.
  unfold pixdims. apply map_ext. intros j. apply pixdim_set_bitpix.
Qed.

Section ChecksInGeneral.

Variable native_code : endian_code.
Variable error_level : Z.
Context {pyobj : Type} `{EqDecision pyobj}.

(** The bit width of every dtype of the table is a 16-bit value. *)
Lemma registry_dtype_fits (code : Z) (dt : np_dtype) :
  data_type_codes_dtype native_code code = Some dt ->
  wrap 16 (dt_itemsize dt * 8) = dt_itemsize dt * 8.
Proof.
  unfold data_type_codes_dtype. cbn [_dtdefs rev app].
  repeat (rewrite filter_cons; case_decide as Hm;
          [ intros E; injection E as <-; reflexivity | clear Hm ]).
  discriminate.
Qed.

Lemma run_checks_snd
    (chk : AnalyzeHeader (pyobj := pyobj) -> bool -> Report * AnalyzeHeader)
    (rest : list (AnalyzeHeader -> bool -> Report * AnalyzeHeader))
    (fix_ : bool) (obj : AnalyzeHeader) :
  snd (run_checks (chk :: rest) fix_ obj)
  = snd (run_checks rest fix_ (snd (chk obj fix_))).
Proof.
  cbn [run_checks]. destruct (chk obj fix_) as [r o]. cbn [snd].
  now destruct (run_checks rest fix_ o).
Qed.

(** A header in order: the size field at 348, the bit width the one of
    the data type when the code is in the table, no negative spatial
    spacing. *)
Lemma run_checks_in_order (fix_ : bool)
    (h : AnalyzeHeader (pyobj := pyobj)) :
  sizeof_hdr (_header_data h) = 348 ->
  (forall dt,
     data_type_codes_dtype native_code (datatype (_header_data h)) = Some dt ->
     bitpix (_header_data h) = dt_itemsize dt * 8) ->
  existsb f32_ltb0 (py_slice (pixdims (_header_data h)) 1 4) = false ->
  snd (run_checks (_get_checks native_code) fix_ h) = h
  /\ (forall dt,
        data_type_codes_dtype native_code (datatype (_header_data h))
        = Some dt ->
        dt_type dt <> np_void ->
        Forall (fun r => level r = 0 /\ problem_msg r = "" /\ fix_msg r = "")
          (fst (run_checks (_get_checks native_code) fix_ h))).
Proof.
  intros Hsz Hbp Hpix. unfold _get_checks. cbn [run_checks].
  unfold _chk_sizeof_hdr at 1 2. rewrite Hsz. cbn [Z.eqb Pos.eqb].
  unfold _chk_datatype at 1 2.
  unfold _chk_bitpix at 1 2.
  destruct (data_type_codes_dtype native_code (datatype (_header_data h)))
    as [dt |] eqn:Hdt.
  - rewrite (Hbp dt eq_refl), Z.eqb_refl. cbv beta iota zeta.
    unfold _chk_pixdims. rewrite Hpix. cbn [negb fst snd].
    split; [reflexivity |]. intros dt' E Hv. injection E as <-.
    rewrite bool_decide_eq_false_2 by exact Hv.
    destruct fix_; repeat constructor.
  - cbv beta iota zeta. unfold _chk_pixdims. rewrite Hpix.
    cbn [negb fst snd]. split; [reflexivity | discriminate].
Qed.

(** Running the checks with repair on any header of 348 bytes leaves a
    header in order: the size field is 348, the data type code is the
    one found, the bit width is the one of the data type when the code
    is in the table (and left alone when it is not), no spatial
    spacing is negative; the extents, the byte order and the ancillary
    mapping are untouched.  A second run changes nothing, and when the
    code is that of a supported type it reports nothing either. *)
Theorem check_fix_establishes (h : AnalyzeHeader (pyobj := pyobj)) :
  length (binaryblock h) = 348%nat ->
  let fixed := snd (BatteryRunner_check_fix (_get_checks native_code) h) in
  sizeof_hdr (_header_data fixed) = 348
  /\ datatype (_header_data fixed) = datatype (_header_data h)
  /\ bitpix (_header_data fixed)
     = match data_type_codes_dtype native_code (datatype (_header_data h))
       with
       | Some dt => dt_itemsize dt * 8
       | None => bitpix (_header_data h)
       end
  /\ existsb f32_ltb0 (py_slice (pixdims (_header_data fixed)) 1 4) = false
  /\ dims (_header_data fixed) = dims (_header_data h)
  /\ endianness native_code fixed = endianness native_code h
  /\ extra_data fixed = extra_data h
  /\ length (binaryblock fixed) = 348%nat
  /\ snd (check_fix native_code error_level h) = fixed
  /\ snd (BatteryRunner_check_fix (_get_checks native_code) fixed) = fixed
  /\ (forall dt,
        data_type_codes_dtype native_code (datatype (_header_data h))
        = Some dt ->
        dt_type dt <> np_void ->
        check_only native_code fixed = ([], fixed)).
Proof.
  intros Hlen fixed. unfold binaryblock, tostring in *.
  assert (Hdims : dims (_header_data fixed) = dims (_header_data h)
                  /\ dtype_order (_header_data fixed)
                     = dtype_order (_header_data h)).
  { subst fixed. unfold BatteryRunner_check_fix. rewrite !dims_eq.
    assert (Hd : forall j, (j < 8)%nat ->
              dim (_header_data
                     (snd (run_checks (_get_checks native_code) true h))) j
              = dim (_header_data h) j)
      by (intros j Hj; now apply run_checks_dim).
    rewrite !Hd by lia.
    split; [reflexivity |]. apply (run_checks_dim native_code true h 0). lia. }
  assert (Hextra : extra_data fixed = extra_data h).
  { subst fixed. unfold BatteryRunner_check_fix.
    apply run_checks_extra_data. }
  (* the header after each check *)
  set (hd0 := _header_data h) in *.
  set (hd1 := if sizeof_hdr hd0 =? 348 then hd0 else set_sizeof_hdr hd0 348).
  set (hd2 := match data_type_codes_dtype native_code (datatype hd1) with
              | Some dt =>
                  if dt_itemsize dt * 8 =? bitpix hd1 then hd1
                  else set_bitpix hd1 (dt_itemsize dt * 8)
              | None => hd1
              end).
  set (hd3 := if negb (existsb f32_ltb0 (py_slice (pixdims hd2) 1 4)) then hd2
              else set_pixdims hd2 1
                     (map f32_abs (py_slice (pixdims hd2) 1 4))).
  assert (Hfixed : fixed = with_data h hd3).
  { subst fixed. unfold BatteryRunner_check_fix, _get_checks.
    rewrite !run_checks_snd. cbn [run_checks snd].
    assert (E1 : snd (_chk_sizeof_hdr h true) = with_data h hd1).
    { unfold _chk_sizeof_hdr. fold hd0. subst hd1.
      destruct (sizeof_hdr hd0 =? 348); [| reflexivity].
      subst hd0. now destruct h. }
    rewrite E1.
    assert (E2 : snd (_chk_datatype native_code (with_data h hd1) true)
                 = with_data h hd1) by reflexivity.
    rewrite E2.
    assert (E3 : snd (_chk_bitpix native_code (with_data h hd1) true)
                 = with_data h hd2).
    { unfold _chk_bitpix. cbn [_header_data with_data]. subst hd2.
      destruct (data_type_codes_dtype native_code (datatype hd1)) as [dt |];
        [| reflexivity].
      destruct (dt_itemsize dt * 8 =? bitpix hd1); reflexivity. }
    rewrite E3.
    unfold _chk_pixdims. cbn [_header_data with_data]. subst hd3.
    destruct (negb (existsb f32_ltb0 (py_slice (pixdims hd2) 1 4)));
      reflexivity. }
  assert (Hhd1 : hd1 = if sizeof_hdr hd0 =? 348 then hd0
                       else set_sizeof_hdr hd0 348) by reflexivity.
  assert (Hhd2 : hd2
                 = match data_type_codes_dtype native_code (datatype hd1) with
                   | Some dt =>
                       if dt_itemsize dt * 8 =? bitpix hd1 then hd1
                       else set_bitpix hd1 (dt_itemsize dt * 8)
                   | None => hd1
                   end) by reflexivity.
  assert (Hhd3 : hd3
                 = if negb (existsb f32_ltb0 (py_slice (pixdims hd2) 1 4))
                   then hd2
                   else set_pixdims hd2 1
                          (map f32_abs (py_slice (pixdims hd2) 1 4)))
    by reflexivity.
  clearbody hd3. clearbody hd2. clearbody hd1.
  assert (L1 : length (data hd1) = 348%nat).
  { rewrite Hhd1. destruct (sizeof_hdr hd0 =? 348); [exact Hlen |].
    unfold set_sizeof_hdr. now rewrite length_set_int. }
  assert (S1 : sizeof_hdr hd1 = 348).
  { rewrite Hhd1. destruct (Z.eqb_spec (sizeof_hdr hd0) 348) as [E | _];
      [exact E |].
    rewrite sizeof_hdr_set_sizeof_hdr by exact Hlen. reflexivity. }
  assert (D1 : datatype hd1 = datatype hd0).
  { rewrite Hhd1. destruct (sizeof_hdr hd0 =? 348); [reflexivity |].
    apply datatype_set_sizeof_hdr. }
  assert (B1 : bitpix hd1 = bitpix hd0).
  { rewrite Hhd1. destruct (sizeof_hdr hd0 =? 348); [reflexivity |].
    apply bitpix_set_sizeof_hdr. }
  clear Hhd1.
  assert (L2 : length (data hd2) = 348%nat).
  { rewrite Hhd2.
    destruct (data_type_codes_dtype native_code (datatype hd1)) as [dt |];
      [| exact L1].
    destruct (dt_itemsize dt * 8 =? bitpix hd1); [exact L1 |].
    unfold set_bitpix. now rewrite length_set_int. }
  assert (S2 : sizeof_hdr hd2 = 348).
  { rewrite Hhd2.
    destruct (data_type_codes_dtype native_code (datatype hd1)) as [dt |];
      [| exact S1].
    destruct (dt_itemsize dt * 8 =? bitpix hd1); [exact S1 |].
    now rewrite sizeof_hdr_set_bitpix. }
  assert (D2 : datatype hd2 = datatype hd0).
  { rewrite Hhd2.
    destruct (data_type_codes_dtype native_code (datatype hd1)) as [dt |];
      [| exact D1].
    destruct (dt_itemsize dt * 8 =? bitpix hd1); [exact D1 |].
    now rewrite datatype_set_bitpix. }
  assert (B2 : bitpix hd2
               = match data_type_codes_dtype native_code (datatype hd0) with
                 | Some dt => dt_itemsize dt * 8
                 | None => bitpix hd0
                 end).
  { rewrite Hhd2, D1.
    destruct (data_type_codes_dtype native_code (datatype hd0)) as [dt |]
      eqn:Hdt; [| exact B1].
    destruct (Z.eqb_spec (dt_itemsize dt * 8) (bitpix hd1)) as [E | _];
      [now symmetry |].
    rewrite bitpix_set_bitpix by exact L1.
    apply (registry_dtype_fits _ _ Hdt). }
  clear Hhd2.
  set (spatial := py_slice (pixdims hd2) 1 4) in *.
  assert (Hsp : spatial = [pixdim hd2 1; pixdim hd2 2; pixdim hd2 3])
    by apply spatial_pixdims.
  assert (Hfit : (1 + length (map f32_abs spatial) <= 8)%nat)
    by (rewrite Hsp; cbn; lia).
  assert (S3 : sizeof_hdr hd3 = 348).
  { rewrite Hhd3. destruct (negb _); [exact S2 |].
    now rewrite sizeof_hdr_set_pixdims. }
  assert (D3 : datatype hd3 = datatype hd0).
  { rewrite Hhd3. destruct (negb _); [exact D2 |].
    now rewrite datatype_set_pixdims. }
  assert (B3 : bitpix hd3 = bitpix hd2).
  { rewrite Hhd3. destruct (negb _); [reflexivity |].
    now rewrite bitpix_set_pixdims. }
  assert (L3 : length (data hd3) = 348%nat).
  { rewrite Hhd3. destruct (negb _); [exact L2 |].
    unfold set_pixdims. now rewrite length_set_elems. }
  assert (P3 : existsb f32_ltb0 (py_slice (pixdims hd3) 1 4) = false).
  { rewrite Hhd3. destruct (existsb f32_ltb0 spatial) eqn:Hneg; cbn [negb].
    - rewrite spatial_pixdims.
      rewrite !pixdim_set_pixdims by (exact L2 || exact Hfit).
      rewrite Hsp. cbn [map lookup list_lookup Nat.sub Nat.leb existsb].
      rewrite !Z.mod_small
        by (pose proof (f32_abs_range (pixdim hd2 1));
            pose proof (f32_abs_range (pixdim hd2 2));
            pose proof (f32_abs_range (pixdim hd2 3)); lia).
      now rewrite !f32_abs_not_negative.
    - exact Hneg. }
  clear Hhd3.
  assert (Hinorder :
            forall dt,
              data_type_codes_dtype native_code
                (datatype (_header_data fixed)) = Some dt ->
              bitpix (_header_data fixed) = dt_itemsize dt * 8).
  { rewrite Hfixed. cbn [_header_data with_data]. rewrite D3, B3, B2.
    intros dt ->. reflexivity. }
  rewrite Hfixed in *. cbn [_header_data with_data extra_data] in *.
  split; [exact S3 |]. split; [exact D3 |].
  split; [now rewrite B3 |]. split; [exact P3 |].
  split; [apply Hdims |].
  split; [rewrite !endianness_dtype_order; apply Hdims |].
  split; [reflexivity |]. split; [exact L3 |].
  split.
  { unfold check_fix. fold fixed. rewrite <- Hfixed. subst fixed.
    now destruct (BatteryRunner_check_fix (_get_checks native_code) h). }
  destruct (run_checks_in_order true (with_data h hd3) S3 Hinorder P3)
    as [Hsame _].
  split; [exact Hsame |].
  intros dt Hdt Hv.
  destruct (run_checks_in_order false (with_data h hd3) S3 Hinorder P3)
    as [Hsame' Hclean].
  cbn [_header_data with_data] in Hclean. rewrite D3 in Hclean.
  specialize (Hclean dt Hdt Hv).
  unfold check_only, BatteryRunner_check_only.
  destruct (run_checks (_get_checks native_code) false (with_data h hd3))
    as [reports obj]. cbn [fst snd] in *. subst obj. f_equal.
  induction Hclean as [| r l [Hr _] _ IH]; [reflexivity |].
  rewrite filter_cons. case_decide; [contradiction | exact IH].
Qed.

(** The checks leave the data type code alone. *)
Lemma run_checks_datatype (fix_ : bool) (h : AnalyzeHeader (pyobj := pyobj)) :
  datatype (_header_data (snd (run_checks (_get_checks native_code) fix_ h)))
  = datatype (_header_data h).
Proof.
  unfold _get_checks. rewrite !run_checks_snd. cbn [run_checks snd].
  unfold _chk_sizeof_hdr, _chk_datatype, _chk_bitpix, _chk_pixdims.
  repeat match goal with
         | |- context [if ?c then _ else _] => destruct c
         | |- context [match ?c with Some _ => _ | None => _ end] =>
             destruct c
         end;
    cbn [snd _header_data with_data];
    rewrite ?spatial_pixdims;
    rewrite ?datatype_set_pixdims by (cbn; lia);
    rewrite ?datatype_set_bitpix, ?datatype_set_sizeof_hdr;
    reflexivity.
Qed.

(** When [check_fix] raises.  Only the data type check reports what the
    repair cannot mend: with the threshold at 40 or below, a code that
    is not in the table, or one of a void type, raises
    [HeaderDataError]; in every other case [check_fix] returns.  So a
    header that [check_fix] has passed at such a threshold has a data
    type: [get_data_dtype] finds it, in the byte order of the header. *)
Theorem check_fix_raises (h : AnalyzeHeader (pyobj := pyobj)) :
  fst (check_fix native_code error_level h)
  = (if error_level <=? 40 then
       match data_type_codes_dtype native_code (datatype (_header_data h))
       with
       | None => inl (HeaderDataError "data code not recognized")
       | Some dt =>
           if bool_decide (dt_type dt = np_void)
           then inl (HeaderDataError "data code not supported")
           else inr tt
       end
     else inr tt)
  /\ (error_level <= 40 ->
      fst (check_fix native_code error_level h) = inr tt ->
      exists dt,
        get_data_dtype native_code (snd (check_fix native_code error_level h))
        = inr (newbyteorder (endianness native_code h) dt)
        /\ dt_type dt <> np_void).
Proof.
  assert (Hfst : fst (check_fix native_code error_level h)
    = (if error_level <=? 40 then
         match data_type_codes_dtype native_code (datatype (_header_data h))
         with
         | None => inl (HeaderDataError "data code not recognized")
         | Some dt =>
             if bool_decide (dt_type dt = np_void)
             then inl (HeaderDataError "data code not supported")
             else inr tt
         end
       else inr tt)).
  { unfold check_fix, BatteryRunner_check_fix, _get_checks. cbn [run_checks].
    unfold _chk_sizeof_hdr at 1.
    set (h1 := if sizeof_hdr (_header_data h) =? 348 then _ else _).
    assert (D1 : datatype (_header_data (snd h1)) = datatype (_header_data h)
                 /\ log_raise error_level (fst h1) = None).
    { subst h1. destruct (sizeof_hdr (_header_data h) =? 348);
        cbn [fst snd _header_data with_data]; (split; [| reflexivity]);
        [reflexivity | apply datatype_set_sizeof_hdr]. }
    destruct h1 as [r1 h1]. cbn [fst snd] in D1. destruct D1 as [D1 R1].
    unfold _chk_datatype at 1. unfold _chk_bitpix at 1. rewrite D1.
    unfold _chk_pixdims.
    destruct (data_type_codes_dtype native_code (datatype (_header_data h)))
      as [dt |] eqn:Hdt.
    - destruct (dt_itemsize dt * 8 =? bitpix (_header_data h1));
        cbn [_header_data with_data];
        match goal with
        | |- context [negb (existsb f32_ltb0 ?l)] =>
            destruct (negb (existsb f32_ltb0 l))
        end;
        cbn [fst snd log_raise_all]; rewrite R1;
        case_bool_decide; destruct (Z.leb_spec error_level 40);
        unfold log_raise; cbn;
        repeat match goal with
               | |- context [error_level <=? ?n] =>
                   destruct (Z.leb_spec error_level n); try lia
               end; reflexivity.
    - match goal with
      | |- context [negb (existsb f32_ltb0 ?l)] =>
          destruct (negb (existsb f32_ltb0 l))
      end;
        cbn [fst snd log_raise_all]; rewrite R1;
        destruct (Z.leb_spec error_level 40);
        unfold log_raise; cbn;
        repeat match goal with
               | |- context [error_level <=? ?n] =>
                   destruct (Z.leb_spec error_level n); try lia
               end; reflexivity. }
  split; [exact Hfst |].
  intros Hlevel Hok. rewrite Hfst in Hok.
  destruct (Z.leb_spec error_level 40) as [_ | Hgt]; [| lia].
  assert (Hd : datatype (_header_data
                           (snd (check_fix native_code error_level h)))
               = datatype (_header_data h)
               /\ dtype_order (_header_data
                                 (snd (check_fix native_code error_level h)))
                  = dtype_order (_header_data h)).
  { unfold check_fix, BatteryRunner_check_fix.
    pose proof (run_checks_datatype true h) as D.
    pose proof (proj2 (run_checks_dim native_code true h 0 ltac:(lia))) as O.
    destruct (run_checks (_get_checks native_code) true h) as [reports obj].
    cbn [snd] in *. now split. }
  destruct Hd as [Hd Ho].
  unfold get_data_dtype. rewrite !endianness_dtype_order, Hd, Ho.
  destruct (data_type_codes_dtype native_code (datatype (_header_data h)))
    as [dt |]; [| discriminate].
  case_bool_decide as Hv; [discriminate |].
  exists dt. split; [reflexivity | exact Hv].
Qed.

End ChecksInGeneral.

(** ** Data type codes: setting, checking, naming *)

Section DataTypeCodes.

Variable native_code : endian_code.
Context {pyobj : Type} `{EqDecision pyobj}.

(** The rows of the table as a lookup by key finds them. *)
Lemma registry_rows (k : dt_key) (code : Z) :
  data_type_codes native_code k = Some code ->
  exists label dt,
    In (code, label, dt)
       (map (fun r => (fst (fst r), snd (fst r), row_dtype native_code r))
            _dtdefs)
    /\ data_type_codes_dtype native_code code = Some dt
    /\ data_type_codes_label native_code code = Some label
    /\ data_type_codes native_code (key_label label) = Some code
    /\ (forall l, k = key_label l -> l = label).
Proof.
  unfold data_type_codes at 1. cbn [_dtdefs rev app].
  repeat (rewrite filter_cons; case_decide as Hm;
          [ intros E; injection E as <-;
            eexists; eexists;
            split; [cbn; tauto |];
            split; [reflexivity |];
            split; [reflexivity |];
            split; [reflexivity |];
            intros l ->; cbn [row_matches fst snd] in Hm;
            now apply String.eqb_eq in Hm
          | clear Hm ]).
  discriminate.
Qed.

(** After [set_data_dtype] has accepted a key, the header names the
    type: [get_datatype] gives the code of the table and its label (the
    label given, when the key was a label), [get_data_dtype] finds the
    representation, and the bit width check has nothing to report.
    The data type check agrees for every code but 128: the structured
    RGB type, which [set_data_dtype] accepts because it has fields, is
    reported as not supported, there being no such exception in the
    check. *)
Theorem accepted_data_type_is_named (self self' : AnalyzeHeader (pyobj := pyobj))
    (k : dt_key) :
  length (binaryblock self) = 348%nat ->
  set_data_dtype native_code k self = (inr tt, self') ->
  exists code label dt,
    data_type_codes native_code k = Some code
    /\ get_datatype native_code self' "code" = code_int code
    /\ get_datatype native_code self' "label" = code_label label
    /\ (forall l, k = key_label l -> l = label)
    /\ get_data_dtype native_code self'
       = inr (newbyteorder (endianness native_code self) dt)
    /\ (forall fix_,
          _chk_bitpix native_code self' fix_ = (new_Report cException, self'))
    /\ (forall fix_,
          level (fst (_chk_datatype native_code self' fix_))
          = if code =? 128 then 40 else 0)
    /\ (forall fix_,
          problem_msg (fst (_chk_datatype native_code self' fix_))
          = if code =? 128 then "data code not supported" else "").
Proof.
  intros Hlen Hset.
  destruct (data_type_codes native_code k) as [code |] eqn:Hk.
  2: { unfold set_data_dtype in Hset. rewrite Hk in Hset. discriminate. }
  destruct (registry_rows k code Hk) as (label & dt & Hin & Hdt & Hlab & _ & Hl).
  destruct (bool_decide (dt_type dt = np_void)
            && bool_decide (dt_fields dt = [])) eqn:Hsup.
  { unfold set_data_dtype in Hset. rewrite Hk, Hdt, Hsup in Hset.
    discriminate. }
  destruct (set_data_dtype_success native_code self k code dt Hlen Hk Hdt Hsup)
    as (E & Hc & Hb).
  rewrite E in Hset. injection Hset as <-.
  exists code, label, dt. split; [reflexivity |].
  unfold get_datatype, _get_code_field, get_data_dtype, _chk_bitpix,
    _chk_datatype.
  rewrite Hc, Hb, Hdt, Hlab, Z.eqb_refl.
  split; [reflexivity |]. split; [reflexivity |]. split; [exact Hl |].
  split; [reflexivity |]. split; [reflexivity |].
  cbn in Hin.
  repeat (destruct Hin as [Hin | Hin];
          [ injection Hin as <- <- <-;
            first [ discriminate Hsup
                  | split; intros fix_; destruct fix_; reflexivity ] |]).
  contradiction.
Qed.

(** [get_datatype] on any header: the code is always given; the label
    is a [KeyError] exactly for a code that is not in the table; any
    other form asked for is a [TypeError], whatever the code. *)
Theorem get_datatype_outcomes (self : AnalyzeHeader (pyobj := pyobj))
    (code_repr : string) :
  let code := datatype (_header_data self) in
  (code_repr = "code" -> get_datatype native_code self code_repr = code_int code)
  /\ (code_repr = "label" ->
      match get_datatype native_code self code_repr with
      | code_label l => data_type_codes native_code (key_label l) = Some code
      | code_KeyError c =>
          c = code /\ data_type_codes native_code (key_code code) = None
      | _ => False
      end)
  /\ (code_repr <> "code" -> code_repr <> "label" ->
      exists msg, get_datatype native_code self code_repr = code_TypeError msg).
Proof.
  intros code. unfold get_datatype, _get_code_field. fold code.
  split; [| split].
  - intros ->. reflexivity.
  - intros ->. cbn [String.eqb Ascii.eqb Bool.eqb].
    change (("label" =? "code")%string) with false. cbv iota.
    change (("label" =? "label")%string) with true. cbv iota.
    unfold data_type_codes_label, data_type_codes.
    cbn [_dtdefs rev app].
    repeat (rewrite filter_cons; case_decide as Hm;
            [ cbn [row_matches fst snd] in Hm; apply Z.eqb_eq in Hm;
              rewrite Hm; reflexivity
            | clear Hm ]).
    rewrite filter_nil. split; reflexivity.
  - intros Hc Hl.
    destruct (String.eqb_spec code_repr "code") as [E | _]; [contradiction |].
    destruct (String.eqb_spec code_repr "label") as [E | _]; [contradiction |].
    eexists. reflexivity.
Qed.

End DataTypeCodes.

(** ** Items *)

(** A field lies after the offset the search starts from. *)
Lemma find_field_after (dt : dtd) (name : string) (off o : nat) (c : np_code)
    (n : nat) :
  find_field dt name off = Some (o, c, n) -> (off <= o)%nat.
Proof.
  revert off. induction dt as [| f dt IH]; intros off; [discriminate |].
  cbn [find_field]. destruct (fst (fst f) =? name)%string.
  - intros E. injection E as <- _ _. lia.
  - intros E. apply IH in E. lia.
Qed.

(** Two fields of a layout do not overlap. *)
Lemma find_field_disjoint (dt : dtd) (a b : string) (off oa ob : nat)
    (ca cb : np_code) (na nb : nat) :
  a <> b ->
  find_field dt a off = Some (oa, ca, na) ->
  find_field dt b off = Some (ob, cb, nb) ->
  (oa + code_size ca * na <= ob \/ ob + code_size cb * nb <= oa)%nat.
Proof.
  intros Hne. revert off. induction dt as [| f dt IH]; intros off;
    [discriminate |].
  cbn [find_field].
  destruct (String.eqb_spec (fst (fst f)) a) as [Ea | Ea];
    destruct (String.eqb_spec (fst (fst f)) b) as [Eb | Eb].
  - congruence.
  - intros E Hb. injection E as <- <- <-. apply find_field_after in Hb.
    unfold field_size in Hb. lia.
  - intros Ha E. injection E as <- <- <-. apply find_field_after in Ha.
    unfold field_size in Ha. lia.
  - apply IH.
Qed.

Section Items.

Variable native_code : endian_code.
Context {pyobj : Type} `{EqDecision pyobj}.
Variable np_setfield :
  endian_code -> np_code -> nat -> pyobj -> exn + list byte.

(** Assigning to one key changes what that key reads and nothing else.
    Every other key, field of the layout or ancillary, reads as
    before.  An ancillary key then reads the value assigned, and the
    block is untouched; a field reads the bytes its value was
    converted to, and the ancillary mapping is untouched. *)
Theorem setitem_then_getitem (self self' : AnalyzeHeader (pyobj := pyobj))
    (item : string) (value : pyobj) :
  length (binaryblock self) = 348%nat ->
  __setitem__ np_setfield item value self = (inr tt, self') ->
  (forall item', item' <> item ->
     __getitem__ item' self' = __getitem__ item' self)
  /\ endianness native_code self' = endianness native_code self
  /\ length (binaryblock self') = 348%nat
  /\ match find_field header_dtype item 0 with
     | None =>
         __getitem__ item self' = inr (extra_value value)
         /\ binaryblock self' = binaryblock self
     | Some (off, c, n) =>
         extra_data self' = extra_data self
         /\ exists bs,
              np_setfield (dtype_order (_header_data self)) c n value = inr bs
              /\ ((code_size c * n <= length bs)%nat ->
                  __getitem__ item self'
                  = inr (field_value (dtype_order (_header_data self)) c n
                           (take (code_size c * n) bs)))
     end.
Proof.
  intros Hlen Hset. unfold binaryblock, tostring in *.
  unfold __setitem__ in Hset. rewrite !endianness_dtype_order.
  destruct (find_field header_dtype item 0) as [[[off c] n] |] eqn:Hf.
  - destruct (np_setfield _ c n value) as [e | bs] eqn:Hnp; [discriminate |].
    injection Hset as <-. cbn [_header_data with_data extra_data dtype_order
      data].
    split; [| split; [reflexivity | split; [now rewrite length_inserts |]]].
    + intros item' Hne. unfold __getitem__.
      destruct (find_field header_dtype item' 0) as [[[off' c'] n'] |] eqn:Hf';
        [| reflexivity].
      cbn [_header_data with_data dtype_order data]. do 2 f_equal.
      apply take_drop_inserts_other.
      pose proof (find_field_disjoint _ _ _ _ _ _ _ _ _ _ Hne Hf' Hf) as Hd.
      rewrite length_take. lia.
    + split; [reflexivity |]. exists bs. split; [reflexivity |].
      intros Hbs. unfold __getitem__. rewrite Hf.
      cbn [_header_data with_data dtype_order data]. do 2 f_equal.
      rewrite <- (take_drop_inserts off (take (code_size c * n) bs)
                    (data (_header_data self))) at 2.
      * now rewrite length_take, Nat.min_l by exact Hbs.
      * rewrite length_take, Hlen.
        assert (Hin : (off + code_size c * n <= 348)%nat).
        { clear -Hf. unfold header_dtype, header_key_dtd, image_dimension_dtd,
            data_history_dtd in Hf. cbn [app find_field fst snd] in Hf.
          repeat match type of Hf with
                 | (if (?name =? item)%string then _ else _) = _ =>
                     destruct (name =? item)%string;
                     [ injection Hf as <- <- <-; cbn; lia | ]
                 end.
          discriminate. }
        lia.
  - injection Hset as <-. cbn [_header_data extra_data].
    split; [| split; [reflexivity | split; [exact Hlen |]]].
    + intros item' Hne. unfold __getitem__.
      cbn [_header_data extra_data].
      destruct (find_field header_dtype item' 0) as [[[off' c'] n'] |];
        [reflexivity |].
      rewrite lookup_insert_ne; [reflexivity |]. intros E. now apply Hne.
    + split; [| reflexivity]. unfold __getitem__. rewrite Hf.
      cbn [extra_data]. now rewrite lookup_insert_eq.
Qed.

End Items.

(** ** Files and images *)

Section HeaderFiles.

Variable native_code : endian_code.
Variable error_level : Z.
Context {pyobj : Type} `{EqDecision pyobj}.

(** A file object: reading, writing, the position and moving to a
    position.  What is written at a position is what a read of that
    many bytes from that position returns. *)
Variable fileobj : Type.
Variable read : nat -> ES fileobj (list byte).
Variable write : list byte -> ES fileobj unit.
Variable tell : fileobj -> nat.
Variable seek : nat -> ES fileobj unit.
Hypothesis read_after_write :
  forall (bs : list byte) (f f1 f2 : fileobj),
    write bs f = (inr tt, f1) ->
    seek (tell f) f1 = (inr tt, f2) ->
    exists f3, read (length bs) f2 = (inr bs, f3).

(** A header written to a file and read back from where it was written
    is the same header, less its ancillary mapping, when the checks
    are off or pass it unchanged; with the checks on, what is read
    back is what [check_fix] makes of that header, repaired or
    raising.  This holds with the byte order named, and with the order
    left to be guessed when the rank is from 1 to 7 (or 0 with the
    size field at 348).  A file that gives fewer bytes than a header
    has is refused. *)
Theorem header_survives_file (self : AnalyzeHeader (pyobj := pyobj))
    (f f1 f2 : fileobj) :
  length (binaryblock self) = 348%nat ->
  write_header_to fileobj write self f = (inr tt, f1) ->
  seek (tell f) f1 = (inr tt, f2) ->
  let back := {| _header_data := _header_data self; extra_data := ∅ |} in
  let read_back (check : bool) : exn + AnalyzeHeader (pyobj := pyobj) :=
    if check then
      match check_fix native_code error_level back with
      | (inl err, _) => inl err
      | (inr _, h') => inr h'
      end
    else inr back in
  exists f3,
    (forall check,
       from_fileobj native_code error_level fileobj read
         (Some (endianness native_code self)) check f2
       = (read_back check, f3))
    /\ (1 <= dim (_header_data self) 0 <= 7
        \/ (dim (_header_data self) 0 = 0
            /\ sizeof_hdr (_header_data self) = 348) ->
        forall check,
          from_fileobj native_code error_level fileobj read None check f2
          = (read_back check, f3))
    /\ (check_fix native_code error_level back = (inr tt, back) ->
        forall check, read_back check = inr back)
    /\ binaryblock back = binaryblock self
    /\ (extra_data self = ∅ -> __eq__ native_code back self = true)
    /\ (forall g g' bs e check,
          read 348%nat g = (inr bs, g') -> length bs <> 348%nat ->
          from_fileobj native_code error_level (pyobj := pyobj) fileobj read
            e check g
          = (inl (HeaderDataError "Binary block is wrong size"), g')).
Proof.
  intros Hlen Hw Hs back read_back. unfold write_header_to in Hw.
  destruct (read_after_write _ _ _ _ Hw Hs) as [f3 Hr].
  rewrite Hlen in Hr. exists f3.
  unfold from_fileobj, bind. change (itemsize header_dtype) with 348%nat.
  rewrite Hr. unfold binaryblock, tostring in *.
  assert (Hback : {| _header_data :=
                       {| dtype_order := dtype_order (_header_data self);
                          data := data (_header_data self) |};
                     extra_data := (∅ : gmap string pyobj) |} = back).
  { subst back. now destruct (_header_data self). }
  assert (Hlift : forall r : exn + AnalyzeHeader (pyobj := pyobj),
            match r with
            | inl e => raise e
            | inr hdr => ret hdr
            end f3 = (r, f3))
    by (intros [e | hdr]; reflexivity).
  split; [| split; [| split; [| split; [reflexivity | split]]]].
  - intros check. rewrite init_from_block by exact Hlen. cbv zeta.
    rewrite endianness_dtype_order, Hback. apply Hlift.
  - intros Hrank check. rewrite init_from_block by exact Hlen. cbv zeta.
    rewrite (guessed_order_of_block native_code (_header_data self) Hlen
               Hrank).
    rewrite Hback. apply Hlift.
  - intros Hfix check. subst read_back. cbv beta. rewrite Hfix.
    now destruct check.
  - intros Hx. subst back. rewrite <- Hx.
    replace {| _header_data := _header_data self;
               extra_data := extra_data self |} with self
      by now destruct self.
    apply eq_refl_header.
  - intros g g' bs e check Hg Hbs. rewrite Hg. unfold __init__.
    change (itemsize header_dtype) with 348%nat.
    destruct (Nat.eqb_spec (length bs) 348) as [E | _]; [contradiction |].
    reflexivity.
Qed.

End HeaderFiles.

Section ImageData.

Variable native_code : endian_code.
Context {pyobj : Type} `{EqDecision pyobj}.
Variable ndarray : Type.
Variable world : Type.
Variable read_data :
  AnalyzeHeader (pyobj := pyobj) -> string -> ES world ndarray.
Variable shape_of : ndarray -> list Z.

(** The data of an image are loaded once.  A call that returns an
    array leaves the image holding it, so that every later call
    returns the same array without reading, whatever has become of the
    files, and the shape of the image is the shape of that array; a
    call that returns no array, or raises, leaves the image as it
    was; the header and the file names are never changed. *)
Theorem get_data_loads_once
    (img : AnalyzeImage ndarray (pyobj := pyobj)) (w : world) :
  match get_data ndarray world read_data (img, w) with
  | (inr (Some d), (img', w')) =>
      (forall w'', get_data ndarray world read_data (img', w'')
                   = (inr (Some d), (img', w'')))
      /\ get_shape ndarray shape_of img' = shape_of d
      /\ _metadata ndarray img' = _metadata ndarray img
      /\ _files ndarray img' = _files ndarray img
      /\ _affine ndarray img' = _affine ndarray img
      /\ (_data ndarray img <> None -> img' = img /\ w' = w)
  | (inr None, (img', w')) =>
      img' = img /\ w' = w /\ _data ndarray img = None
  | (inl e, (img', w')) =>
      img' = img /\ _data ndarray img = None
  end.
Proof.
  unfold get_data, get_shape.
  destruct (_data ndarray img) as [d |] eqn:Hd.
  - split; [| split; [| split; [| split; [| split]]]]; try reflexivity.
    + intros w''. now rewrite Hd.
    + now rewrite Hd.
    + intros _. now split.
  - destruct (_files ndarray img) as [files |] eqn:Hf; [| now repeat split].
    case_bool_decide; [now repeat split |].
    destruct (files !! "image") as [fname |]; [| now repeat split].
    destruct (read_data (_metadata ndarray img) fname w) as [[e | d] w'].
    + now split.
    + cbn [_data _files _metadata _affine].
      split; [| split; [| split; [| split; [| split]]]]; try reflexivity.
      intros Hc. congruence.
Qed.

End ImageData.

(** What is written to a [StringIO] at a position is read back from
    that position. *)
Lemma StringIO_read_after_write (bs : list byte) (f f1 f2 : StringIO) :
  StringIO_write bs f = (inr tt, f1) ->
  StringIO_seek (pos f) f1 = (inr tt, f2) ->
  exists f3, StringIO_read (length bs) f2 = (inr bs, f3).
Proof.
  unfold StringIO_write, StringIO_seek, StringIO_read.
  intros E1 E2. injection E1 as <-. injection E2 as <-.
  cbn [getvalue pos]. eexists.
  set (padded := getvalue f ++ replicate (pos f - length (getvalue f)) x00).
  assert (Hp : (pos f <= length padded)%nat).
  { subst padded. rewrite length_app, length_replicate. lia. }
  assert (E : take (length bs)
                (drop (pos f)
                   (take (pos f) padded ++ bs
                    ++ drop (pos f + length bs) padded)) = bs).
  { rewrite drop_app_length' by (rewrite length_take; lia).
    apply take_app_length. }
  rewrite E. reflexivity.
Qed.

(** ** The default header *)

Section DefaultHeader.

Variable native_code : endian_code.
Variable error_level : Z.
Context {pyobj : Type} `{EqDecision pyobj}.

(** A header constructed without a block is in order whatever the byte
    order asked for and whatever the threshold: construction runs no
    check, and the checks find nothing to report or to repair.  The
    header is 348 bytes long, in the order asked for (the machine's
    when none is), of shape (0,), without zooms, of type float32; a
    header constructed from its block, with the order left to be
    guessed and the checks on or off, is the same header; and the
    default headers of the two byte orders compare equal. *)
Theorem default_header_in_order (e : option endian_code) (check : bool) :
  let h := {| _header_data := _empty_headerdata native_code e;
              extra_data := (∅ : gmap string pyobj) |} in
  __init__ native_code error_level None e check None = inr h
  /\ check_fix native_code error_level h = (inr tt, h)
  /\ check_only native_code h = ([], h)
  /\ length (binaryblock h) = 348%nat
  /\ endianness native_code h
     = match e with Some o => o | None => native_code end
  /\ get_data_shape h = [0]
  /\ get_zooms h = []
  /\ get_data_dtype native_code h
     = inr (newbyteorder (endianness native_code h)
              (dtype_of_type native_code np_float32))
  /\ __init__ native_code error_level (Some (binaryblock h)) None check None
     = inr h
  /\ (forall e',
        __eq__ native_code h
          {| _header_data := _empty_headerdata native_code e';
             extra_data := ∅ |} = true).
Proof.
  intros h.
  assert (Hfix : check_fix native_code error_level h = (inr tt, h)).
  { subst h. destruct native_code, e as [[] |]; vm_compute; reflexivity. }
  assert (Hlen : length (data (_header_data h)) = 348%nat).
  { subst h. destruct native_code, e as [[] |]; vm_compute; reflexivity. }
  assert (Hrank : dim (_header_data h) 0 = 0
                  /\ sizeof_hdr (_header_data h) = 348).
  { subst h. destruct native_code, e as [[] |]; vm_compute; split;
      reflexivity. }
  split; [reflexivity |]. split; [exact Hfix |].
  split; [| split; [exact Hlen | split; [| split; [| split; [| split;
    [| split]]]]]].
  7: { intros e'. subst h.
       destruct native_code, e as [[] |], e' as [[] |]; vm_compute;
         reflexivity. }
  - subst h. destruct native_code, e as [[] |]; vm_compute; reflexivity.
  - subst h. destruct native_code, e as [[] |]; vm_compute; reflexivity.
  - subst h. destruct native_code, e as [[] |]; vm_compute; reflexivity.
  - subst h. destruct native_code, e as [[] |]; vm_compute; reflexivity.
  - subst h. destruct native_code, e as [[] |]; vm_compute; reflexivity.
  - assert (Hh : {| _header_data := _header_data h;
                    extra_data := (∅ : gmap string pyobj) |} = h)
      by reflexivity.
    clearbody h.
    pose proof (guessed_order_of_block native_code (_header_data h) Hlen
                  (or_intror Hrank)) as G.
    pose proof (init_guessing native_code error_level (pyobj := pyobj)
                  (data (_header_data h)) Hlen) as E.
    rewrite G in E.
    replace {| dtype_order := dtype_order (_header_data h);
               data := data (_header_data h) |} with (_header_data h) in E
      by now destruct (_header_data h).
    rewrite Hh in E.
    destruct check; [| exact E].
    unfold __init__ in *. unfold binaryblock, tostring.
    destruct (negb (length (data (_header_data h)) =? itemsize header_dtype)%nat);
      [discriminate |].
    rewrite G in *.
    match type of E with
    | inr ?x = _ => assert (Hx : x = h) by congruence; rewrite Hx
    end.
    now rewrite Hfix.
Qed.

End DefaultHeader.

(** ** Updating from a mapping *)

Section Mappings.

Variable native_code : endian_code.
Variable error_level : Z.
Context {pyobj : Type} `{EqDecision pyobj}.
Variable np_setfield :
  endian_code -> np_code -> nat -> pyobj -> exn + list byte.

(** An assignment, whatever its outcome, leaves every other key as it
    reads. *)
Lemma setitem_other (self : AnalyzeHeader (pyobj := pyobj))
    (item item' : string) (value : pyobj) :
  item' <> item ->
  __getitem__ item' (snd (__setitem__ np_setfield item value self))
  = __getitem__ item' self.
Proof.
  intros Hne. unfold __setitem__.
  destruct (find_field header_dtype item 0) as [[[off c] n] |] eqn:Hf.
  - destruct (np_setfield _ c n value) as [e | bs]; [reflexivity |].
    cbn [snd]. unfold __getitem__.
    destruct (find_field header_dtype item' 0) as [[[off' c'] n'] |] eqn:Hf';
      [| reflexivity].
    cbn [_header_data with_data dtype_order data]. do 2 f_equal.
    apply take_drop_inserts_other.
    pose proof (find_field_disjoint _ _ _ _ _ _ _ _ _ _ Hne Hf' Hf) as Hd.
    rewrite length_take. lia.
  - cbn [snd]. unfold __getitem__. cbn [_header_data extra_data].
    destruct (find_field header_dtype item' 0) as [[[off' c'] n'] |];
      [reflexivity |].
    rewrite lookup_insert_ne; [reflexivity |]. intros E. now apply Hne.
Qed.

(** [update] assigns the items in order and stops at the first that
    fails, keeping what was assigned before it.  Whatever the outcome,
    a key that is not among the items reads as before; and items none
    of which names a field of the layout all succeed and end up in the
    ancillary mapping, a later one replacing an earlier one of the same
    key, with the block untouched. *)
Theorem update_touches_its_keys_only (other : list (string * pyobj))
    (self : AnalyzeHeader (pyobj := pyobj)) :
  (forall item',
     (forall v, ~ In (item', v) other) ->
     __getitem__ item' (snd (update np_setfield other self))
     = __getitem__ item' self)
  /\ ((forall k v, In (k, v) other -> find_field header_dtype k 0 = None) ->
      update np_setfield other self
      = (inr tt,
         {| _header_data := _header_data self;
            extra_data :=
              foldl (fun m kv => <[fst kv := snd kv]> m) (extra_data self)
                other |})).
Proof.
  split.
  - intros item' Hno. revert self.
    induction other as [| [key value] rest IH]; intros self; [reflexivity |].
    cbn [update]. unfold bind.
    assert (Hne : item' <> key).
    { intros ->. apply (Hno value). now left. }
    pose proof (setitem_other self key item' value Hne) as E.
    destruct (__setitem__ np_setfield key value self) as [[e | []] self'];
      cbn [snd] in *; [exact E |].
    rewrite IH; [exact E |]. intros v Hin. apply (Hno v). now right.
  - revert self. induction other as [| [key value] rest IH]; intros self Hanc.
    + cbn [update foldl]. unfold ret. now destruct self.
    + cbn [update foldl]. unfold bind, __setitem__.
      rewrite (Hanc key value) by now left.
      rewrite IH by (intros k v Hin; apply (Hanc k v); now right).
      reflexivity.
Qed.

(** [from_mapping] with items none of which names a field of the
    layout gives the default header of the order asked for, holding
    the items as its ancillary mapping, with the checks on or off. *)
Theorem from_mapping_keeps_unknown_keys (mapping : list (string * pyobj))
    (e : option endian_code) (check : bool) :
  (forall k v, In (k, v) mapping -> find_field header_dtype k 0 = None) ->
  from_mapping native_code error_level np_setfield mapping e check
  = inr {| _header_data := _empty_headerdata native_code e;
           extra_data :=
             foldl (fun m kv => <[fst kv := snd kv]> m) ∅ mapping |}.
Proof.
  intros Hanc. unfold from_mapping.
  change (__init__ native_code error_level None e true None)
    with (inr (B := AnalyzeHeader (pyobj := pyobj)) (A := exn)
            {| _header_data := _empty_headerdata native_code e;
               extra_data := ∅ |}).
  cbv iota.
  set (h0 := {| _header_data := _empty_headerdata native_code e;
                extra_data := (∅ : gmap string pyobj) |}).
  assert (Hupd : update np_setfield mapping h0
          = (inr tt,
             {| _header_data := _header_data h0;
                extra_data :=
                  foldl (fun m kv => <[fst kv := snd kv]> m) (extra_data h0)
                    mapping |})).
  { clearbody h0. clear -Hanc. revert h0.
    induction mapping as [| [key value] rest IH]; intros h0.
    - cbn [update foldl]. unfold ret. now destruct h0.
    - cbn [update foldl]. unfold bind, __setitem__.
      rewrite (Hanc key value) by now left.
      rewrite IH by (intros k v Hin; apply (Hanc k v); now right).
      reflexivity. }
  rewrite Hupd. cbn [_header_data extra_data h0].
  destruct check; [| reflexivity].
  set (h := {| _header_data := _empty_headerdata native_code e;
               extra_data := foldl _ ∅ mapping |}).
  assert (Hsz : sizeof_hdr (_header_data h) = 348)
    by (destruct native_code, e as [[] |]; vm_compute; reflexivity).
  assert (Hdt : data_type_codes_dtype native_code (datatype (_header_data h))
                = Some (dtype_of_type native_code np_float32))
    by (destruct native_code, e as [[] |]; vm_compute; reflexivity).
  assert (Hbp : forall dt,
            data_type_codes_dtype native_code (datatype (_header_data h))
            = Some dt ->
            bitpix (_header_data h) = dt_itemsize dt * 8).
  { rewrite Hdt. intros dt E. injection E as <-.
    destruct native_code, e as [[] |]; vm_compute; reflexivity. }
  assert (Hpix : existsb f32_ltb0 (py_slice (pixdims (_header_data h)) 1 4)
                 = false)
    by (destruct native_code, e as [[] |]; vm_compute; reflexivity).
  destruct (run_checks_in_order native_code true h Hsz Hbp Hpix)
    as [Hsame Hclean].
  specialize (Hclean _ Hdt ltac:(discriminate)).
  clearbody h.
  unfold check_fix, BatteryRunner_check_fix.
  destruct (run_checks (_get_checks native_code) true h) as [reports obj].
  cbn [fst snd] in *. subst obj.
  assert (Hlog : log_raise_all error_level reports = inr tt).
  { clear -Hclean. induction Hclean as [| r l [Hr _] _ IH]; [reflexivity |].
    cbn [log_raise_all]. unfold log_raise. rewrite Hr. cbn [Z.eqb negb andb].
    exact IH. }
  now rewrite Hlog.
Qed.

End Mappings.

(** ** What no method does *)

Ltac size_and_order Hlen :=
  cbn [modify raise snd _header_data with_data];
  unfold set_dim, set_dims, set_pixdims, set_bitpix, set_datatype,
    set_sizeof_hdr;
  split;
  [ repeat (rewrite length_set_elems || rewrite length_set_int);
    try exact Hlen; reflexivity
  | repeat (rewrite dtype_order_set_elems
            || (progress (unfold set_int; cbn [dtype_order])));
    reflexivity ].

Section Invariants.

Variable native_code : endian_code.
Variable error_level : Z.
Context {pyobj : Type} `{EqDecision pyobj}.
Variable np_setfield :
  endian_code -> np_code -> nat -> pyobj -> exn + list byte.

(** The checks keep the size of the block and the ancillary mapping. *)
Lemma run_checks_length (fix_ : bool) (h : AnalyzeHeader (pyobj := pyobj)) :
  length (data (_header_data (snd (run_checks (_get_checks native_code)
                                     fix_ h))))
  = length (data (_header_data h)).
Proof.
  unfold _get_checks. rewrite !run_checks_snd. cbn [run_checks snd].
  unfold _chk_sizeof_hdr, _chk_datatype, _chk_bitpix, _chk_pixdims.
  repeat match goal with
         | |- context [if ?c then _ else _] => destruct c
         | |- context [match ?c with Some _ => _ | None => _ end] =>
             destruct c
         end;
    cbn [snd _header_data with_data];
    unfold set_pixdims, set_bitpix, set_sizeof_hdr;
    rewrite ?length_set_elems, ?length_set_int; reflexivity.
Qed.

Lemma setitem_size_and_order (item : string) (value : pyobj)
    (self : AnalyzeHeader (pyobj := pyobj)) :
  length (data (_header_data
                  (snd (__setitem__ np_setfield item value self))))
  = length (data (_header_data self))
  /\ dtype_order (_header_data
                    (snd (__setitem__ np_setfield item value self)))
     = dtype_order (_header_data self).
Proof.
  unfold __setitem__.
  destruct (find_field header_dtype item 0) as [[[off c] n] |];
    [| split; reflexivity].
  destruct (np_setfield _ c n value) as [e | bs]; [split; reflexivity |].
  cbn [snd _header_data with_data data dtype_order].
  split; [apply length_inserts | reflexivity].
Qed.

Lemma update_size_and_order (other : list (string * pyobj))
    (self : AnalyzeHeader (pyobj := pyobj)) :
  length (data (_header_data (snd (update np_setfield other self))))
  = length (data (_header_data self))
  /\ dtype_order (_header_data (snd (update np_setfield other self)))
     = dtype_order (_header_data self).
Proof.
  revert self. induction other as [| [key value] rest IH]; intros self;
    [split; reflexivity |].
  cbn [update]. unfold bind.
  pose proof (setitem_size_and_order key value self) as E.
  destruct (__setitem__ np_setfield key value self) as [[e | []] self'];
    cbn [snd] in *; [exact E |].
  destruct (IH self') as [I1 I2]. destruct E as [E1 E2].
  split; congruence.
Qed.

(** The block of a header is 348 bytes long, always: every header a
    constructor returns has such a block, and every method that
    changes a header, whether it returns or raises, leaves the block
    at 348 bytes and in the byte order it had. *)
Theorem block_size_and_order_are_kept :
  (forall bb e check x (h : AnalyzeHeader (pyobj := pyobj)),
     __init__ native_code error_level bb e check x = inr h ->
     length (binaryblock h) = 348%nat)
  /\ (forall mapping e check (h : AnalyzeHeader (pyobj := pyobj)),
        from_mapping native_code error_level np_setfield mapping e check
        = inr h ->
        length (binaryblock h) = 348%nat)
  /\ (forall (self : AnalyzeHeader (pyobj := pyobj))
             (m : ES (AnalyzeHeader (pyobj := pyobj)) unit),
        length (binaryblock self) = 348%nat ->
        (exists shape, m = set_data_shape shape)
        \/ (exists zooms, m = set_zooms zooms)
        \/ (exists k, m = set_data_dtype native_code k)
        \/ (exists item value, m = __setitem__ np_setfield item value)
        \/ (exists other, m = update np_setfield other)
        \/ m = check_fix native_code error_level ->
        length (binaryblock (snd (m self))) = 348%nat
        /\ endianness native_code (snd (m self))
           = endianness native_code self).
Proof.
  assert (Hempty : forall e,
            length (data (_empty_headerdata native_code e)) = 348%nat).
  { intros e. destruct native_code, e as [[] |]; vm_compute; reflexivity. }
  assert (Hfix : forall h : AnalyzeHeader (pyobj := pyobj),
            length (data (_header_data
                            (snd (check_fix native_code error_level h))))
            = length (data (_header_data h))
            /\ dtype_order (_header_data
                              (snd (check_fix native_code error_level h)))
               = dtype_order (_header_data h)).
  { intros h. unfold check_fix, BatteryRunner_check_fix.
    pose proof (run_checks_length true h) as L.
    pose proof (proj2 (run_checks_dim native_code true h 0 ltac:(lia))) as O.
    destruct (run_checks (_get_checks native_code) true h) as [reports obj].
    cbn [snd] in *. now split. }
  unfold binaryblock, tostring. split; [| split].
  - intros bb e check x h. unfold __init__.
    destruct bb as [bb |].
    + change (itemsize header_dtype) with 348%nat.
      destruct (Nat.eqb_spec (length bb) 348) as [Hl | _]; cbn [negb];
        [| discriminate].
      set (h0 := {| _header_data := _; extra_data := _ |}).
      assert (Hl0 : length (data (_header_data h0)) = 348%nat).
      { subst h0. cbn [_header_data].
        destruct (negb (bool_decide _)); exact Hl. }
      clearbody h0. destruct check.
      * pose proof (proj1 (Hfix h0)) as L.
        destruct (check_fix native_code error_level h0) as [[err | []] h1];
          [discriminate |].
        intros E. injection E as <-. cbn [snd] in L. congruence.
      * intros E. injection E as <-. exact Hl0.
    + intros E. injection E as <-. apply Hempty.
  - intros mapping e check h. unfold from_mapping.
    change (__init__ native_code error_level None e true None)
      with (inr (B := AnalyzeHeader (pyobj := pyobj)) (A := exn)
              {| _header_data := _empty_headerdata native_code e;
                 extra_data := ∅ |}).
    cbv iota.
    set (h0 := {| _header_data := _empty_headerdata native_code e;
                  extra_data := (∅ : gmap string pyobj) |}).
    pose proof (proj1 (update_size_and_order mapping h0)) as L1.
    destruct (update np_setfield mapping h0) as [[err | []] h1];
      [discriminate |].
    cbn [snd] in L1. destruct check.
    + pose proof (proj1 (Hfix h1)) as L2.
      destruct (check_fix native_code error_level h1) as [[err | []] h2];
        [discriminate |].
      intros E. injection E as <-. cbn [snd] in L2.
      rewrite L2, L1. apply Hempty.
    + intros E. injection E as <-. rewrite L1. apply Hempty.
  - intros self m Hlen Hm. rewrite !endianness_dtype_order.
    destruct Hm as [[shape ->] | [[zooms ->] | [[k ->] | [[item [value ->]]
      | [[other ->] | ->]]]]].
    + unfold set_data_shape.
      cbn [bind modify _header_data with_data extra_data].
      destruct (slice_length 8 1 (Z.of_nat (length shape) + 1)
                =? Z.of_nat (length shape)); size_and_order Hlen.
    + unfold set_zooms, bind, get_state.
      repeat match goal with
             | |- context [if ?c then _ else _] => destruct c
             end; size_and_order Hlen.
    + unfold set_data_dtype.
      destruct (data_type_codes native_code k) as [code |];
        [| now split].
      destruct (data_type_codes_dtype native_code code) as [dt |];
        [| now split].
      destruct (bool_decide (dt_type dt = np_void)
                && bool_decide (dt_fields dt = [])); [now split |].
      cbn [bind modify]. size_and_order Hlen.
    + destruct (setitem_size_and_order item value self) as [L O].
      split; congruence.
    + destruct (update_size_and_order other self) as [L O].
      split; congruence.
    + destruct (Hfix self) as [L O]. split; congruence.
Qed.

(** The diagnose-only run of the checks never changes a header, every
    report it returns names a problem, with a severity above 0 and no
    fix, and it returns no report exactly for a header in order: size
    field at 348, a data type code of the table that is not of a void
    type, the bit width of that type, and no negative spatial
    spacing. *)
Theorem check_only_never_repairs (h : AnalyzeHeader (pyobj := pyobj)) :
  snd (check_only native_code h) = h
  /\ Forall (fun r => level r <> 0 /\ problem_msg r <> "" /\ fix_msg r = "")
       (fst (check_only native_code h))
  /\ (fst (check_only native_code h) = []
      <-> sizeof_hdr (_header_data h) = 348
          /\ (exists dt,
                data_type_codes_dtype native_code (datatype (_header_data h))
                = Some dt
                /\ dt_type dt <> np_void
                /\ bitpix (_header_data h) = dt_itemsize dt * 8)
          /\ existsb f32_ltb0 (py_slice (pixdims (_header_data h)) 1 4)
             = false).
Proof.
  unfold check_only, BatteryRunner_check_only, _get_checks.
  cbn [run_checks].
  unfold _chk_sizeof_hdr, _chk_datatype, _chk_bitpix, _chk_pixdims.
  destruct (Z.eqb_spec (sizeof_hdr (_header_data h)) 348) as [Hs | Hs];
    destruct (data_type_codes_dtype native_code (datatype (_header_data h)))
      as [dt |] eqn:Hdt;
    try (destruct (Z.eqb_spec (dt_itemsize dt * 8) (bitpix (_header_data h)))
           as [Hb | Hb]);
    try (case_bool_decide as Hv);
    destruct (existsb f32_ltb0 (py_slice (pixdims (_header_data h)) 1 4))
      eqn:Hp;
    cbn [negb fst snd];
    (split; [reflexivity |]);
    (split;
     [ repeat (rewrite filter_cons; case_decide as Hl;
               cbn in Hl; try (exfalso; apply Hl; reflexivity || lia));
       rewrite ?filter_nil;
       repeat constructor; cbn; (lia || discriminate || reflexivity)
     | ]);
    (split;
     [ intros E;
       repeat (rewrite filter_cons in E; case_decide as Hl;
               cbn in Hl; try discriminate E;
               try (exfalso; apply Hl; lia));
       try discriminate E;
       (split; [assumption || lia |]);
       (split; [exists dt; repeat split; (assumption || lia) | reflexivity])
     | intros (E1 & (dt' & E2 & E3 & E4) & E5);
       try congruence; try lia;
       try (injection E2 as <-; contradiction || lia);
       repeat (rewrite filter_cons; case_decide as Hl;
               cbn in Hl; try (exfalso; apply Hl; reflexivity));
       try reflexivity ]).
Qed.

End Invariants.

(** ** The header of an image *)


Section ImageHeader.

Context {pyobj : Type} `{EqDecision pyobj}.
Variable ndarray : Type.
Variable shape_of : ndarray -> list Z.


End ImageHeader.

(** * The further properties at concrete headers *)

Lemma as_byteswapped_keeps_values_witness :
  length (binaryblock zoomed_header) = 348%nat
  /\ exists h' : AnalyzeHeader (pyobj := Z),
       as_byteswapped little_endian 40 zoomed_header big_endian = inr h'
       /\ endianness little_endian h' = big_endian
       /\ get_data_shape h' = get_data_shape zoomed_header
       /\ get_zooms h' = get_zooms zoomed_header.
Proof.
  split; [reflexivity |].
  destruct (as_byteswapped_keeps_values little_endian 40 zoomed_header
              big_endian eq_refl)
    as (h' & H1 & H2 & _ & _ & H3 & H4 & _).
  exists h'. repeat split; assumption.
Defined.

Lemma equal_headers_read_alike_witness :
  length (binaryblock zoomed_header) = 348%nat
  /\ __eq__ little_endian
       {| _header_data := swapped_data (_header_data zoomed_header);
          extra_data := (∅ : gmap string Z) |} zoomed_header = true
  /\ get_data_shape
       {| _header_data := swapped_data (_header_data zoomed_header);
          extra_data := (∅ : gmap string Z) |}
     = get_data_shape zoomed_header.
Proof.
  assert (Heq : __eq__ little_endian
                  {| _header_data := swapped_data (_header_data zoomed_header);
                     extra_data := (∅ : gmap string Z) |} zoomed_header
                = true) by (vm_compute; reflexivity).
  split; [reflexivity |]. split; [exact Heq |].
  exact (proj1 (proj2 (equal_headers_read_alike little_endian _
                         zoomed_header eq_refl Heq))).
Defined.

Lemma guessed_endian_recovers_order_witness :
  length (data (swapped_data (_header_data zoomed_header))) = 348%nat
  /\ 1 <= dim (swapped_data (_header_data zoomed_header)) 0 <= 7
  /\ _guessed_endian little_endian
       {| dtype_order := little_endian;
          data := data (swapped_data (_header_data zoomed_header)) |}
     = big_endian
  /\ __init__ little_endian 40
       (Some (data (swapped_data (_header_data zoomed_header)))) None true
       None
     = inr {| _header_data := swapped_data (_header_data zoomed_header);
              extra_data := (∅ : gmap string Z) |}.
Proof.
  assert (Hrank : 1 <= dim (swapped_data (_header_data zoomed_header)) 0 <= 7)
    by (vm_compute; split; discriminate).
  assert (Hfix : check_fix little_endian 40
                   {| _header_data := swapped_data (_header_data zoomed_header);
                      extra_data := (∅ : gmap string Z) |}
                 = (inr tt,
                    {| _header_data :=
                         swapped_data (_header_data zoomed_header);
                       extra_data := ∅ |}))
    by (vm_compute; reflexivity).
  split; [reflexivity |]. split; [exact Hrank |].
  pose proof (guessed_endian_recovers_order little_endian 40 (pyobj := Z)
                (swapped_data (_header_data zoomed_header)) true eq_refl
                (or_introl Hrank)) as H.
  cbv zeta in H. destruct H as (H1 & _ & H3).
  split; [exact H1 |]. exact (H3 Hfix).
Defined.

Lemma set_data_shape_too_long_witness :
  length (binaryblock empty_header) = 348%nat
  /\ 7 < Z.of_nat (length (replicate 8 2)) <= 32767
  /\ exists self' : AnalyzeHeader (pyobj := Z),
       set_data_shape (replicate 8 2) empty_header
       = (inl (ValueError "could not broadcast input array"), self')
       /\ get_data_shape self' = replicate 7 1.
Proof.
  assert (Hlong : 7 < Z.of_nat (length (replicate 8 2)) <= 32767)
    by (vm_compute; split; reflexivity || discriminate).
  split; [reflexivity |]. split; [exact Hlong |].
  destruct (set_data_shape_too_long empty_header (replicate 8 2) eq_refl
              Hlong)
    as (self' & H1 & _ & H2).
  exists self'. split; assumption.
Defined.

Lemma set_zooms_outcomes_witness :
  length (binaryblock zoomed_header) = 348%nat
  /\ exists self' : AnalyzeHeader (pyobj := Z),
       set_zooms (map f64_of_Z [4; 5; 6]) zoomed_header = (inr tt, self')
       /\ get_zooms self' = map f64_to_f32 (map f64_of_Z [4; 5; 6]).
Proof.
  split; [reflexivity |].
  pose proof (proj1 (set_zooms_outcomes zoomed_header (map f64_of_Z [4; 5; 6])
                       eq_refl)) as H.
  destruct H as (self' & H1 & H2 & _). exists self'. split; assumption.
Defined.

Lemma check_fix_establishes_witness :
  length (binaryblock broken_header) = 348%nat
  /\ sizeof_hdr
       (_header_data
          (snd (BatteryRunner_check_fix (_get_checks little_endian)
                  broken_header))) = 348
  /\ existsb f32_ltb0
       (py_slice
          (pixdims
             (_header_data
                (snd (BatteryRunner_check_fix (_get_checks little_endian)
                        broken_header)))) 1 4) = false.
Proof.
  split; [reflexivity |].
  pose proof (check_fix_establishes little_endian 40 broken_header eq_refl)
    as H.
  cbv zeta in H. destruct H as (H1 & _ & _ & H2 & _). split; assumption.
Defined.

Lemma accepted_data_type_is_named_witness :
  length (binaryblock empty_header) = 348%nat
  /\ set_data_dtype little_endian (key_label "RGB") empty_header
     = (inr tt,
        snd (set_data_dtype little_endian (key_label "RGB") empty_header))
  /\ exists code label,
       data_type_codes little_endian (key_label "RGB") = Some code
       /\ get_datatype little_endian
            (snd (set_data_dtype little_endian (key_label "RGB")
                    empty_header)) "label" = code_label label
       /\ level (fst (_chk_datatype little_endian
                        (snd (set_data_dtype little_endian (key_label "RGB")
                                empty_header)) false))
          = if code =? 128 then 40 else 0.
Proof.
  split; [reflexivity |]. split; [reflexivity |].
  destruct (accepted_data_type_is_named little_endian empty_header
              (snd (set_data_dtype little_endian (key_label "RGB")
                      empty_header))
              (key_label "RGB") eq_refl eq_refl)
    as (code & label & dt & H1 & _ & H2 & _ & _ & _ & H3 & _).
  exists code, label. split; [exact H1 |]. split; [exact H2 | apply H3].
Defined.

Lemma setitem_then_getitem_witness :
  length (binaryblock empty_header) = 348%nat
  /\ __setitem__ int_setfield "funny key" 0 empty_header
     = (inr tt, funny_header)
  /\ (forall item', item' <> "funny key" ->
        __getitem__ item' funny_header = __getitem__ item' empty_header)
  /\ __getitem__ "funny key" funny_header = inr (extra_value 0).
Proof.
  split; [reflexivity |]. split; [reflexivity |].
  destruct (setitem_then_getitem little_endian int_setfield empty_header
              funny_header "funny key" 0 eq_refl eq_refl)
    as (H1 & _ & _ & H2).
  split; [exact H1 |]. exact (proj1 H2).
Defined.

Lemma header_survives_file_witness :
  length (binaryblock zoomed_header) = 348%nat
  /\ write_header_to StringIO StringIO_write zoomed_header
       {| getvalue := []; pos := 0 |}
     = (inr tt, {| getvalue := binaryblock zoomed_header; pos := 348 |})
  /\ StringIO_seek 0 {| getvalue := binaryblock zoomed_header; pos := 348 |}
     = (inr tt, {| getvalue := binaryblock zoomed_header; pos := 0 |})
  /\ exists f3,
       forall check,
         from_fileobj little_endian 40 StringIO StringIO_read
           (Some little_endian) check
           {| getvalue := binaryblock zoomed_header; pos := 0 |}
         = (inr {| _header_data := _header_data zoomed_header;
                   extra_data := (∅ : gmap string Z) |}, f3).
Proof.
  assert (Hw : write_header_to StringIO StringIO_write zoomed_header
                 {| getvalue := []; pos := 0 |}
               = (inr tt,
                  {| getvalue := binaryblock zoomed_header; pos := 348 |}))
    by (vm_compute; reflexivity).
  assert (Hfix : check_fix little_endian 40
                   {| _header_data := _header_data zoomed_header;
                      extra_data := (∅ : gmap string Z) |}
                 = (inr tt,
                    {| _header_data := _header_data zoomed_header;
                       extra_data := ∅ |}))
    by (vm_compute; reflexivity).
  split; [reflexivity |]. split; [exact Hw |].
  split; [reflexivity |].
  pose proof (header_survives_file little_endian 40 StringIO StringIO_read
                StringIO_write pos StringIO_seek StringIO_read_after_write
                zoomed_header {| getvalue := []; pos := 0 |}
                {| getvalue := binaryblock zoomed_header; pos := 348 |}
                {| getvalue := binaryblock zoomed_header; pos := 0 |}
                eq_refl Hw eq_refl) as H.
  cbv zeta in H. destruct H as (f3 & H1 & _ & H3 & _).
  exists f3. intros check. rewrite <- (H3 Hfix check). apply H1.
Defined.

Lemma from_mapping_keeps_unknown_keys_witness :
  (forall k v, In (k, v) [("unlikely key", 1)] ->
     find_field header_dtype k 0 = None)
  /\ from_mapping little_endian 40 int_setfield [("unlikely key", 1)] None true
     = inr {| _header_data := _empty_headerdata little_endian None;
              extra_data := <["unlikely key" := 1]> (∅ : gmap string Z) |}.
Proof.
  assert (H : forall (k : string) (v : Z),
            In (k, v) [("unlikely key", 1)] ->
            find_field header_dtype k 0 = None).
  { intros k v [E | []]. injection E as <- <-. reflexivity. }
  split; [exact H |].
  exact (from_mapping_keeps_unknown_keys little_endian 40 int_setfield
           [("unlikely key", 1)] None true H).
Defined.

